(** * Eyegle core: gaze mapping, cursor smoothing, blink detection, safety gate

    A shallow embedding of the estimation and gating core of the Eyegle
    eye-tracking controller:

    - [src/core/gaze_mapper.py]       -> [Module GazeMapper]
    - [src/core/smoother.py]          -> [Module Smoother], [Module EMAFilter],
                                         [Module KalmanFilter],
                                         [Module CursorSmoother]
    - [src/core/expression_engine.py] -> [Module ExpressionEngine]
    - [src/utils/safety.py]           -> [Module SafetyManager]
    - [src/calibration/calibrator.py] -> [Module Calibrator]
    - [src/utils/fps.py]              -> [Module FPSCounter]
    - [src/core/controller.py]        -> [Module SystemController]

    Conventions.  Python floats are embedded as exact numbers: rationals [Q]
    where the code only adds, multiplies, divides and compares (so that the
    definitions evaluate), reals [R] where it takes square roots and real
    powers.  Rounding is therefore not modelled.  Every call of [time.time()]
    becomes an explicit argument holding the clock reading.  Mutable objects
    become records that are passed in and returned.  Python exceptions that
    the code can raise or catch are [None] results. *)

From Stdlib Require Import QArith Qminmax Qabs Lqa Reals Lra Lia List String ZArith Bool.
From stdpp Require Import base gmap strings.
Import ListNotations.

(* ===================================================================== *)
(** * Definitions *)
(* ===================================================================== *)

(** ** The numpy operations the core relies on, in exact arithmetic *)

Module Numpy.
Local Open Scope Q_scope.

Definition vector := list Q.
Definition matrix := list (list Q).

(** [np.clip(x, lo, hi)] is [minimum(maximum(x, lo), hi)]. *)
Definition clip (x lo hi : Q) : Q := Qmin (Qmax x lo) hi.

(** [a < b] on floats, as a boolean. *)
Definition ltb (a b : Q) : bool := negb (Qle_bool b a).

Definition dot (u v : vector) : Q :=
  fold_right Qplus 0 (map (fun p => fst p * snd p) (combine u v)).

(** [M @ v] for a 2-D [M] and a 1-D [v]; numpy raises [ValueError] when a
    row of [M] and [v] differ in length. *)
Definition matvec (M : matrix) (v : vector) : option vector :=
  if forallb (fun row => Nat.eqb (length row) (length v)) M
  then Some (map (fun row => dot row v) M)
  else None.

(** [M.T] for a rectangular [M]. *)
Definition transpose (M : matrix) : matrix :=
  match M with
  | [] => []
  | r :: _ => map (fun j => map (fun row => nth j row 0) M) (seq 0 (length r))
  end.

Definition matmul (A B : matrix) : matrix :=
  map (fun row => map (fun col => dot row col) (transpose B)) A.

(** *** Least squares

    [np.linalg.lstsq(a, b, rcond=None)[0]] returns the least-squares solution
    of [a @ x = b]; when [a] is rank deficient it returns the solution of
    minimum norm and does not raise.  In exact arithmetic that solution is
    [x = G z] for any [z] with [G G z = a.T b], where [G = a.T a]: such an [x]
    satisfies the normal equations and lies in the row space of [a].  The
    system for [z] is always consistent and is solved by Gauss-Jordan
    elimination with free variables set to zero. *)

Definition scale (c : Q) (r : vector) : vector := map (Qmult c) r.

(** [s - c * r], entry by entry. *)
Definition axpy (c : Q) (r s : vector) : vector :=
  map (fun p => snd p - c * fst p) (combine r s).

Fixpoint pick_pivot (j : nat) (rows : matrix) : option (vector * matrix) :=
  match rows with
  | [] => None
  | r :: rest =>
      if Qeq_bool (nth j r 0) 0
      then match pick_pivot j rest with
           | Some (p, others) => Some (p, r :: others)
           | None => None
           end
      else Some (r, rest)
  end.

(** [reduced] holds the rows that already own a pivot column. *)
Fixpoint eliminate (cols : list nat) (reduced : list (nat * vector))
    (todo : matrix) : list (nat * vector) :=
  match cols with
  | [] => reduced
  | j :: cols' =>
      match pick_pivot j todo with
      | None => eliminate cols' reduced todo
      | Some (p, others) =>
          let p' := scale (/ nth j p 0) p in
          let clear r := axpy (nth j r 0) p' r in
          eliminate cols'
            ((j, p') :: map (fun d => (fst d, clear (snd d))) reduced)
            (map clear others)
      end
  end.

Fixpoint pivot_row (j : nat) (reduced : list (nat * vector)) : option vector :=
  match reduced with
  | [] => None
  | (i, r) :: rest => if Nat.eqb i j then Some r else pivot_row j rest
  end.

(** One solution [Z] of [M Z = C] for a consistent system, [M] being
    [n] columns wide and [C] being [k] columns wide. *)
Definition solve (n k : nat) (M C : matrix) : matrix :=
  let aug := map (fun p => fst p ++ snd p) (combine M C) in
  let reduced := eliminate (seq 0 n) [] aug in
  map (fun j => match pivot_row j reduced with
                | Some r => skipn n r
                | None => repeat 0 k
                end) (seq 0 n).

Definition width (M : matrix) : nat :=
  match M with [] => O | r :: _ => length r end.

(** Fractions are kept in lowest terms between the steps. *)
Definition reduce (M : matrix) : matrix := map (map Qred) M.

(** [None] stands for [LinAlgError], raised here when [a] and [b] differ in
    their number of rows. *)
Definition lstsq (a b : matrix) : option matrix :=
  if Nat.eqb (length a) (length b) then
    let a' := reduce a in
    let aT := transpose a' in
    let G := reduce (matmul aT a') in
    let Z := solve (width a) (width b) (reduce (matmul G G))
               (reduce (matmul aT (reduce b))) in
    Some (reduce (matmul G (reduce Z)))
  else None.

(** [np.linalg.lstsq(a, b, rcond=None)[0]] for a 1-D right-hand side [b]:
    the solution is 1-D as well. *)
Definition lstsq_1d (a : matrix) (b : vector) : option vector :=
  match lstsq a (map (fun x => [x]) b) with
  | Some x => Some (map (fun row => nth 0 row 0) x)
  | None => None
  end.

End Numpy.

(** ** src/core/gaze_mapper.py *)

Module GazeMapper.
Import Numpy.
Local Open Scope Q_scope.

(** A 2-element array [[x, y]]. *)
Definition vec2 : Type := Q * Q.

Record CalibrationPoint := mkCalibrationPoint {
  screen_pos : vec2;
  gaze_pos : vec2;
  iris_left : option vec2;
  iris_right : option vec2
}.

(** What the logger receives from [compute_calibration]. *)
Inductive log_record :=
| WarnNeedAtLeast4Points
| InfoCalibrationComplete (n : nat)
| ErrorCalibrationFailed.

Record GazeMapper := mkGazeMapper {
  screen_width : Z;
  screen_height : Z;
  calibration_points : list CalibrationPoint;
  is_calibrated : bool;
  transform_matrix : option matrix;
  eye_dominance : string
}.

Definition set_transform (gm : GazeMapper) (t : option matrix) : GazeMapper :=
  mkGazeMapper (screen_width gm) (screen_height gm) (calibration_points gm)
    (is_calibrated gm) t (eye_dominance gm).

(** The fallback matrix [[W/2, 0, W/2], [0, H/2, H/2]]. *)
Definition default_matrix (W H : Z) : matrix :=
  [ [inject_Z W / 2; 0; inject_Z W / 2];
    [0; inject_Z H / 2; inject_Z H / 2] ].

Definition _init_default_mapping (gm : GazeMapper) : GazeMapper :=
  set_transform gm (Some (default_matrix (screen_width gm) (screen_height gm))).

(** [GazeMapper.__init__]; [dominance] is [config.get('eye_dominance')]. *)
Definition init (dominance : option string) (W H : Z) : GazeMapper :=
  _init_default_mapping
    (mkGazeMapper W H [] false None
       (match dominance with Some d => d | None => "both"%string end)).

Definition normalize (iris : vec2) (frame_width frame_height : Z) : vec2 :=
  ((fst iris / inject_Z frame_width) * 2 - 1,
   (snd iris / inject_Z frame_height) * 2 - 1).

(** [np.mean([a, b], axis=0)]. *)
Definition mean2 (a b : vec2) : vec2 :=
  ((fst a + fst b) / 2, (snd a + snd b) / 2).

Definition estimate_gaze (gm : GazeMapper) (left_iris right_iris : option vec2)
    (frame_width frame_height : Z) : option vec2 :=
  match left_iris, right_iris with
  | None, None => None
  | Some l, None => Some (normalize l frame_width frame_height)
  | None, Some r => Some (normalize r frame_width frame_height)
  | Some l, Some r =>
      let left_norm := normalize l frame_width frame_height in
      let right_norm := normalize r frame_width frame_height in
      if String.eqb (eye_dominance gm) "left" then Some left_norm
      else if String.eqb (eye_dominance gm) "right" then Some right_norm
      else Some (mean2 left_norm right_norm)
  end.

(** [None] stands for the exceptions of the matrix product and of the
    indexing: no matrix, a row not 3 wide, fewer than 2 rows. *)
Definition gaze_to_screen (gm : GazeMapper) (gaze : vec2) : option vector :=
  match transform_matrix gm with
  | None => None
  | Some M =>
      match matvec M [fst gaze; snd gaze; 1] with
      | Some (x :: y :: rest) =>
          Some (clip x 0 (inject_Z (screen_width gm))
                :: clip y 0 (inject_Z (screen_height gm)) :: rest)
      | _ => None
      end
  end.

Definition add_calibration_point (gm : GazeMapper) (target : vec2)
    (left_iris right_iris : option vec2) (frame_width frame_height : Z)
    : GazeMapper :=
  match estimate_gaze gm left_iris right_iris frame_width frame_height with
  | Some gaze =>
      mkGazeMapper (screen_width gm) (screen_height gm)
        (calibration_points gm
           ++ [mkCalibrationPoint target gaze left_iris right_iris])
        (is_calibrated gm) (transform_matrix gm) (eye_dominance gm)
  | None => gm
  end.

Definition gaze_matrix (pts : list CalibrationPoint) : matrix :=
  map (fun p => [fst (gaze_pos p); snd (gaze_pos p); 1]) pts.

Definition screen_matrix (pts : list CalibrationPoint) : matrix :=
  map (fun p => [fst (screen_pos p); snd (screen_pos p)]) pts.

Section Calibration.

(** [np.linalg.lstsq(a, b, rcond=None)[0]]; [None] when it raises, which the
    [try] block of [compute_calibration] catches. *)
Variable lstsq : matrix -> matrix -> option matrix.

(** Returns the boolean result, what was logged, and the mapper afterwards. *)
Definition compute_calibration (gm : GazeMapper)
    : bool * list log_record * GazeMapper :=
  if (length (calibration_points gm) <? 4)%nat
  then (false, [WarnNeedAtLeast4Points], gm)
  else
    match lstsq (gaze_matrix (calibration_points gm))
                (screen_matrix (calibration_points gm)) with
    | Some transform_T =>
        (true,
         [InfoCalibrationComplete (length (calibration_points gm))],
         mkGazeMapper (screen_width gm) (screen_height gm)
           (calibration_points gm) true (Some (transpose transform_T))
           (eye_dominance gm))
    | None => (false, [ErrorCalibrationFailed], gm)
    end.

End Calibration.

Definition reset_calibration (gm : GazeMapper) : GazeMapper :=
  _init_default_mapping
    (mkGazeMapper (screen_width gm) (screen_height gm) [] false
       (transform_matrix gm) (eye_dominance gm)).

(** The document that [save_calibration] writes with [json.dump] and that
    [load_calibration] reads back with [json.load]. *)
Record calibration_file := mkCalibrationFile {
  file_screen_width : Z;
  file_screen_height : Z;
  file_eye_dominance : option string;   (* [None]: the key is missing *)
  file_transform_matrix : option (list (list Q));   (* [None]: null *)
  file_calibration_points : nat
}.

(** The files on disk, by path.  A path that is absent stands for every
    file that [open] or [json.load] rejects and for every document without
    one of the keys that are read first. *)
Abbreviation file_store := (gmap string calibration_file).

Definition calibration_document (gm : GazeMapper) : calibration_file :=
  mkCalibrationFile (screen_width gm) (screen_height gm)
    (Some (eye_dominance gm))
    (transform_matrix gm) (length (calibration_points gm)).

(** [writable] tells whether creating the directory and writing the file
    succeed; when they raise, the [except] branch returns [False]. *)
Definition save_calibration (gm : GazeMapper) (files : file_store)
    (filepath : string) (writable : bool) : bool * file_store :=
  if writable
  then (true, <[filepath := calibration_document gm]> files)
  else (false, files).

(** [np.array(rows)] for a list of rows of numbers as [json.load] returns
    it: rows of unequal length make it raise [ValueError]. *)
Definition np_array (rows : list (list Q)) : option matrix :=
  if forallb (fun row => Nat.eqb (length row) (width rows)) rows
  then Some rows
  else None.

Definition load_calibration (gm : GazeMapper) (files : file_store)
    (filepath : string) : bool * GazeMapper :=
  match files !! filepath with
  | None => (false, gm)
  | Some data =>
      if negb (Z.eqb (file_screen_width data) (screen_width gm))
         || negb (Z.eqb (file_screen_height data) (screen_height gm))
      then (false, gm)
      else
        match file_transform_matrix data with
        | Some rows =>
            match np_array rows with
            | Some M =>
                match file_eye_dominance data with
                | Some dominance =>
                    (true,
                     mkGazeMapper (screen_width gm) (screen_height gm)
                       (calibration_points gm) true (Some M) dominance)
                | None =>
                    (* [KeyError] after the matrix has been stored *)
                    (false,
                     mkGazeMapper (screen_width gm) (screen_height gm)
                       (calibration_points gm) (is_calibrated gm) (Some M)
                       (eye_dominance gm))
                end
            | None => (false, gm)    (* [ValueError], nothing stored yet *)
            end
        | None => (false, gm)
        end
  end.

Definition get_calibration_quality (gm : GazeMapper) : Q :=
  if negb (is_calibrated gm) || (length (calibration_points gm) <? 4)%nat
  then 0
  else Qmin (inject_Z (Z.of_nat (length (calibration_points gm))) / 9) 1.

(** One entry of the list handed to [set_calibration_data]: the keys
    ['screen_pos'], ['left_iris'] and ['right_iris']. *)
Record calibration_entry := mkCalibrationEntry {
  entry_screen_pos : vec2;
  entry_left_iris : vec2;
  entry_right_iris : vec2
}.

(** The gaze that [set_calibration_data] derives from an entry: the mean of
    the two irises, normalised for a 1280 x 720 frame. *)
Definition entry_gaze (p : calibration_entry) : vec2 :=
  let avg_iris_x := (fst (entry_left_iris p) + fst (entry_right_iris p)) / 2 in
  let avg_iris_y := (snd (entry_left_iris p) + snd (entry_right_iris p)) / 2 in
  (avg_iris_x / 640 - 1, avg_iris_y / 360 - 1).

Section CalibrationData.

(** [np.linalg.lstsq] with a 1-D right-hand side; [None] when it raises. *)
Variable lstsq_1d : matrix -> vector -> option vector.

Definition set_calibration_data (gm : GazeMapper)
    (calibration_data : list calibration_entry) : bool * GazeMapper :=
  if (length calibration_data <? 4)%nat then (false, gm)
  else
    let screen_points :=
      map (fun p => [fst (entry_screen_pos p); snd (entry_screen_pos p)])
          calibration_data in
    let gaze_points :=
      map (fun p => [fst (entry_gaze p); snd (entry_gaze p)]) calibration_data in
    (* np.column_stack([gaze_points, np.ones(len(gaze_points))]) *)
    let gaze_homogeneous := map (fun g => g ++ [1]) gaze_points in
    match lstsq_1d gaze_homogeneous (map (fun s => nth 0 s 0) screen_points) with
    | None => (false, gm)
    | Some transform_x =>
        match lstsq_1d gaze_homogeneous
                (map (fun s => nth 1 s 0) screen_points) with
        | None => (false, gm)
        | Some transform_y =>
            (true,
             mkGazeMapper (screen_width gm) (screen_height gm)
               (calibration_points gm) true
               (Some [transform_x; transform_y]) (eye_dominance gm))
        end
    end.

End CalibrationData.

End GazeMapper.

(** ** Bounded deques ([collections.deque(maxlen=n)]), oldest entry first *)

Module Collections.

(** [d.append(x)]: when the deque is full the oldest entries fall out. *)
Definition deque_append {A : Type} (maxlen : nat) (d : list A) (x : A) : list A :=
  let d' := (d ++ [x])%list in
  skipn (length d' - maxlen) d'.

End Collections.

(** ** src/core/smoother.py: the velocity / dead-zone stage *)

Module Smoother.
Local Open Scope R_scope.

Definition vec2 : Type := R * R.

(** [np.linalg.norm] of a 2-element array. *)
Definition norm (v : vec2) : R := sqrt (fst v * fst v + snd v * snd v).

Definition clip (x lo hi : R) : R := Rmin (Rmax x lo) hi.

(** [x ** y] for a base [x >= 0] and an exponent [y >= 0]. *)
Definition float_pow (x y : R) : R :=
  if Req_dec_T x 0
  then (if Req_dec_T y 0 then 1 else 0)
  else Rpower x y.

Record VelocityBasedSmoother := mkSmoother {
  dead_zone : R;
  acceleration : R;
  center : option vec2;
  velocity_history : list vec2   (* deque(maxlen=5) *)
}.

(** [VelocityBasedSmoother.__init__], defaults 15 and 1.5. *)
Definition init (dz accel : option R) : VelocityBasedSmoother :=
  mkSmoother (match dz with Some d => d | None => 15 end)
             (match accel with Some a => a | None => 3 / 2 end)
             None [].

(** The anchor the stage works with: the stored centre or, on a first call,
    the middle of the screen. *)
Definition anchor (s : VelocityBasedSmoother) (screen_size : Z * Z) : vec2 :=
  match center s with
  | Some c => c
  | None => (IZR (fst screen_size) / 2, IZR (snd screen_size) / 2)
  end.

Definition apply (s : VelocityBasedSmoother) (position : vec2)
    (screen_size : Z * Z) : vec2 * VelocityBasedSmoother :=
  let c := anchor s screen_size in
  let s1 := mkSmoother (dead_zone s) (acceleration s) (Some c)
              (velocity_history s) in
  let diff := (fst position - fst c, snd position - snd c) in
  let distance := norm diff in
  if Rlt_dec distance (dead_zone s) then (c, s1)
  else
    let s2 := mkSmoother (dead_zone s) (acceleration s) (Some c)
                (Collections.deque_append 5 (velocity_history s) position) in
    let screen_diagonal :=
      norm (IZR (fst screen_size), IZR (snd screen_size)) in
    let distance_ratio := distance / (screen_diagonal / 2) in
    let accel_factor := 1 + float_pow distance_ratio (acceleration s) in
    let result := (fst c + fst diff * accel_factor,
                   snd c + snd diff * accel_factor) in
    ((clip (fst result) 0 (IZR (fst screen_size)),
      clip (snd result) 0 (IZR (snd screen_size))), s2).

Definition reset (s : VelocityBasedSmoother) : VelocityBasedSmoother :=
  mkSmoother (dead_zone s) (acceleration s) None [].

End Smoother.

(** ** src/core/tracker.py: the observation record *)

Module Tracker.

Record EyeData := mkEyeData {
  left_eye_aspect_ratio : Q;
  right_eye_aspect_ratio : Q;
  face_detected : bool;
  confidence : Q
}.

End Tracker.

(** ** src/core/expression_engine.py *)

Module ExpressionEngine.
Import Numpy Tracker.
Local Open Scope Q_scope.

Inductive Expression :=
| NONE | BLINK_LEFT | BLINK_RIGHT | BLINK_BOTH | BLINK_BOTH_LONG
| EYEBROW_RAISE | EYEBROW_LOWER | SMILE | JAW_OPEN
| HEAD_TILT_LEFT | HEAD_TILT_RIGHT | HEAD_NOD | HEAD_SHAKE.

Definition is_none (x : Expression) : bool :=
  match x with NONE => true | _ => false end.

Record ExpressionState := mkExpressionState {
  expression : Expression;
  confidence : Q;
  duration : Q;
  start_time : Q
}.

(** [ExpressionState(Expression.NONE)], the other fields at their defaults. *)
Definition state_none : ExpressionState := mkExpressionState NONE 0 0 0.

Record ExpressionEngine := mkEngine {
  blink_threshold : Q;
  long_blink_duration : Q;
  blink_cooldown : Q;
  current_state : ExpressionState;
  last_blink_time : Q;
  baseline_left_ear : Q;
  baseline_right_ear : Q;
  baseline_samples : list (Q * Q);
  baseline_initialized : bool;
  left_eye_closed : bool;
  right_eye_closed : bool;
  both_eyes_closed : bool;
  blink_start_time : Q
}.

(** [ExpressionEngine.__init__]; the arguments are the three [config.get]
    lookups, with defaults 0.2, 500 ms and 200 ms. *)
Definition init (threshold long_ms cooldown_ms : option Q) : ExpressionEngine :=
  mkEngine (match threshold with Some t => t | None => 2 # 10 end)
           (match long_ms with Some m => m | None => 500 end / 1000)
           (match cooldown_ms with Some m => m | None => 200 end / 1000)
           state_none 0 (3 # 10) (3 # 10) [] false false false false 0.

(** Field updates of the blink latches and of the shared timer. *)
Definition with_blink (e : ExpressionEngine) (l r b : bool) (t0 : Q)
    : ExpressionEngine :=
  mkEngine (blink_threshold e) (long_blink_duration e) (blink_cooldown e)
    (current_state e) (last_blink_time e) (baseline_left_ear e)
    (baseline_right_ear e) (baseline_samples e) (baseline_initialized e)
    l r b t0.

Definition with_state (e : ExpressionEngine) (st : ExpressionState)
    (last : Q) : ExpressionEngine :=
  mkEngine (blink_threshold e) (long_blink_duration e) (blink_cooldown e)
    st last (baseline_left_ear e) (baseline_right_ear e)
    (baseline_samples e) (baseline_initialized e) (left_eye_closed e)
    (right_eye_closed e) (both_eyes_closed e) (blink_start_time e).

(** [np.mean] of a list of floats. *)
Definition mean (l : list Q) : Q :=
  fold_right Qplus 0 l / inject_Z (Z.of_nat (length l)).

Definition update_baseline (e : ExpressionEngine) (eye_data : EyeData)
    : ExpressionEngine :=
  if negb (face_detected eye_data) then e
  else if (length (baseline_samples e) <? 30)%nat then
    mkEngine (blink_threshold e) (long_blink_duration e) (blink_cooldown e)
      (current_state e) (last_blink_time e) (baseline_left_ear e)
      (baseline_right_ear e)
      (baseline_samples e
         ++ [(left_eye_aspect_ratio eye_data, right_eye_aspect_ratio eye_data)])
      (baseline_initialized e) (left_eye_closed e) (right_eye_closed e)
      (both_eyes_closed e) (blink_start_time e)
  else
    mkEngine (blink_threshold e) (long_blink_duration e) (blink_cooldown e)
      (current_state e) (last_blink_time e)
      (mean (map fst (baseline_samples e)))
      (mean (map snd (baseline_samples e)))
      (baseline_samples e) true (left_eye_closed e) (right_eye_closed e)
      (both_eyes_closed e) (blink_start_time e).

Definition eye_closed (ear baseline threshold : Q) : bool :=
  ltb ear (baseline * threshold).

(** The statements of [_detect_blink] in order; every [return] of the source
    is a branch that yields its result and the engine as mutated so far. *)
Definition _detect_blink (e : ExpressionEngine) (eye_data : EyeData)
    (current_time : Q) : Expression * ExpressionEngine :=
  let left_closed :=
    eye_closed (left_eye_aspect_ratio eye_data) (baseline_left_ear e)
      (blink_threshold e) in
  let right_closed :=
    eye_closed (right_eye_aspect_ratio eye_data) (baseline_right_ear e)
      (blink_threshold e) in
  let both_closed := left_closed && right_closed in
  (* Detect blink start *)
  let e1 :=
    if both_closed && negb (both_eyes_closed e)
    then with_blink e (left_eye_closed e) (right_eye_closed e) true current_time
    else e in
  (* Detect blink end (both eyes) *)
  if both_eyes_closed e1 && negb both_closed then
    let blink_duration := current_time - blink_start_time e1 in
    let e2 := with_blink e1 (left_eye_closed e1) (right_eye_closed e1) false 0 in
    if Qle_bool (long_blink_duration e) blink_duration
    then (BLINK_BOTH_LONG, e2)
    else (BLINK_BOTH, e2)
  else
  (* Detect single eye blinks (only if other eye is open) *)
  let e3 :=
    if left_closed && negb (left_eye_closed e1) && negb right_closed
    then with_blink e1 true (right_eye_closed e1) (both_eyes_closed e1)
           current_time
    else e1 in
  let left_reopened := left_eye_closed e3 && negb left_closed in
  let left_duration := current_time - blink_start_time e3 in
  let e4 :=
    if left_reopened
    then with_blink e3 false (right_eye_closed e3) (both_eyes_closed e3) 0
    else e3 in
  if left_reopened && ltb left_duration (3 # 10) then (BLINK_LEFT, e4)
  else
  let e5 :=
    if right_closed && negb (right_eye_closed e4) && negb left_closed
    then with_blink e4 (left_eye_closed e4) true (both_eyes_closed e4)
           current_time
    else e4 in
  let right_reopened := right_eye_closed e5 && negb right_closed in
  let right_duration := current_time - blink_start_time e5 in
  let e6 :=
    if right_reopened
    then with_blink e5 (left_eye_closed e5) false (both_eyes_closed e5) 0
    else e5 in
  if right_reopened && ltb right_duration (3 # 10) then (BLINK_RIGHT, e6)
  else (NONE, e6).

(** [current_time] is the reading of [time.time()] at entry. *)
Definition detect_expression (e : ExpressionEngine) (eye_data : EyeData)
    (current_time : Q) : ExpressionState * ExpressionEngine :=
  if negb (face_detected eye_data) then
    (state_none, with_state e state_none (last_blink_time e))
  else if negb (baseline_initialized e) then
    let e' := update_baseline e eye_data in (current_state e', e')
  else if ltb (current_time - last_blink_time e) (blink_cooldown e) then
    (current_state e, e)
  else
    let '(expr, e1) := _detect_blink e eye_data current_time in
    if is_none expr then (current_state e1, e1)
    else
      let st :=
        mkExpressionState expr (Tracker.confidence eye_data)
          (if ltb 0 (blink_start_time e1)
           then current_time - blink_start_time e1 else 0)
          current_time in
      (st, with_state e1 st current_time).

Definition reset (e : ExpressionEngine) : ExpressionEngine :=
  mkEngine (blink_threshold e) (long_blink_duration e) (blink_cooldown e)
    state_none (last_blink_time e) (baseline_left_ear e)
    (baseline_right_ear e) [] false false false false 0.

(** Feeding a sequence of timed observations, collecting what
    [_detect_blink] classifies on the frames that reach it ([None] on the
    frames that [detect_expression] answers without calling it). *)
Definition classify_frame (e : ExpressionEngine) (eye_data : EyeData)
    (current_time : Q) : option Expression :=
  if negb (face_detected eye_data) then None
  else if negb (baseline_initialized e) then None
  else if ltb (current_time - last_blink_time e) (blink_cooldown e) then None
  else Some (fst (_detect_blink e eye_data current_time)).

Fixpoint run (e : ExpressionEngine) (frames : list (Q * EyeData))
    : list (option Expression) * ExpressionEngine :=
  match frames with
  | [] => ([], e)
  | (t, d) :: rest =>
      let c := classify_frame e d t in
      let '(cs, e') := run (snd (detect_expression e d t)) rest in
      (c :: cs, e')
  end.

(** The lookup [action_map.get(expression)]. *)
Definition action_key (x : Expression) : option string :=
  match x with
  | NONE => None
  | BLINK_BOTH => Some "blink_both_short"
  | BLINK_BOTH_LONG => Some "blink_both_long"
  | BLINK_LEFT => Some "blink_left"
  | BLINK_RIGHT => Some "blink_right"
  | EYEBROW_RAISE => Some "eyebrow_raise"
  | EYEBROW_LOWER => Some "eyebrow_lower"
  | SMILE => Some "smile"
  | JAW_OPEN => Some "jaw_open"
  | HEAD_TILT_LEFT => Some "head_tilt_left"
  | HEAD_TILT_RIGHT => Some "head_tilt_right"
  | HEAD_NOD => Some "head_nod"
  | HEAD_SHAKE => Some "head_shake"
  end%string.

(** [actions] is [config.get('actions')], [None] when the key is missing. *)
Definition get_action_for_expression (actions : option (gmap string string))
    (x : Expression) : option string :=
  match action_key x with
  | Some key => default ∅ actions !! key
  | None => None
  end.

End ExpressionEngine.

(** ** src/utils/safety.py *)

Module SafetyManager.
Import Numpy.
Local Open Scope Q_scope.

Record SafetyManager := mkSafety {
  enabled : bool;
  paused : bool;
  click_times : list Q;               (* deque(maxlen=10) *)
  max_clicks_per_second : Z;
  last_face_time : Q;
  no_face_timeout : Q;
  action_cooldowns : gmap string Q;
  cooldown_times : gmap string Q;
  require_confirmation : list string;
  pending_confirmations : gmap string Q;
  emergency_callback : bool            (* is a callback installed *)
}.

Definition default_cooldown_times : gmap string Q :=
  <["click" := 2 # 10]> (<["scroll" := 1 # 10]> (<["key" := 3 # 10]> ∅)).

(** [SafetyManager.__init__]; the first three arguments are the [config.get]
    lookups (defaults 3, 2000 ms, no action), [now] is [time.time()]. *)
Definition init (max_clicks : option Z) (auto_pause_no_face_ms : option Q)
    (confirm : option (list string)) (now : Q) : SafetyManager :=
  mkSafety true false []
    (match max_clicks with Some n => n | None => 3%Z end)
    now
    (match auto_pause_no_face_ms with Some m => m | None => 2000 end / 1000)
    ∅ default_cooldown_times
    (match confirm with Some l => l | None => [] end)
    ∅ false.

Definition with_paused (s : SafetyManager) (p : bool) : SafetyManager :=
  mkSafety (enabled s) p (click_times s) (max_clicks_per_second s)
    (last_face_time s) (no_face_timeout s) (action_cooldowns s)
    (cooldown_times s) (require_confirmation s) (pending_confirmations s)
    (emergency_callback s).

Definition with_last_face_time (s : SafetyManager) (t : Q) : SafetyManager :=
  mkSafety (enabled s) (paused s) (click_times s) (max_clicks_per_second s)
    t (no_face_timeout s) (action_cooldowns s)
    (cooldown_times s) (require_confirmation s) (pending_confirmations s)
    (emergency_callback s).

Definition with_click_times (s : SafetyManager) (d : list Q) : SafetyManager :=
  mkSafety (enabled s) (paused s) d (max_clicks_per_second s)
    (last_face_time s) (no_face_timeout s) (action_cooldowns s)
    (cooldown_times s) (require_confirmation s) (pending_confirmations s)
    (emergency_callback s).

Definition with_action_cooldowns (s : SafetyManager) (m : gmap string Q)
    : SafetyManager :=
  mkSafety (enabled s) (paused s) (click_times s) (max_clicks_per_second s)
    (last_face_time s) (no_face_timeout s) m
    (cooldown_times s) (require_confirmation s) (pending_confirmations s)
    (emergency_callback s).

Definition update_face_detection (s : SafetyManager) (face_detected : bool)
    (now : Q) : SafetyManager :=
  if face_detected then
    let s1 := with_last_face_time s now in
    if paused s1 && enabled s1 then with_paused s1 false else s1
  else
    let time_since_face := now - last_face_time s in
    if ltb (no_face_timeout s) time_since_face then with_paused s true else s.

(** The [while] loop of [_check_click_rate]: pop from the left as long as the
    oldest entry is more than one second old. *)
Fixpoint remove_old_clicks (current_time : Q) (d : list Q) : list Q :=
  match d with
  | [] => []
  | t :: rest =>
      if ltb 1 (current_time - t) then remove_old_clicks current_time rest
      else d
  end.

Definition _check_click_rate (s : SafetyManager) (current_time : Q)
    : bool * SafetyManager :=
  let d := remove_old_clicks current_time (click_times s) in
  ((Z.of_nat (length d) <? max_clicks_per_second s)%Z, with_click_times s d).

(** [now_cooldown] is the clock reading taken by the cooldown check,
    [now_rate] the one taken inside [_check_click_rate]. *)
Definition can_perform_action (s : SafetyManager) (action_type : string)
    (now_cooldown now_rate : Q) : bool * SafetyManager :=
  if negb (enabled s) || paused s then (false, s)
  else
    let cooling :=
      match action_cooldowns s !! action_type with
      | Some last =>
          ltb (now_cooldown - last)
              (default 0 (cooldown_times s !! action_type))
      | None => false
      end in
    if cooling then (false, s)
    else if String.eqb action_type "click" then
      let '(ok, s') := _check_click_rate s now_rate in
      if negb ok then (false, s') else (true, s')
    else (true, s).

(** [now_cooldown] and [now_click] are the two successive clock readings. *)
Definition register_action (s : SafetyManager) (action_type : string)
    (now_cooldown now_click : Q) : SafetyManager :=
  let s1 :=
    with_action_cooldowns s (<[action_type := now_cooldown]> (action_cooldowns s)) in
  if String.eqb action_type "click"
  then with_click_times s1
         (Collections.deque_append 10 (click_times s1) now_click)
  else s1.

(** Returns the manager and whether the emergency callback was invoked. *)
Definition emergency_stop (s : SafetyManager) : SafetyManager * bool :=
  (mkSafety false true (click_times s) (max_clicks_per_second s)
     (last_face_time s) (no_face_timeout s) (action_cooldowns s)
     (cooldown_times s) (require_confirmation s) (pending_confirmations s)
     (emergency_callback s),
   emergency_callback s).

Definition resume (s : SafetyManager) : SafetyManager :=
  mkSafety true false [] (max_clicks_per_second s)
    (last_face_time s) (no_face_timeout s) ∅
    (cooldown_times s) (require_confirmation s) (pending_confirmations s)
    (emergency_callback s).

Definition is_active (s : SafetyManager) : bool :=
  enabled s && negb (paused s).

(** A run of face-detection updates, each with its clock reading. *)
Definition face_updates (s : SafetyManager) (updates : list (bool * Q))
    : SafetyManager :=
  fold_left (fun st u => update_face_detection st (fst u) (snd u)) updates s.

(** The timestamps of the window that are at most one second old at
    [current_time]. *)
Definition recent_clicks (current_time : Q) (d : list Q) : list Q :=
  List.filter (fun t => negb (ltb 1 (current_time - t))) d.

(** Clicks registered one after another at the given clock readings. *)
Definition register_clicks (s : SafetyManager) (times : list Q) : SafetyManager :=
  fold_left (fun st t => register_action st "click" t t) times s.

(** Timestamps in the order a clock that never runs backwards yields them. *)
Fixpoint nondecreasing (d : list Q) : Prop :=
  match d with
  | [] => True
  | t :: rest => Forall (fun u => t <= u) rest /\ nondecreasing rest
  end.

Definition with_pending (s : SafetyManager) (m : gmap string Q)
    : SafetyManager :=
  mkSafety (enabled s) (paused s) (click_times s) (max_clicks_per_second s)
    (last_face_time s) (no_face_timeout s) (action_cooldowns s)
    (cooldown_times s) (require_confirmation s) m (emergency_callback s).

Definition needs_confirmation (s : SafetyManager) (action : string) : bool :=
  existsb (String.eqb action) (require_confirmation s).

(** [timeout] defaults to 3.0 seconds. *)
Definition request_confirmation (s : SafetyManager) (action : string)
    (timeout : option Q) (now : Q) : SafetyManager :=
  with_pending s
    (<[action := now + match timeout with Some t => t | None => 3 end]>
       (pending_confirmations s)).

Definition confirm_action (s : SafetyManager) (action : string) (now : Q)
    : bool * SafetyManager :=
  match pending_confirmations s !! action with
  | Some deadline =>
      (ltb now deadline,
       with_pending s (delete action (pending_confirmations s)))
  | None => (false, s)
  end.

(** The dictionary returned by [get_status]. *)
Record status := mkStatus {
  status_enabled : bool;
  status_paused : bool;
  clicks_last_second : nat;
  status_pending_confirmations : nat;
  time_since_face : Q
}.

Definition get_status (s : SafetyManager) (now : Q) : status :=
  mkStatus (enabled s) (paused s) (length (click_times s))
    (size (pending_confirmations s)) (now - last_face_time s).

End SafetyManager.

(** ** src/core/smoother.py: the EMA stage *)

Module EMAFilter.
Local Open Scope R_scope.

Record EMAFilter := mkEMA {
  alpha : R;
  value : option Smoother.vec2
}.

(** [EMAFilter.__init__], default 0.3. *)
Definition init (a : option R) : EMAFilter :=
  mkEMA (match a with Some x => x | None => 3 / 10 end) None.

(** Returns the smoothed position, which is also the new [value]. *)
Definition update (f : EMAFilter) (new_value : Smoother.vec2)
    : Smoother.vec2 * EMAFilter :=
  let v :=
    match value f with
    | None => new_value
    | Some old =>
        (alpha f * fst new_value + (1 - alpha f) * fst old,
         alpha f * snd new_value + (1 - alpha f) * snd old)
    end in
  (v, mkEMA (alpha f) (Some v)).

Definition reset (f : EMAFilter) : EMAFilter := mkEMA (alpha f) None.

End EMAFilter.

(** ** src/core/smoother.py: the Kalman stage *)

Module KalmanFilter.
Local Open Scope R_scope.

Definition vector := list R.
Definition matrix := list (list R).

Definition dot (u v : vector) : R :=
  fold_right Rplus 0 (map (fun p => fst p * snd p) (combine u v)).

Definition matvec (M : matrix) (v : vector) : vector :=
  map (fun row => dot row v) M.

Definition transpose (M : matrix) : matrix :=
  match M with
  | [] => []
  | r :: _ => map (fun j => map (fun row => nth j row 0) M) (seq 0 (length r))
  end.

Definition matmul (A B : matrix) : matrix :=
  map (fun row => map (fun col => dot row col) (transpose B)) A.

Definition vadd (u v : vector) : vector :=
  map (fun p => fst p + snd p) (combine u v).

Definition vsub (u v : vector) : vector :=
  map (fun p => fst p - snd p) (combine u v).

Definition madd (A B : matrix) : matrix :=
  map (fun p => vadd (fst p) (snd p)) (combine A B).

Definition msub (A B : matrix) : matrix :=
  map (fun p => vsub (fst p) (snd p)) (combine A B).

(** [np.eye(n) * c]. *)
Definition scaled_eye (n : nat) (c : R) : matrix :=
  map (fun i => map (fun j => if Nat.eqb i j then c else 0) (seq 0 n)) (seq 0 n).

(** [np.linalg.inv] of a 2 x 2 matrix; [None] stands for the [LinAlgError]
    raised on a singular matrix. *)
Definition inv (S : matrix) : option matrix :=
  match S with
  | [[a; b]; [c; d]] =>
      let det := a * d - b * c in
      if Req_dec_T det 0 then None
      else Some [[d / det; - b / det]; [- c / det; a / det]]
  | _ => None
  end.

Record KalmanFilter := mkKalman {
  state : vector;          (* [x, y, vx, vy] *)
  P : matrix;
  F : matrix;
  H : matrix;
  Q_cov : matrix;          (* the field Q *)
  R_cov : matrix;          (* the field R *)
  initialized : bool
}.

Definition transition : matrix :=
  [[1; 0; 1; 0]; [0; 1; 0; 1]; [0; 0; 1; 0]; [0; 0; 0; 1]].

Definition measurement_matrix : matrix := [[1; 0; 0; 0]; [0; 1; 0; 0]].

(** [KalmanFilter.__init__], defaults 0.01 and 0.1. *)
Definition init (process_noise measurement_noise : option R) : KalmanFilter :=
  mkKalman [0; 0; 0; 0] (scaled_eye 4 1000) transition measurement_matrix
    (scaled_eye 4 (match process_noise with Some q => q | None => 1 / 100 end))
    (scaled_eye 2 (match measurement_noise with Some r => r | None => 1 / 10 end))
    false.

Definition with_estimate (k : KalmanFilter) (s : vector) (p : matrix)
    (i : bool) : KalmanFilter :=
  mkKalman s p (F k) (H k) (Q_cov k) (R_cov k) i.

(** [state[:2]] as a position. *)
Definition position (s : vector) : Smoother.vec2 := (nth 0 s 0, nth 1 s 0).

Definition predict (k : KalmanFilter) : Smoother.vec2 * KalmanFilter :=
  let s := matvec (F k) (state k) in
  let p := madd (matmul (matmul (F k) (P k)) (transpose (F k))) (Q_cov k) in
  (position s, with_estimate k s p (initialized k)).

(** [None] when [np.linalg.inv] raises. *)
Definition update (k : KalmanFilter) (measurement : Smoother.vec2)
    : option (Smoother.vec2 * KalmanFilter) :=
  if negb (initialized k) then
    (* self.state[:2] = measurement *)
    Some (measurement,
          with_estimate k
            (fst measurement :: snd measurement :: skipn 2 (state k))
            (P k) true)
  else
    let k1 := snd (predict k) in
    let y := vsub [fst measurement; snd measurement]
                  (matvec (H k1) (state k1)) in
    let S := madd (matmul (matmul (H k1) (P k1)) (transpose (H k1))) (R_cov k1) in
    match inv S with
    | None => None
    | Some S_inv =>
        let K := matmul (matmul (P k1) (transpose (H k1))) S_inv in
        let s := vadd (state k1) (matvec K y) in
        let p := matmul (msub (scaled_eye 4 1) (matmul K (H k1))) (P k1) in
        Some (position s, with_estimate k1 s p (initialized k1))
    end.

Definition reset (k : KalmanFilter) : KalmanFilter :=
  with_estimate k [0; 0; 0; 0] (scaled_eye 4 1000) false.

End KalmanFilter.

(** ** src/core/smoother.py: the pipeline *)

Module CursorSmoother.
Local Open Scope R_scope.

(** The [kalman] field is only consulted when [use_kalman] holds. *)
Record CursorSmoother := mkCursorSmoother {
  ema : EMAFilter.EMAFilter;
  use_kalman : bool;
  kalman : KalmanFilter.KalmanFilter;
  velocity_smoother : Smoother.VelocityBasedSmoother;
  last_position : option Smoother.vec2
}.

(** [CursorSmoother.__init__]; the arguments are the [config.get] lookups
    for smoothing_factor, use_kalman, dead_zone_radius, acceleration_curve. *)
Definition init (smoothing_factor : option R) (kalman_flag : option bool)
    (dead_zone_radius acceleration_curve : option R) : CursorSmoother :=
  mkCursorSmoother (EMAFilter.init smoothing_factor)
    (match kalman_flag with Some b => b | None => true end)
    (KalmanFilter.init None None)
    (Smoother.init dead_zone_radius acceleration_curve)
    None.

(** [None] when the Kalman stage raises. *)
Definition smooth (c : CursorSmoother) (raw_position : Smoother.vec2)
    (screen_size : Z * Z) : option (Smoother.vec2 * CursorSmoother) :=
  let '(position1, ema') := EMAFilter.update (ema c) raw_position in
  let stage2 :=
    if use_kalman c
    then KalmanFilter.update (kalman c) position1
    else Some (position1, kalman c) in
  match stage2 with
  | None => None
  | Some (position2, kalman') =>
      let '(position3, velocity') :=
        Smoother.apply (velocity_smoother c) position2 screen_size in
      let position :=
        (Smoother.clip (fst position3) 0 (IZR (fst screen_size)),
         Smoother.clip (snd position3) 0 (IZR (snd screen_size))) in
      Some (position,
            mkCursorSmoother ema' (use_kalman c) kalman' velocity'
              (Some position))
  end.

Definition reset (c : CursorSmoother) : CursorSmoother :=
  mkCursorSmoother (EMAFilter.reset (ema c)) (use_kalman c)
    (if use_kalman c then KalmanFilter.reset (kalman c) else kalman c)
    (Smoother.reset (velocity_smoother c)) None.

(** Distance between the last two recorded positions, 0 with fewer than 2. *)
Definition get_velocity (c : CursorSmoother) : R :=
  match rev (Smoother.velocity_history (velocity_smoother c)) with
  | last :: before :: _ =>
      Smoother.norm (fst last - fst before, snd last - snd before)
  | _ => 0
  end.

End CursorSmoother.

(** ** src/calibration/calibrator.py: the calibration session *)

Module Calibrator.
Local Open Scope Q_scope.

Inductive CalibrationState :=
| IDLE | INTRO | POSITIONING | COLLECTING | COMPUTING | COMPLETE | FAILED.

Definition state_eqb (a b : CalibrationState) : bool :=
  match a, b with
  | IDLE, IDLE | INTRO, INTRO | POSITIONING, POSITIONING
  | COLLECTING, COLLECTING | COMPUTING, COMPUTING
  | COMPLETE, COMPLETE | FAILED, FAILED => true
  | _, _ => false
  end.

Record CalibrationTarget := mkTarget {
  position : Q * Q;
  duration_ms : Q;
  samples_collected : nat;
  completed : bool
}.

(** What the two optional callbacks are called with. *)
Inductive callback :=
| on_target_complete (index : nat) (target : CalibrationTarget)
| on_calibration_complete.

Record Calibrator := mkCalibrator {
  screen_width : Z;
  screen_height : Z;
  num_points : Z;
  duration_per_point : Q;
  state : CalibrationState;
  current_target_index : nat;
  targets : list CalibrationTarget;
  target_start_time : Q
}.

(** [Calibrator.__init__]; the first two arguments are the [config.get]
    lookups, with defaults 9 and 2000. *)
Definition init (points : option Z) (duration_per_point_ms : option Q)
    (W H : Z) : Calibrator :=
  mkCalibrator W H
    (match points with Some n => n | None => 9%Z end)
    (match duration_per_point_ms with Some d => d | None => 2000 end)
    IDLE 0 [] 0.

Definition with_session (c : Calibrator) (st : CalibrationState) (i : nat)
    (ts : list CalibrationTarget) (t0 : Q) : Calibrator :=
  mkCalibrator (screen_width c) (screen_height c) (num_points c)
    (duration_per_point c) st i ts t0.

(** The 3 x 3 grid in row-major order, then the selection of the corners
    and the centre when 5 points are asked for.  Every other number of
    points gives the full grid. *)
Definition _generate_calibration_points (c : Calibrator)
    : list CalibrationTarget :=
  let W := inject_Z (screen_width c) in
  let H := inject_Z (screen_height c) in
  let margin_x := W * (1 # 10) in
  let margin_y := H * (1 # 10) in
  let grid :=
    flat_map (fun row =>
      map (fun col =>
             mkTarget
               (margin_x + inject_Z (Z.of_nat col) * (W - 2 * margin_x) / 2,
                margin_y + inject_Z (Z.of_nat row) * (H - 2 * margin_y) / 2)
               (duration_per_point c) 0 false)
          (seq 0 3))
      (seq 0 3) in
  if Z.eqb (num_points c) 5
  then flat_map (fun i => match nth_error grid i with
                          | Some t => [t]
                          | None => []
                          end) [0; 2; 4; 6; 8]%nat
  else grid.

Definition start (c : Calibrator) : bool * Calibrator :=
  (true,
   with_session c INTRO 0 (_generate_calibration_points c)
     (target_start_time c)).

(** [now] is the reading of [time.time()] taken when a target is handed out. *)
Definition next_target (c : Calibrator) (now : Q)
    : option CalibrationTarget * Calibrator :=
  match nth_error (targets c) (current_target_index c) with
  | None =>
      (None, with_session c COMPUTING (current_target_index c) (targets c)
               (target_start_time c))
  | Some target =>
      (Some target,
       with_session c COLLECTING (current_target_index c) (targets c) now)
  end.

Fixpoint replace_nth (i : nat) (t : CalibrationTarget)
    (ts : list CalibrationTarget) : list CalibrationTarget :=
  match ts, i with
  | [], _ => []
  | _ :: rest, O => t :: rest
  | u :: rest, S j => u :: replace_nth j t rest
  end.

(** [now] is the reading used for the elapsed time, [now_next] the one taken
    by the [next_target] call that follows a completed target.  Returns the
    result, the callbacks invoked, and the calibrator. *)
Definition collect_sample (c : Calibrator)
    (left_iris right_iris : option (Q * Q)) (now now_next : Q)
    : bool * list callback * Calibrator :=
  if negb (state_eqb (state c) COLLECTING) then (false, [], c)
  else
    match nth_error (targets c) (current_target_index c) with
    | None => (false, [], c)
    | Some target =>
        match left_iris, right_iris with
        | Some _, Some _ =>
            let counted :=
              mkTarget (position target) (duration_ms target)
                (S (samples_collected target)) (completed target) in
            let elapsed_ms := (now - target_start_time c) * 1000 in
            if Qle_bool (duration_ms target) elapsed_ms then
              let done :=
                mkTarget (position counted) (duration_ms counted)
                  (samples_collected counted) true in
              let ts := replace_nth (current_target_index c) done (targets c) in
              let i := S (current_target_index c) in
              if (length ts <=? i)%nat
              then (true, [on_target_complete (current_target_index c) done],
                    with_session c COMPUTING i ts (target_start_time c))
              else (false, [on_target_complete (current_target_index c) done],
                    snd (next_target
                           (with_session c (state c) i ts (target_start_time c))
                           now_next))
            else
              (false, [],
               with_session c (state c) (current_target_index c)
                 (replace_nth (current_target_index c) counted (targets c))
                 (target_start_time c))
        | _, _ => (false, [], c)
        end
    end.

Definition count_completed (ts : list CalibrationTarget) : nat :=
  length (List.filter completed ts).

Definition compute_calibration (c : Calibrator)
    : bool * list callback * Calibrator :=
  if negb (state_eqb (state c) COMPUTING) then (false, [], c)
  else if (count_completed (targets c) <? length (targets c))%nat
  then (false, [],
        with_session c FAILED (current_target_index c) (targets c)
          (target_start_time c))
  else (true, [on_calibration_complete],
        with_session c COMPLETE (current_target_index c) (targets c)
          (target_start_time c)).

Definition get_current_target (c : Calibrator) : option CalibrationTarget :=
  nth_error (targets c) (current_target_index c).

Definition get_progress (c : Calibrator) : nat * nat :=
  (count_completed (targets c), length (targets c)).

Definition get_progress_percent (c : Calibrator) : Q :=
  let '(done, total) := get_progress c in
  if (0 <? total)%nat
  then inject_Z (Z.of_nat done) / inject_Z (Z.of_nat total) * 100
  else 0.

(** [None] stands for the [ZeroDivisionError] of a target whose duration
    is 0. *)
Definition get_target_progress (c : Calibrator) (now : Q) : option Q :=
  if negb (state_eqb (state c) COLLECTING) then Some 0
  else
    let elapsed_ms := (now - target_start_time c) * 1000 in
    match get_current_target c with
    | Some target =>
        if Qeq_bool (duration_ms target) 0 then None
        else Some (Qmin (elapsed_ms / duration_ms target) 1)
    | None => Some 0
    end.

Definition reset (c : Calibrator) : Calibrator :=
  with_session c IDLE 0 [] (target_start_time c).

Definition is_complete (c : Calibrator) : bool := state_eqb (state c) COMPLETE.

Definition has_failed (c : Calibrator) : bool := state_eqb (state c) FAILED.

End Calibrator.

(** ** src/utils/fps.py: the frame-rate counter *)

Module FPSCounter.
Local Open Scope R_scope.

Record FPSCounter := mkFPS {
  window_size : nat;
  frame_times : list R;      (* deque(maxlen=window_size) *)
  last_time : R;
  frame_count : nat
}.

(** [FPSCounter.__init__], default window 30; [now] is [time.perf_counter()]. *)
Definition init (window : option nat) (now : R) : FPSCounter :=
  mkFPS (match window with Some n => n | None => 30%nat end) [] now 0.

(** [sum(times)]. *)
Definition total (times : list R) : R := fold_right Rplus 0 times.

(** [sum(times) / len(times)]. *)
Definition average (times : list R) : R := total times / INR (length times).

(** [1.0 / x if x > 0 else 0.0]. *)
Definition rate (x : R) : R := if Rlt_dec 0 x then 1 / x else 0.

Definition tick (c : FPSCounter) (current_time : R) : R * FPSCounter :=
  let delta := current_time - last_time c in
  let recorded := Rlt_dec 0 delta in
  let times :=
    if recorded
    then Collections.deque_append (window_size c) (frame_times c) delta
    else frame_times c in
  let c' :=
    mkFPS (window_size c) times current_time
      (if recorded then S (frame_count c) else frame_count c) in
  match times with
  | [] => (0, c')
  | _ :: _ => (rate (average times), c')
  end.

(** [max(times)] and [min(times)] of a list that is not empty. *)
Definition maximum (first : R) (rest : list R) : R := fold_left Rmax rest first.
Definition minimum (first : R) (rest : list R) : R := fold_left Rmin rest first.

Record stats := mkStats {
  fps : R;
  latency_ms : R;
  jitter_ms : R;
  min_fps : R;
  max_fps : R
}.

Definition get_stats (c : FPSCounter) : stats :=
  match frame_times c with
  | [] => mkStats 0 0 0 0 0
  | first :: rest =>
      let times := first :: rest in
      let avg_time := average times in
      let variance :=
        total (map (fun t => (t - avg_time) * (t - avg_time)) times)
        / INR (length times) in
      mkStats (rate avg_time) (avg_time * 1000) (sqrt variance * 1000)
        (rate (maximum first rest)) (rate (minimum first rest))
  end.

Definition reset (c : FPSCounter) (now : R) : FPSCounter :=
  mkFPS (window_size c) [] now 0.

End FPSCounter.

(** ** src/core/controller.py: mouse and keyboard actions

    The calls that reach pynput and PyAutoGUI are collected, in order, in a
    trace; the log records are left out.  The controller holds the safety
    manager it was built with, so the manager travels inside the record. *)

Module SystemController.
Import Numpy.
Local Open Scope Q_scope.

Inductive Button := left | right | middle.

(** The argument of [keyboard.press]: [getattr(Key, key)] or the string. *)
Inductive key_arg :=
  | special_key (name : string)
  | character (key : string).

Inductive device_call :=
  | mouse_position (x y : Z)            (* self.mouse.position = (x, y) *)
  | pyautogui_moveTo (x y : Z)
  | mouse_click (button : Button) (count : Z)
  | mouse_scroll (dx dy : Z)
  | keyboard_press (key : key_arg)
  | keyboard_release (key : key_arg).

Record SystemController := mkController {
  safety : SafetyManager.SafetyManager;
  screen_width : Z;
  screen_height : Z;
  cursor_enabled : bool;
  keyboard_mode : bool;
  last_action_time : Q
}.

(** [SystemController.__init__]; [size] is [pyautogui.size()]. *)
Definition init (safety_manager : SafetyManager.SafetyManager) (size : Z * Z)
    : SystemController :=
  mkController safety_manager (fst size) (snd size) true false 0.

Definition with_safety (c : SystemController)
    (s : SafetyManager.SafetyManager) : SystemController :=
  mkController s (screen_width c) (screen_height c) (cursor_enabled c)
    (keyboard_mode c) (last_action_time c).

(** The clock readings of one gated action: two in [can_perform_action],
    two in [register_action]. *)
Record readings := mkReadings {
  gate_cooldown : Q;
  gate_rate : Q;
  register_cooldown : Q;
  register_click : Q
}.

(** [int(x)] of a float: truncation towards zero. *)
Definition int (x : Q) : Z := Z.quot (Qnum x) (Z.pos (Qden x)).

Definition move_cursor (c : SystemController) (x y : Q) (smooth : bool)
    : list device_call :=
  if negb (cursor_enabled c) then []
  else if negb (SafetyManager.is_active (safety c)) then []
  else
    let x' := Z.max 0 (Z.min (int x) (screen_width c - 1)) in
    let y' := Z.max 0 (Z.min (int y) (screen_height c - 1)) in
    if smooth then [mouse_position x' y'] else [pyautogui_moveTo x' y'].

Section Devices.

(** [hasattr(Key, key)] of pynput, and whether a device call raises. *)
Variable is_special_key : string -> bool.
Variable raises : device_call -> bool.

(** The part of [click], [scroll] and [key_press] they share: the gate, the
    device calls inside [try] (the first call that raises ends the block and
    nothing is registered), then the registration. *)
Fixpoint attempt (calls : list device_call) : list device_call * bool :=
  match calls with
  | [] => ([], true)
  | call :: rest =>
      if raises call then ([call], false)
      else let '(done, ok) := attempt rest in (call :: done, ok)
  end.

Definition gated (c : SystemController) (action_type : string)
    (calls : list device_call) (r : readings)
    : list device_call * SystemController :=
  let '(allowed, s1) :=
    SafetyManager.can_perform_action (safety c) action_type
      (gate_cooldown r) (gate_rate r) in
  if negb allowed then ([], with_safety c s1)
  else
    let '(done, ok) := attempt calls in
    if ok
    then (done, with_safety c
                  (SafetyManager.register_action s1 action_type
                     (register_cooldown r) (register_click r)))
    else (done, with_safety c s1).

Definition click (c : SystemController) (button : string) (double : bool)
    (r : readings) : list device_call * SystemController :=
  let btn :=
    if String.eqb button "left" then left
    else if String.eqb button "right" then right
    else middle in
  gated c "click" [mouse_click btn (if double then 2 else 1)%Z] r.

(** [amount] defaults to 3. *)
Definition scroll (c : SystemController) (direction : string)
    (amount : option Z) (r : readings)
    : list device_call * SystemController :=
  let amount := match amount with Some a => a | None => 3%Z end in
  let scroll_amount :=
    if String.eqb direction "up" then amount else (- amount)%Z in
  gated c "scroll" [mouse_scroll 0 scroll_amount] r.

Definition key_press (c : SystemController) (key : string) (r : readings)
    : list device_call * SystemController :=
  let arg := if is_special_key key then special_key key else character key in
  gated c "key" [keyboard_press arg; keyboard_release arg] r.

Definition toggle_keyboard (c : SystemController) : SystemController :=
  mkController (safety c) (screen_width c) (screen_height c)
    (cursor_enabled c) (negb (keyboard_mode c)) (last_action_time c).

Definition with_last_action_time (c : SystemController) (t : Q)
    : SystemController :=
  mkController (safety c) (screen_width c) (screen_height c)
    (cursor_enabled c) (keyboard_mode c) t.

Definition execute_action (c : SystemController) (action : string)
    (current_time : Q) (r : readings)
    : list device_call * SystemController :=
  if ltb (current_time - last_action_time c) (1 # 10) then ([], c)
  else
    let '(done, c1) :=
      if String.eqb action "left_click" then click c "left" false r
      else if String.eqb action "right_click" then click c "right" false r
      else if String.eqb action "double_click" then click c "left" true r
      else if String.eqb action "back" then key_press c "left" r
      else if String.eqb action "forward" then key_press c "right" r
      else if String.eqb action "scroll_up" then scroll c "up" None r
      else if String.eqb action "scroll_down" then scroll c "down" None r
      else if String.eqb action "enter" then key_press c "enter" r
      else if String.eqb action "toggle_keyboard" then ([], toggle_keyboard c)
      else if String.eqb action "volume_up" then key_press c "volume_up" r
      else if String.eqb action "volume_down" then key_press c "volume_down" r
      else if String.eqb action "play_pause"
           then key_press c "media_play_pause" r
      else if String.eqb action "cancel" then key_press c "esc" r
      else ([], c) in
    (done, with_last_action_time c1 current_time).

End Devices.

Definition toggle_cursor (c : SystemController) (enabled : bool)
    : SystemController :=
  mkController (safety c) (screen_width c) (screen_height c) enabled
    (keyboard_mode c) (last_action_time c).

Definition emergency_stop (c : SystemController) : SystemController :=
  mkController (safety c) (screen_width c) (screen_height c) false false
    (last_action_time c).

Definition get_screen_size (c : SystemController) : Z * Z :=
  (screen_width c, screen_height c).

End SystemController.

(** ** Predicates and concrete data used by the statements below *)

(** ** Linear systems, for the statements about [Numpy.solve] *)

Module LinearSystem.
Import Numpy.
Local Open Scope Q_scope.

(** Entry [c] of row [j]. *)
Definition entry (Z : matrix) (j c : nat) : Q := nth c (nth j Z []) 0.

Fixpoint sum_below (f : nat -> Q) (n : nat) : Q :=
  match n with
  | O => 0
  | S m => sum_below f m + f m
  end.

Definition holds (n : nat) (Z : matrix) (r : vector) : Prop :=
  forall c, sum_below (fun j => nth j r 0 * entry Z j c) n == nth (n + c) r 0.

(** Every equation of the system holds of [Z]. *)
Definition satisfies (n : nat) (Z : matrix) (rows : matrix) : Prop :=
  forall r, In r rows -> holds n Z r.

(** The shape of the rows during [eliminate], once the columns below [j0]
    have been dealt with: each reduced row has a 1 in its own pivot column,
    which is zero in every other reduced row, and the rows still to do are
    zero in all the columns dealt with. *)
Record normal_form (w j0 : nat) (reduced : list (nat * vector))
    (todo : matrix) : Prop := {
  nf_length : forall r, In r (map snd reduced ++ todo) -> length r = w;
  nf_pivot : forall i r, In (i, r) reduced -> (i < j0)%nat /\ nth i r 0 == 1;
  nf_clear : forall i r i' r',
      In (i, r) reduced -> In (i', r') reduced -> i <> i' -> nth i r' 0 == 0;
  nf_unique : List.NoDup (map fst reduced);
  nf_todo : forall t j, In t todo -> (j < j0)%nat -> nth j t 0 == 0
}.

(** What [solve] reads off the reduced rows. *)
Definition solution (n k : nat) (reduced : list (nat * vector)) : matrix :=
  map (fun j => match pivot_row j reduced with
                | Some r => skipn n r
                | None => repeat 0 k
                end) (seq 0 n).

(** The determinant of a 3 x 3 matrix. *)
Definition det3 (g11 g12 g13 g21 g22 g23 g31 g32 g33 : Q) : Q :=
  g11 * (g22 * g33 - g23 * g32) - g12 * (g21 * g33 - g23 * g31)
  + g13 * (g21 * g32 - g22 * g31).

End LinearSystem.


Module Properties.
Import Numpy.
Local Open Scope Q_scope.

(** An iris centre that lies inside the camera frame. *)
Definition in_frame (iris : GazeMapper.vec2) (frame_width frame_height : Z) : Prop :=
  (0 <= fst iris <= inject_Z frame_width) /\
  (0 <= snd iris <= inject_Z frame_height).

Definition iris_valid (iris : option GazeMapper.vec2)
    (frame_width frame_height : Z) : Prop :=
  match iris with
  | Some i => in_frame i frame_width frame_height
  | None => True
  end.

(** The gaze square [-1,1] x [-1,1]. *)
Definition in_gaze_square (g : GazeMapper.vec2) : Prop :=
  (-1 <= fst g <= 1) /\ (-1 <= snd g <= 1).

(** The screen rectangle [0,W] x [0,H]. *)
Definition on_screen (gm : GazeMapper.GazeMapper) (x y : Q) : Prop :=
  (0 <= x <= inject_Z (GazeMapper.screen_width gm)) /\
  (0 <= y <= inject_Z (GazeMapper.screen_height gm)).

(** Gaze positions that all fall on one point. *)
Definition coincident (pts : list GazeMapper.CalibrationPoint) : Prop :=
  exists g, Forall (fun p => GazeMapper.gaze_pos p = g) pts.

(** Gaze positions that all fall on one line [a x + b y + c = 0]. *)
Definition collinear (pts : list GazeMapper.CalibrationPoint) : Prop :=
  exists a b c, ~ (a == 0 /\ b == 0) /\
    Forall (fun p => a * fst (GazeMapper.gaze_pos p)
                     + b * snd (GazeMapper.gaze_pos p) + c == 0) pts.

(** The screen positions are the image of the gaze positions under the
    affine map [(gx, gy) |-> (a11 gx + a12 gy + a13, a21 gx + a22 gy + a23)]. *)
Definition affine_image (a11 a12 a13 a21 a22 a23 : Q)
    (pts : list GazeMapper.CalibrationPoint) : Prop :=
  Forall (fun p =>
            fst (GazeMapper.screen_pos p)
            == a11 * fst (GazeMapper.gaze_pos p)
               + a12 * snd (GazeMapper.gaze_pos p) + a13 /\
            snd (GazeMapper.screen_pos p)
            == a21 * fst (GazeMapper.gaze_pos p)
               + a22 * snd (GazeMapper.gaze_pos p) + a23) pts.

(** Three gaze positions on one line. *)
Definition on_a_line (p q r : GazeMapper.vec2) : Prop :=
  (fst q - fst p) * (snd r - snd p) == (fst r - fst p) * (snd q - snd p).

(** No position of [rest] on the line through [p] and [q]. *)
Fixpoint none_on_line (p q : GazeMapper.vec2) (rest : list GazeMapper.vec2)
    : Prop :=
  match rest with
  | [] => True
  | r :: rest' => ~ on_a_line p q r /\ none_on_line p q rest'
  end.

Fixpoint no_line_from (p : GazeMapper.vec2) (rest : list GazeMapper.vec2)
    : Prop :=
  match rest with
  | [] => True
  | q :: rest' => none_on_line p q rest' /\ no_line_from p rest'
  end.

(** No three of the positions on one line (so, among three or more, no two
    of them coincide). *)
Fixpoint no_three_collinear (gs : list GazeMapper.vec2) : Prop :=
  match gs with
  | [] => True
  | p :: rest => no_line_from p rest /\ no_three_collinear rest
  end.

(** [rows] rows of [cols] entries each. *)
Definition has_shape (rows cols : nat) (x : matrix) : Prop :=
  length x = rows /\ Forall (fun r => length r = cols) x.

(** The sum of the squared entries of [a @ x - b]. *)
Definition residual (a x b : matrix) : Q :=
  fold_right Qplus 0
    (map (fun rows =>
            fold_right Qplus 0
              (map (fun e => (fst e - snd e) * (fst e - snd e))
                   (combine (fst rows) (snd rows))))
         (combine (matmul a x) b)).

(** The squared error of one calibration point under the solution [x]. *)
Definition point_error (x : matrix) (p : GazeMapper.CalibrationPoint) : Q :=
  match transpose x with
  | [cx; cy] =>
      let g := [fst (GazeMapper.gaze_pos p); snd (GazeMapper.gaze_pos p); 1] in
      (dot g cx - fst (GazeMapper.screen_pos p)) * (dot g cx - fst (GazeMapper.screen_pos p))
      + ((dot g cy - snd (GazeMapper.screen_pos p)) * (dot g cy - snd (GazeMapper.screen_pos p)) + 0)
  | _ => 0
  end.

(** What [np.linalg.lstsq(a, b)[0]] is documented to return: a matrix of
    the right shape that minimises the squared Euclidean norm of
    [b - a @ x]. *)
Definition least_squares (a b x : matrix) : Prop :=
  has_shape (width a) (width b) x /\
  forall y, has_shape (width a) (width b) y -> residual a x b <= residual a y b.

(** [computed] is [expected] within a relative tolerance of 1e-3. *)
Definition within_tolerance (computed expected : Q) : Prop :=
  Qabs (computed - expected) <= (1 # 1000) * Qabs expected.

(** [compute_calibration] succeeds, and the transform it installs,
    multiplied with [[gx, gy, 1]] as [gaze_to_screen] does, gives back the
    screen position of every calibration point. *)
Definition reproduces_training_points
    (lstsq : matrix -> matrix -> option matrix) (gm : GazeMapper.GazeMapper)
    : Prop :=
  let r := GazeMapper.compute_calibration lstsq gm in
  fst (fst r) = true /\
  exists M,
    GazeMapper.transform_matrix (snd r) = Some M /\
    Forall (fun p =>
              exists sx sy,
                matvec M [fst (GazeMapper.gaze_pos p);
                          snd (GazeMapper.gaze_pos p); 1]
                = Some [sx; sy] /\
                sx == fst (GazeMapper.screen_pos p) /\
                sy == snd (GazeMapper.screen_pos p) /\
                within_tolerance sx (fst (GazeMapper.screen_pos p)) /\
                within_tolerance sy (snd (GazeMapper.screen_pos p)))
      (GazeMapper.calibration_points gm).

(** The per-action cooldown of [action_type] has run out at [now]. *)
Definition cooldown_elapsed (s : SafetyManager.SafetyManager)
    (action_type : string) (now : Q) : Prop :=
  match SafetyManager.action_cooldowns s !! action_type with
  | Some last =>
      default 0 (SafetyManager.cooldown_times s !! action_type) <= now - last
  | None => True
  end.

(** The eyes as [_detect_blink] sees them in an observation. *)
Definition left_shut (e : ExpressionEngine.ExpressionEngine)
    (d : Tracker.EyeData) : bool :=
  ExpressionEngine.eye_closed (Tracker.left_eye_aspect_ratio d)
    (ExpressionEngine.baseline_left_ear e) (ExpressionEngine.blink_threshold e).

Definition right_shut (e : ExpressionEngine.ExpressionEngine)
    (d : Tracker.EyeData) : bool :=
  ExpressionEngine.eye_closed (Tracker.right_eye_aspect_ratio d)
    (ExpressionEngine.baseline_right_ear e) (ExpressionEngine.blink_threshold e).

(** An observation reaches [_detect_blink]: a face is seen, the baseline is
    established and the cooldown after the last classification is over. *)
Definition reaches_detector (e : ExpressionEngine.ExpressionEngine)
    (d : Tracker.EyeData) (now : Q) : Prop :=
  Tracker.face_detected d = true /\
  ExpressionEngine.baseline_initialized e = true /\
  ExpressionEngine.blink_cooldown e <= now - ExpressionEngine.last_blink_time e.

(** Successive calls of [_detect_blink] on timed observations. *)
Fixpoint detect_blinks (e : ExpressionEngine.ExpressionEngine)
    (frames : list (Q * Tracker.EyeData))
    : list ExpressionEngine.Expression * ExpressionEngine.ExpressionEngine :=
  match frames with
  | [] => ([], e)
  | (t, d) :: rest =>
      let '(x, e1) := ExpressionEngine._detect_blink e d t in
      let '(xs, e2) := detect_blinks e1 rest in
      (x :: xs, e2)
  end.

End Properties.

Module Examples.
Import Numpy.
Local Open Scope Q_scope.

(** A 1920 x 1080 mapper. *)
Definition gm_fresh : GazeMapper.GazeMapper := GazeMapper.init None 1920 1080.

(** Samples taken through [add_calibration_point] from a 1280 x 720 frame;
    both irises are seen at the same place. *)
Definition sample (gm : GazeMapper.GazeMapper)
    (s : GazeMapper.vec2 * GazeMapper.vec2) : GazeMapper.GazeMapper :=
  GazeMapper.add_calibration_point gm (fst s) (Some (snd s)) (Some (snd s))
    1280 720.

Definition with_samples (samples : list (GazeMapper.vec2 * GazeMapper.vec2))
    : GazeMapper.GazeMapper :=
  fold_left sample samples gm_fresh.

(** Three samples: one short of what calibration needs. *)
Definition gm_three_points : GazeMapper.GazeMapper :=
  with_samples
    [ ((0, 0), (0, 0)); ((1920, 0), (1280, 0)); ((0, 1080), (0, 720)) ].

(** Four samples of the screen point (100, 200), all taken with the irises
    in the middle of the frame. *)
Definition gm_coincident : GazeMapper.GazeMapper :=
  with_samples
    [ ((100, 200), (640, 360)); ((100, 200), (640, 360));
      ((100, 200), (640, 360)); ((100, 200), (640, 360)) ].

(** Four samples, the irises in the corners of the frame while the targets
    are in the corners of the screen. *)
Definition gm_corners : GazeMapper.GazeMapper :=
  with_samples
    [ ((0, 0), (0, 0)); ((1920, 0), (1280, 0));
      ((0, 1080), (0, 720)); ((1920, 1080), (1280, 720)) ].

(** A manager created at time 0 that saw one click at time 0. *)
Definition safety_fresh : SafetyManager.SafetyManager :=
  SafetyManager.init None None None 0.

Definition safety_one_click : SafetyManager.SafetyManager :=
  SafetyManager.register_action safety_fresh "click" 0 0.

(** Three clicks, the default maximum, within four tenths of a second. *)
Definition safety_three_clicks : SafetyManager.SafetyManager :=
  SafetyManager.register_clicks safety_fresh [10; 10 + (2 # 10); 10 + (4 # 10)].

(** A manager configured for at most 11 clicks per second, and eleven
    clicks at 10.00, 10.05, ..., 10.50. *)
Definition safety_max_eleven : SafetyManager.SafetyManager :=
  SafetyManager.init (Some 11%Z) None None 0.

Definition eleven_clicks : list Q :=
  map (fun i => 10 + inject_Z (Z.of_nat i) * (5 # 100)) (seq 0 11).

(** Observations with a face, at full confidence. *)
Definition frame (t left_ear right_ear : Q) : Q * Tracker.EyeData :=
  (t, Tracker.mkEyeData left_ear right_ear true 1).

Definition eye_open : Q := 3 # 10.
Definition eye_shut : Q := 1 # 100.

(** An engine with default settings after 31 open-eyed observations, which
    establish the baseline. *)
Definition engine_ready : ExpressionEngine.ExpressionEngine :=
  snd (ExpressionEngine.run (ExpressionEngine.init None None None)
         (map (fun i => frame (inject_Z (Z.of_nat i)) eye_open eye_open)
              (seq 1 31))).

(** The right eye closes a frame before the left, both reopen together;
    250 ms later the left eye alone closes for 250 ms. *)
Definition stale_latch_frames : list (Q * Tracker.EyeData) :=
  [ frame 100 eye_open eye_shut;
    frame (100 + (5 # 100)) eye_shut eye_shut;
    frame (100 + (10 # 100)) eye_open eye_open;
    frame (100 + (35 # 100)) eye_shut eye_open;
    frame (100 + (60 # 100)) eye_open eye_open ].

(** The same left-eye closure met by an idle detector. *)
Definition left_wink_frames : list (Q * Tracker.EyeData) :=
  [ frame (100 + (35 # 100)) eye_shut eye_open;
    frame (100 + (60 # 100)) eye_open eye_open ].

End Examples.

(** ** Further predicates and data *)

Module Scenarios.
Import Numpy.
Local Open Scope Q_scope.

(** One call of [add_calibration_point]: target, the two irises, the frame. *)
Record sample := mkSample {
  sample_target : GazeMapper.vec2;
  sample_left : option GazeMapper.vec2;
  sample_right : option GazeMapper.vec2;
  sample_width : Z;
  sample_height : Z
}.

Definition has_iris (s : sample) : bool :=
  match sample_left s, sample_right s with
  | None, None => false
  | _, _ => true
  end.

Definition add_sample (gm : GazeMapper.GazeMapper) (s : sample)
    : GazeMapper.GazeMapper :=
  GazeMapper.add_calibration_point gm (sample_target s) (sample_left s)
    (sample_right s) (sample_width s) (sample_height s).

Definition add_samples (gm : GazeMapper.GazeMapper) (samples : list sample)
    : GazeMapper.GazeMapper :=
  fold_left add_sample samples gm.

(** A transform of two rows and three columns. *)
Definition two_by_three (M : matrix) : Prop :=
  exists a b c d e f, M = [[a; b; c]; [d; e; f]].

(** Four entries as the calibration dialog collects them: the irises in
    the corners of a 1280 x 720 frame, the targets in the corners of the
    screen. *)
Definition corner_entries : list GazeMapper.calibration_entry :=
  [ GazeMapper.mkCalibrationEntry (0, 0) (0, 0) (0, 0);
    GazeMapper.mkCalibrationEntry (1920, 0) (1280, 0) (1280, 0);
    GazeMapper.mkCalibrationEntry (0, 1080) (0, 720) (0, 720);
    GazeMapper.mkCalibrationEntry (1920, 1080) (1280, 720) (1280, 720) ].

(** Feeding an EMA filter a run of inputs. *)
Definition ema_feed (f : EMAFilter.EMAFilter) (inputs : list Smoother.vec2)
    : EMAFilter.EMAFilter :=
  fold_left (fun g x => snd (EMAFilter.update g x)) inputs f.

(** Feeding the velocity stage a run of positions, each with the screen
    size handed over with it. *)
Definition velocity_feed (s : Smoother.VelocityBasedSmoother)
    (inputs : list (Smoother.vec2 * (Z * Z))) : Smoother.VelocityBasedSmoother :=
  fold_left (fun g i => snd (Smoother.apply g (fst i) (snd i))) inputs s.

(** A point of the screen rectangle, in real coordinates. *)
Definition within_screen (p : Smoother.vec2) (screen_size : Z * Z) : Prop :=
  (0 <= fst p <= IZR (fst screen_size))%R /\
  (0 <= snd p <= IZR (snd screen_size))%R.

(** The matrix that the Kalman update inverts: [H P' H.T + R], with [P']
    the predicted covariance. *)
Definition innovation_covariance (k : KalmanFilter.KalmanFilter)
    : KalmanFilter.matrix :=
  let k1 := snd (KalmanFilter.predict k) in
  KalmanFilter.madd
    (KalmanFilter.matmul
       (KalmanFilter.matmul (KalmanFilter.H k1) (KalmanFilter.P k1))
       (KalmanFilter.transpose (KalmanFilter.H k1)))
    (KalmanFilter.R_cov k1).

(** What [__init__] fixes in a Kalman filter and no method changes: the
    constant-velocity transition, the position-only measurement and a
    process noise of four rows. *)
Definition constant_velocity_model (k : KalmanFilter.KalmanFilter) : Prop :=
  KalmanFilter.F k = KalmanFilter.transition /\
  KalmanFilter.H k = KalmanFilter.measurement_matrix /\
  length (KalmanFilter.Q_cov k) = 4%nat.

(** A default Kalman filter that has seen the measurement (12, 34). *)
Definition kalman_at_rest : KalmanFilter.KalmanFilter :=
  KalmanFilter.with_estimate (KalmanFilter.init None None)
    [12; 34; 0; 0]%R (KalmanFilter.scaled_eye 4 1000%R) true.

(** The observations of a run that show a face. *)
Definition with_face (frames : list (Q * Tracker.EyeData))
    : list (Q * Tracker.EyeData) :=
  List.filter (fun f => Tracker.face_detected (snd f)) frames.

(** The two eye-opening ratios of an observation. *)
Definition ears (f : Q * Tracker.EyeData) : Q * Q :=
  (Tracker.left_eye_aspect_ratio (snd f), Tracker.right_eye_aspect_ratio (snd f)).

(** An engine that has not started to collect its baseline: as constructed,
    or after [reset]. *)
Definition awaiting_baseline (e : ExpressionEngine.ExpressionEngine) : Prop :=
  ExpressionEngine.baseline_initialized e = false /\
  ExpressionEngine.baseline_samples e = [].

Definition is_blink (x : ExpressionEngine.Expression) : Prop :=
  x = ExpressionEngine.BLINK_LEFT \/ x = ExpressionEngine.BLINK_RIGHT \/
  x = ExpressionEngine.BLINK_BOTH \/ x = ExpressionEngine.BLINK_BOTH_LONG.

(** The calls a user of the calibrator can make. *)
Inductive calibrator_call :=
| call_start
| call_next_target (now : Q)
| call_collect_sample (left_iris right_iris : option (Q * Q)) (now now_next : Q)
| call_compute_calibration
| call_reset.

Definition calibrator_step (c : Calibrator.Calibrator) (call : calibrator_call)
    : Calibrator.Calibrator :=
  match call with
  | call_start => snd (Calibrator.start c)
  | call_next_target now => snd (Calibrator.next_target c now)
  | call_collect_sample l r now now_next =>
      snd (Calibrator.collect_sample c l r now now_next)
  | call_compute_calibration => snd (Calibrator.compute_calibration c)
  | call_reset => Calibrator.reset c
  end.

Definition calibrator_run (c : Calibrator.Calibrator)
    (calls : list calibrator_call) : Calibrator.Calibrator :=
  fold_left calibrator_step calls c.

(** The targets before the current one are completed, those from the
    current one on are not, and a session that is computing has no target
    left. *)
Definition session_consistent (c : Calibrator.Calibrator) : Prop :=
  (Calibrator.current_target_index c <= length (Calibrator.targets c))%nat /\
  Forall (fun t => Calibrator.completed t = true)
    (firstn (Calibrator.current_target_index c) (Calibrator.targets c)) /\
  Forall (fun t => Calibrator.completed t = false)
    (skipn (Calibrator.current_target_index c) (Calibrator.targets c)) /\
  (Calibrator.state c = Calibrator.COMPUTING ->
   (length (Calibrator.targets c) <= Calibrator.current_target_index c)%nat) /\
  Calibrator.state c <> Calibrator.FAILED.

(** A session as the first two calls leave it: started, first target handed
    out at time 0, on a 1920 x 1080 screen with 9 targets of 2000 ms. *)
Definition session_started : Calibrator.Calibrator :=
  calibrator_run (Calibrator.init None None 1920 1080)
    [call_start; call_next_target 0].

(** [n] samples with both irises, each arriving [step] seconds after the
    current target was handed out. *)
Fixpoint dwell_samples (t step : Q) (n : nat) : list calibrator_call :=
  match n with
  | O => []
  | S m =>
      call_collect_sample (Some (0, 0)) (Some (0, 0)) (t + step) (t + step)
      :: dwell_samples (t + step) step m
  end.

(** A target inside the margins of one tenth of the screen. *)
Definition inside_margins (c : Calibrator.Calibrator)
    (t : Calibrator.CalibrationTarget) : Prop :=
  let W := inject_Z (Calibrator.screen_width c) in
  let H := inject_Z (Calibrator.screen_height c) in
  (W * (1 # 10) <= fst (Calibrator.position t) <= W * (9 # 10)) /\
  (H * (1 # 10) <= snd (Calibrator.position t) <= H * (9 # 10)).

(** Ticks of the frame-rate counter at the given clock readings. *)
Definition ticks (c : FPSCounter.FPSCounter) (times : list R)
    : FPSCounter.FPSCounter :=
  fold_left (fun g t => snd (FPSCounter.tick g t)) times c.

(** Every recorded frame time is positive. *)
Definition positive_window (c : FPSCounter.FPSCounter) : Prop :=
  Forall (fun d => (0 < d)%R) (FPSCounter.frame_times c).

(** The transform of the mapper is an array: a matrix is installed and its
    rows are equally long, as the rows of every [np.ndarray] are. *)
Definition holds_array (gm : GazeMapper.GazeMapper) : Prop :=
  exists M, GazeMapper.transform_matrix gm = Some M /\
            GazeMapper.np_array M = Some M.

(** The matrix and the two right-hand sides that [set_calibration_data]
    hands to the least-squares routine: one row [[gx, gy, 1]] per entry, and
    the x and the y coordinates of the screen positions. *)
Definition design_matrix (calibration_data : list GazeMapper.calibration_entry)
    : Numpy.matrix :=
  map (fun p => [fst (GazeMapper.entry_gaze p);
                 snd (GazeMapper.entry_gaze p); 1%Q]) calibration_data.

Definition screen_xs (calibration_data : list GazeMapper.calibration_entry)
    : Numpy.vector :=
  map (fun p => fst (GazeMapper.entry_screen_pos p)) calibration_data.

Definition screen_ys (calibration_data : list GazeMapper.calibration_entry)
    : Numpy.vector :=
  map (fun p => snd (GazeMapper.entry_screen_pos p)) calibration_data.

End Scenarios.

(* ===================================================================== *)
(** * Theorems *)
(* ===================================================================== *)

(** ** Comparisons on exact floats *)

Module NumpyFacts.
Import Numpy.
Local Open Scope Q_scope.

Lemma ltb_lt (a b : Q) : ltb a b = true <-> a < b.
Proof.
  unfold ltb. rewrite negb_true_iff. split.
  - intros H. apply Qnot_le_lt. intros Hle.
    apply Qle_bool_iff in Hle. congruence.
  - intros H. destruct (Qle_bool b a) eqn:E; [| reflexivity].
    apply Qle_bool_iff in E. exfalso. exact (Qlt_not_le _ _ H E).
Qed.

Lemma ltb_ge (a b : Q) : ltb a b = false <-> b <= a.
Proof.
  unfold ltb. rewrite negb_false_iff. apply Qle_bool_iff.
Qed.

End NumpyFacts.

(** ** Gauss-Jordan elimination and the least-squares routine *)

Module LinearSystemFacts.
Import Numpy LinearSystem.
Local Open Scope Q_scope.

Lemma sum_below_ext (f g : nat -> Q) (n : nat) :
  (forall j, (j < n)%nat -> f j == g j) -> sum_below f n == sum_below g n.
Proof.
  induction n as [| n IH]; intros H; [reflexivity |].
  cbn [sum_below]. rewrite IH by (intros j Hj; apply H; lia).
  rewrite (H n) by lia. reflexivity.
Qed.

Lemma sum_below_scale (c : Q) (f : nat -> Q) (n : nat) :
  sum_below (fun j => c * f j) n == c * sum_below f n.
Proof.
  induction n as [| n IH]; cbn [sum_below]; [ring | rewrite IH; ring].
Qed.

Lemma sum_below_sub (f g : nat -> Q) (n : nat) :
  sum_below (fun j => f j - g j) n == sum_below f n - sum_below g n.
Proof.
  induction n as [| n IH]; cbn [sum_below]; [ring | rewrite IH; ring].
Qed.

Lemma sum_below_zero (f : nat -> Q) (n : nat) :
  (forall j, (j < n)%nat -> f j == 0) -> sum_below f n == 0.
Proof.
  induction n as [| n IH]; intros H; [reflexivity |].
  cbn [sum_below]. rewrite IH by (intros j Hj; apply H; lia).
  rewrite (H n) by lia. ring.
Qed.

Lemma sum_below_single (f : nat -> Q) (n i : nat) :
  (i < n)%nat -> (forall j, (j < n)%nat -> j <> i -> f j == 0) ->
  sum_below f n == f i.
Proof.
  induction n as [| n IH]; intros Hi H; [lia |].
  cbn [sum_below]. destruct (Nat.eq_dec i n) as [-> | Hne].
  - rewrite sum_below_zero by (intros j Hj; apply H; lia). ring.
  - rewrite IH by (try lia; intros j Hj Hji; apply H; lia).
    rewrite (H n) by lia. ring.
Qed.

Lemma nth_scale (c : Q) (r : vector) (i : nat) :
  nth i (scale c r) 0 == c * nth i r 0.
Proof.
  unfold scale. revert i. induction r as [| x r IH]; intros [| i]; cbn;
    try ring; try reflexivity. apply IH.
Qed.

Lemma nth_axpy (c : Q) (p r : vector) (i : nat) :
  length p = length r ->
  nth i (axpy c p r) 0 == nth i r 0 - c * nth i p 0.
Proof.
  unfold axpy. revert r i.
  induction p as [| x p IH]; intros [| y r] i Hlen; try discriminate Hlen.
  - destruct i; cbn; ring.
  - destruct i as [| i]; cbn; [ring |]. apply IH. cbn in Hlen. lia.
Qed.

Lemma length_scale (c : Q) (r : vector) : length (scale c r) = length r.
Proof. unfold scale. apply length_map. Qed.

Lemma length_axpy (c : Q) (p r : vector) :
  length p = length r -> length (axpy c p r) = length r.
Proof.
  intros H. unfold axpy. rewrite length_map, length_combine. lia.
Qed.

Lemma holds_scale (n : nat) (Z : matrix) (c : Q) (r : vector) :
  ~ c == 0 -> (holds n Z (scale c r) <-> holds n Z r).
Proof.
  intros Hc. unfold holds. split; intros H col; specialize (H col).
  - rewrite nth_scale in H.
    rewrite (sum_below_ext _ (fun j => c * (nth j r 0 * entry Z j col))) in H
      by (intros j _; rewrite nth_scale; ring).
    rewrite sum_below_scale in H.
    apply (Qmult_inj_l _ _ c); assumption.
  - rewrite nth_scale.
    rewrite (sum_below_ext _ (fun j => c * (nth j r 0 * entry Z j col)))
      by (intros j _; rewrite nth_scale; ring).
    rewrite sum_below_scale, H. reflexivity.
Qed.

Lemma holds_axpy (n : nat) (Z : matrix) (c : Q) (p r : vector) :
  length p = length r -> holds n Z p ->
  (holds n Z (axpy c p r) <-> holds n Z r).
Proof.
  intros Hlen Hp. unfold holds in *.
  assert (E : forall col,
    sum_below (fun j => nth j (axpy c p r) 0 * entry Z j col) n
    == sum_below (fun j => nth j r 0 * entry Z j col) n
       - c * nth (n + col) p 0).
  { intros col.
    rewrite (sum_below_ext _
               (fun j => nth j r 0 * entry Z j col
                         - c * (nth j p 0 * entry Z j col)))
      by (intros j _; rewrite nth_axpy by exact Hlen; ring).
    rewrite sum_below_sub, sum_below_scale, Hp. reflexivity. }
  split; intros H col; specialize (H col); specialize (E col);
    rewrite nth_axpy in * by exact Hlen.
  - rewrite E in H. Lqa.lra.
  - rewrite E, H. reflexivity.
Qed.

Lemma pick_pivot_some (j : nat) (rows : matrix) (p : vector) (others : matrix) :
  pick_pivot j rows = Some (p, others) ->
  ~ nth j p 0 == 0 /\
  (forall r, In r rows <-> r = p \/ In r others) /\
  (forall r, In r others -> In r rows) /\
  length rows = S (length others).
Proof.
  revert p others. induction rows as [| r rest IH]; intros p others H;
    [discriminate |].
  cbn [pick_pivot] in H. destruct (Qeq_bool (nth j r 0) 0) eqn:E.
  - destruct (pick_pivot j rest) as [[p' others'] |]; [| discriminate].
    injection H as <- <-.
    destruct (IH p' others' eq_refl) as (Hp & Hin & Hsub & Hlen).
    split; [exact Hp |]. split; [| split].
    + intros x. cbn [In]. rewrite Hin. tauto.
    + intros x [-> | Hx]; [left; reflexivity | right; apply Hsub; exact Hx].
    + cbn [length]. rewrite Hlen. reflexivity.
  - injection H as <- <-. split.
    + intros Hz. apply Qeq_bool_iff in Hz. congruence.
    + split; [| split].
      * intros x. cbn [In]. split; intros [Hx | Hx]; auto.
      * intros x Hx. right. exact Hx.
      * reflexivity.
Qed.

Lemma pick_pivot_none (j : nat) (rows : matrix) :
  pick_pivot j rows = None -> forall r, In r rows -> nth j r 0 == 0.
Proof.
  induction rows as [| r rest IH]; intros H x Hx; [destruct Hx |].
  cbn [pick_pivot] in H. destruct (Qeq_bool (nth j r 0) 0) eqn:E.
  - destruct (pick_pivot j rest) as [[p' others'] |]; [discriminate |].
    destruct Hx as [<- | Hx]; [apply Qeq_bool_iff; exact E | apply IH; auto].
  - discriminate.
Qed.

Section Elimination.

Variables n k : nat.

Lemma eliminate_step (j0 : nat) (reduced : list (nat * vector))
    (todo others : matrix) (p : vector) :
  normal_form (n + k) j0 reduced todo ->
  pick_pivot j0 todo = Some (p, others) ->
  let p' := scale (/ nth j0 p 0) p in
  let clear r := axpy (nth j0 r 0) p' r in
  let reduced' := (j0, p') :: map (fun d => (fst d, clear (snd d))) reduced in
  normal_form (n + k) (S j0) reduced' (map clear others) /\
  (forall Z, satisfies n Z (map snd reduced' ++ map clear others) <->
             satisfies n Z (map snd reduced ++ todo)).
Proof.
  intros Hnf Hpick p' clear reduced'.
  destruct Hnf as [Hlen Hpiv Hclr Huniq Htodo].
  destruct (pick_pivot_some _ _ _ _ Hpick) as (Hp0 & Hin & Hsub & _).
  assert (Hp_todo : In p todo) by (apply Hin; left; reflexivity).
  assert (Hlp : length p = (n + k)%nat)
    by (apply Hlen, in_or_app; right; exact Hp_todo).
  assert (Hlp' : length p' = (n + k)%nat)
    by (unfold p'; rewrite length_scale; exact Hlp).
  assert (Hp'j : nth j0 p' 0 == 1).
  { unfold p'. rewrite nth_scale. field. exact Hp0. }
  assert (Hp'i : forall i, (i < j0)%nat -> nth i p' 0 == 0).
  { intros i Hi. unfold p'. rewrite nth_scale.
    rewrite (Htodo p i Hp_todo Hi). ring. }
  assert (Hclear_len : forall r, length r = (n + k)%nat ->
                                 length (clear r) = (n + k)%nat).
  { intros r Hr. unfold clear. rewrite length_axpy; congruence. }
  assert (Hclear_nth : forall r i, length r = (n + k)%nat ->
            nth i (clear r) 0 == nth i r 0 - nth j0 r 0 * nth i p' 0).
  { intros r i Hr. unfold clear. apply nth_axpy. congruence. }
  assert (Hred_len : forall i r, In (i, r) reduced -> length r = (n + k)%nat).
  { intros i r Hr. apply Hlen, in_or_app. left.
    apply in_map_iff. exists (i, r). split; [reflexivity | exact Hr]. }
  assert (Hred' : forall i r, In (i, r) reduced' <->
            (i = j0 /\ r = p') \/
            exists r0, In (i, r0) reduced /\ r = clear r0).
  { intros i r. unfold reduced'. cbn [In]. rewrite in_map_iff. split.
    - intros [[= <- <-] | ([i0 r0] & [= <- <-] & Hr0)];
        [left; split; reflexivity | right; exists r0; split; auto].
    - intros [[-> ->] | (r0 & Hr0 & ->)];
        [left; reflexivity | right; exists (i, r0); split; auto]. }
  split.
  - constructor.
    + intros r Hr. apply in_app_or in Hr. destruct Hr as [Hr | Hr].
      * apply in_map_iff in Hr. destruct Hr as ([i r0] & <- & Hr0).
        apply Hred' in Hr0. destruct Hr0 as [[_ ->] | (r1 & Hr1 & ->)];
          [exact Hlp' | apply Hclear_len; eapply Hred_len; exact Hr1].
      * apply in_map_iff in Hr. destruct Hr as (t & <- & Ht).
        apply Hclear_len, Hlen, in_or_app. right. apply Hsub. exact Ht.
    + intros i r Hr. apply Hred' in Hr.
      destruct Hr as [[-> ->] | (r0 & Hr0 & ->)].
      * split; [lia | exact Hp'j].
      * destruct (Hpiv i r0 Hr0) as [Hi H1]. split; [lia |].
        rewrite Hclear_nth by (eapply Hred_len; exact Hr0).
        rewrite H1, (Hp'i i Hi). ring.
    + intros i r i' r' Hr Hr' Hne.
      apply Hred' in Hr. apply Hred' in Hr'.
      destruct Hr as [[-> ->] | (r0 & Hr0 & ->)];
        destruct Hr' as [[-> ->] | (r0' & Hr0' & ->)].
      * contradiction.
      * rewrite Hclear_nth by (eapply Hred_len; exact Hr0').
        rewrite Hp'j. ring.
      * apply Hp'i. apply (Hpiv i r0 Hr0).
      * rewrite Hclear_nth by (eapply Hred_len; exact Hr0').
        rewrite (Hclr i r0 i' r0' Hr0 Hr0' Hne).
        rewrite (Hp'i i (proj1 (Hpiv i r0 Hr0))). ring.
    + unfold reduced'. cbn [map fst]. apply List.NoDup_cons.
      * rewrite map_map. cbn [fst]. intros Hj.
        apply in_map_iff in Hj. destruct Hj as ([i r] & Hi & Hr).
        cbn [fst] in Hi. subst i. destruct (Hpiv j0 r Hr). lia.
      * rewrite map_map. cbn [fst]. exact Huniq.
    + intros t j Ht Hj. apply in_map_iff in Ht. destruct Ht as (t0 & <- & Ht0).
      assert (Ht0' : In t0 todo) by (apply Hsub; exact Ht0).
      rewrite Hclear_nth by (apply Hlen, in_or_app; right; exact Ht0').
      destruct (Nat.eq_dec j j0) as [-> | Hne].
      * rewrite Hp'j. ring.
      * rewrite (Htodo t0 j Ht0') by lia. rewrite (Hp'i j) by lia. ring.
  - intros Z.
    assert (Hinv : ~ / nth j0 p 0 == 0).
    { intros H. apply Hp0.
      assert (E : nth j0 p 0 == / / nth j0 p 0) by (symmetry; apply Qinv_involutive).
      rewrite E, H. reflexivity. }
    assert (Hpp' : holds n Z p' <-> holds n Z p)
      by (apply holds_scale; exact Hinv).
    assert (Hcl : forall r, length r = (n + k)%nat -> holds n Z p' ->
                            (holds n Z (clear r) <-> holds n Z r)).
    { intros r Hr Hp'. unfold clear. apply holds_axpy; [congruence | exact Hp']. }
    unfold satisfies. split.
    + intros Hnew.
      assert (Hp' : holds n Z p').
      { apply Hnew. unfold reduced'. cbn [map snd]. left. reflexivity. }
      intros r Hr. apply in_app_or in Hr. destruct Hr as [Hr | Hr].
      * apply in_map_iff in Hr. destruct Hr as ([i r0] & <- & Hr0). cbn [snd].
        apply (Hcl r0); [eapply Hred_len; exact Hr0 | exact Hp' |].
        apply Hnew. apply in_or_app. left. apply in_map_iff.
        exists (i, clear r0). split; [reflexivity |].
        apply Hred'. right. exists r0. split; [exact Hr0 | reflexivity].
      * apply Hin in Hr. destruct Hr as [-> | Hr]; [apply Hpp'; exact Hp' |].
        apply (Hcl r);
          [apply Hlen, in_or_app; right; apply Hsub; exact Hr | exact Hp' |].
        apply Hnew. apply in_or_app. right. apply in_map. exact Hr.
    + intros Hold.
      assert (Hp' : holds n Z p').
      { apply Hpp'. apply Hold, in_or_app. right. exact Hp_todo. }
      intros r Hr. apply in_app_or in Hr. destruct Hr as [Hr | Hr].
      * apply in_map_iff in Hr. destruct Hr as ([i r0] & <- & Hr0). cbn [snd].
        apply Hred' in Hr0. destruct Hr0 as [[_ ->] | (r1 & Hr1 & ->)];
          [exact Hp' |].
        apply (Hcl r1); [eapply Hred_len; exact Hr1 | exact Hp' |].
        apply Hold, in_or_app. left. apply in_map_iff.
        exists (i, r1). split; [reflexivity | exact Hr1].
      * apply in_map_iff in Hr. destruct Hr as (t & <- & Ht).
        assert (Ht' : In t todo) by (apply Hsub; exact Ht).
        apply (Hcl t); [apply Hlen, in_or_app; right; exact Ht' | exact Hp' |].
        apply Hold, in_or_app. right. exact Ht'.
Qed.

Lemma eliminate_normal (m : nat) :
  forall j0 reduced todo,
    normal_form (n + k) j0 reduced todo ->
    exists todo',
      normal_form (n + k) (j0 + m) (eliminate (seq j0 m) reduced todo) todo' /\
      (forall Z,
         satisfies n Z (map snd (eliminate (seq j0 m) reduced todo) ++ todo')
         <-> satisfies n Z (map snd reduced ++ todo)).
Proof.
  induction m as [| m IH]; intros j0 reduced todo Hnf.
  - exists todo. rewrite Nat.add_0_r. split; [exact Hnf | reflexivity].
  - cbn [seq eliminate].
    destruct (pick_pivot j0 todo) as [[p others] |] eqn:Hpick.
    + destruct (eliminate_step j0 reduced todo others p Hnf Hpick)
        as [Hnf' Heq].
      destruct (IH (S j0) _ _ Hnf') as (todo' & Hfinal & Heq').
      exists todo'. rewrite <- Nat.add_succ_comm. split; [exact Hfinal |].
      intros Z. rewrite Heq'. apply Heq.
    + assert (Hnf' : normal_form (n + k) (S j0) reduced todo).
      { destruct Hnf as [Hlen Hpiv Hclr Huniq Htodo]. constructor; auto.
        - intros i r Hr. destruct (Hpiv i r Hr). split; [lia | assumption].
        - intros t j Ht Hj. destruct (Nat.eq_dec j j0) as [-> | Hne].
          + apply (pick_pivot_none _ _ Hpick). exact Ht.
          + apply Htodo; [exact Ht | lia]. }
      destruct (IH (S j0) _ _ Hnf') as (todo' & Hfinal & Heq').
      exists todo'. rewrite <- Nat.add_succ_comm. split; assumption.
Qed.

Lemma pivot_row_some (j : nat) (reduced : list (nat * vector)) (r : vector) :
  pivot_row j reduced = Some r -> In (j, r) reduced.
Proof.
  induction reduced as [| [i r0] rest IH]; [discriminate |].
  cbn [pivot_row]. destruct (Nat.eqb_spec i j) as [-> | Hne].
  - intros [= ->]. left. reflexivity.
  - intros H. right. apply IH. exact H.
Qed.

Lemma pivot_row_in (j : nat) (reduced : list (nat * vector)) (r : vector) :
  List.NoDup (map fst reduced) -> In (j, r) reduced ->
  pivot_row j reduced = Some r.
Proof.
  induction reduced as [| [i r0] rest IH]; intros Hnd Hin; [destruct Hin |].
  cbn [map fst] in Hnd. inversion Hnd as [| ? ? Hnotin Hnd']; subst.
  cbn [pivot_row]. destruct Hin as [[= -> ->] | Hin].
  - rewrite Nat.eqb_refl. reflexivity.
  - destruct (Nat.eqb_spec i j) as [-> | Hne]; [| apply IH; assumption].
    exfalso. apply Hnotin. apply in_map_iff. exists (j, r). split; auto.
Qed.

Lemma nth_skipn_plus (l : vector) (c : nat) :
  nth c (skipn n l) 0 = nth (n + c) l 0.
Proof.
  revert l. generalize n as a. induction a as [| a IH]; intros l; [reflexivity |].
  destruct l as [| x l]; [destruct c; reflexivity | cbn; apply IH].
Qed.

Lemma nth_zeros (c : nat) : nth c (repeat 0 k) 0 = 0.
Proof.
  generalize k as a. revert c.
  induction c as [| c IH]; intros [| a]; cbn; try reflexivity. apply IH.
Qed.

Lemma entry_solution (reduced : list (nat * vector)) (j c : nat) :
  (j < n)%nat ->
  entry (solution n k reduced) j c
  = match pivot_row j reduced with
    | Some r => nth (n + c) r 0
    | None => 0
    end.
Proof.
  intros Hj. unfold entry, solution.
  rewrite (nth_indep _ [] (match pivot_row 0 reduced with
                           | Some r => skipn n r | None => repeat 0 k end))
    by (rewrite length_map, length_seq; exact Hj).
  rewrite (map_nth (fun j => match pivot_row j reduced with
                             | Some r => skipn n r | None => repeat 0 k end)).
  rewrite seq_nth by exact Hj. cbn [Nat.add].
  destruct (pivot_row j reduced); [apply nth_skipn_plus | apply nth_zeros].
Qed.

Lemma solution_satisfies (reduced : list (nat * vector)) (todo : matrix)
    (Zstar : matrix) :
  normal_form (n + k) n reduced todo ->
  satisfies n Zstar (map snd reduced ++ todo) ->
  satisfies n (solution n k reduced) (map snd reduced ++ todo).
Proof.
  intros [Hlen Hpiv Hclr Huniq Htodo] Hstar r Hr col.
  apply in_app_or in Hr. destruct Hr as [Hr | Hr].
  - apply in_map_iff in Hr. destruct Hr as ([i r0] & <- & Hr0). cbn [snd].
    destruct (Hpiv i r0 Hr0) as [Hi H1].
    rewrite (sum_below_single _ n i Hi).
    + rewrite entry_solution by exact Hi.
      rewrite (pivot_row_in i reduced r0 Huniq Hr0), H1. ring.
    + intros j Hj Hne. rewrite entry_solution by exact Hj.
      destruct (pivot_row j reduced) as [rj |] eqn:Ej; [| ring].
      apply pivot_row_some in Ej.
      rewrite (Hclr j rj i r0 Ej Hr0 Hne). ring.
  - assert (Hz : forall j, (j < n)%nat -> nth j r 0 == 0)
      by (intros j Hj; apply Htodo; assumption).
    pose proof (Hstar r (in_or_app _ _ _ (or_intror Hr)) col) as Hs.
    rewrite sum_below_zero in Hs by (intros j Hj; rewrite (Hz j Hj); ring).
    rewrite sum_below_zero by (intros j Hj; rewrite (Hz j Hj); ring).
    exact Hs.
Qed.

(** Gauss-Jordan elimination solves every system that has a solution. *)
Lemma solve_satisfies (M C : matrix) (Zstar : matrix) :
  Forall (fun r => length r = n) M -> Forall (fun r => length r = k) C ->
  let system := map (fun p => (fst p ++ snd p)%list) (combine M C) in
  satisfies n Zstar system ->
  satisfies n (solve n k M C) system /\
  length (solve n k M C) = n /\
  Forall (fun r => length r = k) (solve n k M C).
Proof.
  intros HM HC system Hstar.
  assert (Hnf0 : normal_form (n + k) 0 [] system).
  { constructor; try (intros; cbn in *; contradiction || lia).
    - intros r Hr. cbn [map app] in Hr. unfold system in Hr.
      apply in_map_iff in Hr. destruct Hr as ([m c] & <- & Hmc). cbn [fst snd].
      rewrite length_app.
      rewrite List.Forall_forall in HM, HC.
      rewrite (HM m) by (eapply in_combine_l; exact Hmc).
      rewrite (HC c) by (eapply in_combine_r; exact Hmc). reflexivity.
    - apply List.NoDup_nil. }
  destruct (eliminate_normal n 0 [] system Hnf0) as (todo' & Hfinal & Heq).
  cbn [Nat.add] in Hfinal.
  change (solve n k M C)
    with (solution n k (eliminate (seq 0 n) [] system)).
  split; [| split].
  - apply (Heq (solution n k (eliminate (seq 0 n) [] system))).
    apply (solution_satisfies _ todo' Zstar Hfinal). apply Heq. exact Hstar.
  - unfold solution. rewrite length_map, length_seq. reflexivity.
  - unfold solution. apply List.Forall_forall. intros r Hr.
    apply in_map_iff in Hr. destruct Hr as (j & <- & _).
    destruct (pivot_row j _) as [rj |] eqn:Ej; [| apply repeat_length].
    apply pivot_row_some in Ej. rewrite length_skipn.
    destruct Hfinal as [Hlen _ _ _ _].
    rewrite (Hlen rj); [lia |].
    apply in_or_app. left. apply in_map_iff. exists (j, rj). split; auto.
Qed.

End Elimination.

(** *** Three unknowns *)

Lemma cramer3 (g11 g12 g13 g21 g22 g23 g31 g32 g33 u1 u2 u3 : Q) :
  ~ det3 g11 g12 g13 g21 g22 g23 g31 g32 g33 == 0 ->
  g11 * u1 + g12 * u2 + g13 * u3 == 0 ->
  g21 * u1 + g22 * u2 + g23 * u3 == 0 ->
  g31 * u1 + g32 * u2 + g33 * u3 == 0 ->
  u1 == 0 /\ u2 == 0 /\ u3 == 0.
Proof.
  intros Hdet E1 E2 E3.
  set (d := det3 g11 g12 g13 g21 g22 g23 g31 g32 g33) in *.
  assert (H1 : d * u1 == 0).
  { assert (E : d * u1
                == (g22 * g33 - g23 * g32) * (g11 * u1 + g12 * u2 + g13 * u3)
                   - (g12 * g33 - g13 * g32) * (g21 * u1 + g22 * u2 + g23 * u3)
                   + (g12 * g23 - g13 * g22) * (g31 * u1 + g32 * u2 + g33 * u3))
      by (unfold d, det3; ring).
    rewrite E, E1, E2, E3. ring. }
  assert (H2 : d * u2 == 0).
  { assert (E : d * u2
                == - (g21 * g33 - g23 * g31) * (g11 * u1 + g12 * u2 + g13 * u3)
                   + (g11 * g33 - g13 * g31) * (g21 * u1 + g22 * u2 + g23 * u3)
                   - (g11 * g23 - g13 * g21) * (g31 * u1 + g32 * u2 + g33 * u3))
      by (unfold d, det3; ring).
    rewrite E, E1, E2, E3. ring. }
  assert (H3 : d * u3 == 0).
  { assert (E : d * u3
                == (g21 * g32 - g22 * g31) * (g11 * u1 + g12 * u2 + g13 * u3)
                   - (g11 * g32 - g12 * g31) * (g21 * u1 + g22 * u2 + g23 * u3)
                   + (g11 * g22 - g12 * g21) * (g31 * u1 + g32 * u2 + g33 * u3))
      by (unfold d, det3; ring).
    rewrite E, E1, E2, E3. ring. }
  repeat split;
    match goal with
    | |- ?u == 0 =>
        destruct (Qmult_integral d u ltac:(assumption)) as [Hd | Hu];
          [contradiction | exact Hu]
    end.
Qed.

Lemma solvable3 (g11 g12 g13 g21 g22 g23 g31 g32 g33 v1 v2 v3 : Q) :
  ~ det3 g11 g12 g13 g21 g22 g23 g31 g32 g33 == 0 ->
  exists z1 z2 z3,
    g11 * z1 + g12 * z2 + g13 * z3 == v1 /\
    g21 * z1 + g22 * z2 + g23 * z3 == v2 /\
    g31 * z1 + g32 * z2 + g33 * z3 == v3.
Proof.
  intros Hdet.
  set (d := det3 g11 g12 g13 g21 g22 g23 g31 g32 g33) in *.
  exists (((g22 * g33 - g23 * g32) * v1 - (g12 * g33 - g13 * g32) * v2
           + (g12 * g23 - g13 * g22) * v3) / d),
         ((- (g21 * g33 - g23 * g31) * v1 + (g11 * g33 - g13 * g31) * v2
           - (g11 * g23 - g13 * g21) * v3) / d),
         (((g21 * g32 - g22 * g31) * v1 - (g11 * g32 - g12 * g31) * v2
           + (g11 * g22 - g12 * g21) * v3) / d).
  assert (Hd : d == det3 g11 g12 g13 g21 g22 g23 g31 g32 g33) by reflexivity.
  unfold det3 in Hd.
  repeat split; field_simplify_eq; try exact Hdet; rewrite ?Hd; ring.
Qed.

(** *** Four points, three of them not on a line *)

Lemma lstsq_unfold (a b : matrix) :
  length a = length b ->
  lstsq a b =
  Some (reduce
          (matmul (reduce (matmul (transpose (reduce a)) (reduce a)))
             (reduce
                (solve (width a) (width b)
                   (reduce
                      (matmul
                         (reduce (matmul (transpose (reduce a)) (reduce a)))
                         (reduce (matmul (transpose (reduce a)) (reduce a)))))
                   (reduce (matmul (transpose (reduce a)) (reduce b))))))).
Proof.
  intros H. unfold lstsq. rewrite H, Nat.eqb_refl. reflexivity.
Qed.

Ltac entries :=
  cbn [reduce map transpose length seq nth matmul dot combine fold_right
       fst snd];
  reflexivity.

Ltac exact_values := repeat split; rewrite ?Qred_correct; ring.

Lemma gram_entries (x1 y1 x2 y2 x3 y3 x4 y4 : Q) :
  let a := [[x1; y1; 1]; [x2; y2; 1]; [x3; y3; 1]; [x4; y4; 1]] in
  exists g11 g12 g13 g21 g22 g23 g31 g32 g33,
    reduce (matmul (transpose (reduce a)) (reduce a))
    = [[g11; g12; g13]; [g21; g22; g23]; [g31; g32; g33]] /\
    g11 == x1 * x1 + x2 * x2 + x3 * x3 + x4 * x4 /\
    g12 == x1 * y1 + x2 * y2 + x3 * y3 + x4 * y4 /\
    g13 == x1 + x2 + x3 + x4 /\
    g21 == x1 * y1 + x2 * y2 + x3 * y3 + x4 * y4 /\
    g22 == y1 * y1 + y2 * y2 + y3 * y3 + y4 * y4 /\
    g23 == y1 + y2 + y3 + y4 /\
    g31 == x1 + x2 + x3 + x4 /\
    g32 == y1 + y2 + y3 + y4 /\
    g33 == 4.
Proof.
  intros a. do 9 eexists. split; [unfold a; entries | exact_values].
Qed.

Lemma moment_entries (x1 y1 x2 y2 x3 y3 x4 y4 s1 t1 s2 t2 s3 t3 s4 t4 : Q) :
  let a := [[x1; y1; 1]; [x2; y2; 1]; [x3; y3; 1]; [x4; y4; 1]] in
  let b := [[s1; t1]; [s2; t2]; [s3; t3]; [s4; t4]] in
  exists c11 c12 c21 c22 c31 c32,
    reduce (matmul (transpose (reduce a)) (reduce b))
    = [[c11; c12]; [c21; c22]; [c31; c32]] /\
    c11 == x1 * s1 + x2 * s2 + x3 * s3 + x4 * s4 /\
    c12 == x1 * t1 + x2 * t2 + x3 * t3 + x4 * t4 /\
    c21 == y1 * s1 + y2 * s2 + y3 * s3 + y4 * s4 /\
    c22 == y1 * t1 + y2 * t2 + y3 * t3 + y4 * t4 /\
    c31 == s1 + s2 + s3 + s4 /\
    c32 == t1 + t2 + t3 + t4.
Proof.
  intros a b. do 6 eexists. split; [unfold a, b; entries | exact_values].
Qed.

Lemma square_entries (g11 g12 g13 g21 g22 g23 g31 g32 g33 : Q) :
  let G := [[g11; g12; g13]; [g21; g22; g23]; [g31; g32; g33]] in
  exists m11 m12 m13 m21 m22 m23 m31 m32 m33,
    reduce (matmul G G)
    = [[m11; m12; m13]; [m21; m22; m23]; [m31; m32; m33]] /\
    m11 == g11 * g11 + g12 * g21 + g13 * g31 /\
    m12 == g11 * g12 + g12 * g22 + g13 * g32 /\
    m13 == g11 * g13 + g12 * g23 + g13 * g33 /\
    m21 == g21 * g11 + g22 * g21 + g23 * g31 /\
    m22 == g21 * g12 + g22 * g22 + g23 * g32 /\
    m23 == g21 * g13 + g22 * g23 + g23 * g33 /\
    m31 == g31 * g11 + g32 * g21 + g33 * g31 /\
    m32 == g31 * g12 + g32 * g22 + g33 * g32 /\
    m33 == g31 * g13 + g32 * g23 + g33 * g33.
Proof.
  intros G. do 9 eexists. split; [unfold G; entries | exact_values].
Qed.

Lemma product_entries (g11 g12 g13 g21 g22 g23 g31 g32 g33
                       z11 z12 z21 z22 z31 z32 : Q) :
  let G := [[g11; g12; g13]; [g21; g22; g23]; [g31; g32; g33]] in
  let Z := [[z11; z12]; [z21; z22]; [z31; z32]] in
  exists x11 x12 x21 x22 x31 x32,
    reduce (matmul G (reduce Z)) = [[x11; x12]; [x21; x22]; [x31; x32]] /\
    x11 == g11 * z11 + g12 * z21 + g13 * z31 /\
    x12 == g11 * z12 + g12 * z22 + g13 * z32 /\
    x21 == g21 * z11 + g22 * z21 + g23 * z31 /\
    x22 == g21 * z12 + g22 * z22 + g23 * z32 /\
    x31 == g31 * z11 + g32 * z21 + g33 * z31 /\
    x32 == g31 * z12 + g32 * z22 + g33 * z32.
Proof.
  intros G Z. do 6 eexists. split; [unfold G, Z; entries | exact_values].
Qed.

Section Column.

Variables g11 g12 g13 g21 g22 g23 g31 g32 g33 : Q.
Variables m11 m12 m13 m21 m22 m23 m31 m32 m33 : Q.
Variables c1 c2 c3 v1 v2 v3 : Q.

Hypothesis Hdet : ~ det3 g11 g12 g13 g21 g22 g23 g31 g32 g33 == 0.
Hypothesis Hm11 : m11 == g11 * g11 + g12 * g21 + g13 * g31.
Hypothesis Hm12 : m12 == g11 * g12 + g12 * g22 + g13 * g32.
Hypothesis Hm13 : m13 == g11 * g13 + g12 * g23 + g13 * g33.
Hypothesis Hm21 : m21 == g21 * g11 + g22 * g21 + g23 * g31.
Hypothesis Hm22 : m22 == g21 * g12 + g22 * g22 + g23 * g32.
Hypothesis Hm23 : m23 == g21 * g13 + g22 * g23 + g23 * g33.
Hypothesis Hm31 : m31 == g31 * g11 + g32 * g21 + g33 * g31.
Hypothesis Hm32 : m32 == g31 * g12 + g32 * g22 + g33 * g32.
Hypothesis Hm33 : m33 == g31 * g13 + g32 * g23 + g33 * g33.
Hypothesis Hc1 : c1 == g11 * v1 + g12 * v2 + g13 * v3.
Hypothesis Hc2 : c2 == g21 * v1 + g22 * v2 + g23 * v3.
Hypothesis Hc3 : c3 == g31 * v1 + g32 * v2 + g33 * v3.

(** The system [G G z = G v] has a solution. *)
Lemma column_solvable :
  exists z1 z2 z3,
    m11 * z1 + m12 * z2 + m13 * z3 == c1 /\
    m21 * z1 + m22 * z2 + m23 * z3 == c2 /\
    m31 * z1 + m32 * z2 + m33 * z3 == c3.
Proof.
  destruct (solvable3 g11 g12 g13 g21 g22 g23 g31 g32 g33 v1 v2 v3 Hdet)
    as (z1 & z2 & z3 & E1 & E2 & E3).
  exists z1, z2, z3.
  rewrite Hm11, Hm12, Hm13, Hm21, Hm22, Hm23, Hm31, Hm32, Hm33, Hc1, Hc2, Hc3.
  rewrite <- E1, <- E2, <- E3. repeat split; ring.
Qed.

(** Every solution [z] of [G G z = G v] has [G z = v]. *)
Lemma column_recovered (z1 z2 z3 : Q) :
  m11 * z1 + m12 * z2 + m13 * z3 == c1 ->
  m21 * z1 + m22 * z2 + m23 * z3 == c2 ->
  m31 * z1 + m32 * z2 + m33 * z3 == c3 ->
  g11 * z1 + g12 * z2 + g13 * z3 == v1 /\
  g21 * z1 + g22 * z2 + g23 * z3 == v2 /\
  g31 * z1 + g32 * z2 + g33 * z3 == v3.
Proof.
  rewrite Hm11, Hm12, Hm13, Hm21, Hm22, Hm23, Hm31, Hm32, Hm33, Hc1, Hc2, Hc3.
  intros E1 E2 E3.
  destruct (cramer3 g11 g12 g13 g21 g22 g23 g31 g32 g33
              (g11 * z1 + g12 * z2 + g13 * z3 - v1)
              (g21 * z1 + g22 * z2 + g23 * z3 - v2)
              (g31 * z1 + g32 * z2 + g33 * z3 - v3) Hdet)
    as (U1 & U2 & U3).
  - Lqa.lra.
  - Lqa.lra.
  - Lqa.lra.
  - repeat split; Lqa.lra.
Qed.

End Column.

Lemma gram_det (x1 y1 x2 y2 x3 y3 x4 y4 : Q) :
  ~ (x2 - x1) * (y3 - y1) == (x3 - x1) * (y2 - y1) ->
  ~ det3 (x1 * x1 + x2 * x2 + x3 * x3 + x4 * x4)
         (x1 * y1 + x2 * y2 + x3 * y3 + x4 * y4)
         (x1 + x2 + x3 + x4)
         (x1 * y1 + x2 * y2 + x3 * y3 + x4 * y4)
         (y1 * y1 + y2 * y2 + y3 * y3 + y4 * y4)
         (y1 + y2 + y3 + y4)
         (x1 + x2 + x3 + x4) (y1 + y2 + y3 + y4) 4 == 0.
Proof.
  intros Hline.
  set (d123 := (x2 - x1) * (y3 - y1) - (x3 - x1) * (y2 - y1)).
  set (d124 := (x2 - x1) * (y4 - y1) - (x4 - x1) * (y2 - y1)).
  set (d134 := (x3 - x1) * (y4 - y1) - (x4 - x1) * (y3 - y1)).
  set (d234 := (x3 - x2) * (y4 - y2) - (x4 - x2) * (y3 - y2)).
  assert (E : det3 (x1 * x1 + x2 * x2 + x3 * x3 + x4 * x4)
                (x1 * y1 + x2 * y2 + x3 * y3 + x4 * y4)
                (x1 + x2 + x3 + x4)
                (x1 * y1 + x2 * y2 + x3 * y3 + x4 * y4)
                (y1 * y1 + y2 * y2 + y3 * y3 + y4 * y4)
                (y1 + y2 + y3 + y4)
                (x1 + x2 + x3 + x4) (y1 + y2 + y3 + y4) 4
              == d123 * d123 + d124 * d124 + d134 * d134 + d234 * d234)
    by (unfold det3, d123, d124, d134, d234; ring).
  rewrite E. intros Hzero.
  assert (H0 : forall u, 0 <= u * u).
  { intros u. destruct (Qlt_le_dec u 0) as [Hn | Hp].
    - assert (Eu : u * u == - u * - u) by ring.
      rewrite Eu. apply Qmult_le_0_compat; Lqa.lra.
    - apply Qmult_le_0_compat; assumption. }
  pose proof (H0 d123). pose proof (H0 d124).
  pose proof (H0 d134). pose proof (H0 d234).
  assert (Hsq : d123 * d123 == 0) by Lqa.lra.
  apply Hline.
  destruct (Qmult_integral _ _ Hsq) as [Hd | Hd]; unfold d123 in Hd; Lqa.lra.
Qed.

Lemma three_by_two (Z : matrix) :
  length Z = 3%nat -> Forall (fun r => length r = 2%nat) Z ->
  exists z11 z12 z21 z22 z31 z32, Z = [[z11; z12]; [z21; z22]; [z31; z32]].
Proof.
  intros Hlen Hrows.
  destruct Z as [| r0 [| r1 [| r2 [| ? ?]]]]; try discriminate Hlen.
  inversion Hrows as [| ? ? H0 Hrows1]; subst.
  inversion Hrows1 as [| ? ? H1 Hrows2]; subst.
  inversion Hrows2 as [| ? ? H2 _]; subst.
  destruct r0 as [| z11 [| z12 [| ? ?]]]; try discriminate H0.
  destruct r1 as [| z21 [| z22 [| ? ?]]]; try discriminate H1.
  destruct r2 as [| z31 [| z32 [| ? ?]]]; try discriminate H2.
  do 6 eexists. reflexivity.
Qed.

Lemma holds_three (z11 z12 z21 z22 z31 z32 m1 m2 m3 c1 c2 : Q) :
  holds 3 [[z11; z12]; [z21; z22]; [z31; z32]] [m1; m2; m3; c1; c2] <->
  m1 * z11 + m2 * z21 + m3 * z31 == c1 /\
  m1 * z12 + m2 * z22 + m3 * z32 == c2.
Proof.
  unfold holds. split.
  - intros H. pose proof (H 0%nat) as H0. pose proof (H 1%nat) as H1.
    cbn in H0, H1. split; Lqa.lra.
  - intros [H0 H1] [| [| col]]; cbn; [Lqa.lra | Lqa.lra |].
    destruct col; cbn; ring.
Qed.

(** The least-squares routine on four points of which the first three are
    not on a line, the right-hand side being an exact affine image: it
    returns the coefficients of the affine map. *)
Lemma lstsq_four_points
    (x1 y1 x2 y2 x3 y3 x4 y4 s1 t1 s2 t2 s3 t3 s4 t4 : Q)
    (a11 a12 a13 a21 a22 a23 : Q) :
  ~ (x2 - x1) * (y3 - y1) == (x3 - x1) * (y2 - y1) ->
  s1 == a11 * x1 + a12 * y1 + a13 -> t1 == a21 * x1 + a22 * y1 + a23 ->
  s2 == a11 * x2 + a12 * y2 + a13 -> t2 == a21 * x2 + a22 * y2 + a23 ->
  s3 == a11 * x3 + a12 * y3 + a13 -> t3 == a21 * x3 + a22 * y3 + a23 ->
  s4 == a11 * x4 + a12 * y4 + a13 -> t4 == a21 * x4 + a22 * y4 + a23 ->
  exists x11 x12 x21 x22 x31 x32,
    lstsq [[x1; y1; 1]; [x2; y2; 1]; [x3; y3; 1]; [x4; y4; 1]]
          [[s1; t1]; [s2; t2]; [s3; t3]; [s4; t4]]
    = Some [[x11; x12]; [x21; x22]; [x31; x32]] /\
    x11 == a11 /\ x21 == a12 /\ x31 == a13 /\
    x12 == a21 /\ x22 == a22 /\ x32 == a23.
Proof.
  intros Hline Hs1 Ht1 Hs2 Ht2 Hs3 Ht3 Hs4 Ht4.
  rewrite lstsq_unfold by reflexivity.
  change (width [[x1; y1; 1]; [x2; y2; 1]; [x3; y3; 1]; [x4; y4; 1]])
    with 3%nat.
  change (width [[s1; t1]; [s2; t2]; [s3; t3]; [s4; t4]]) with 2%nat.
  destruct (gram_entries x1 y1 x2 y2 x3 y3 x4 y4)
    as (g11 & g12 & g13 & g21 & g22 & g23 & g31 & g32 & g33 & EG
        & Hg11 & Hg12 & Hg13 & Hg21 & Hg22 & Hg23 & Hg31 & Hg32 & Hg33).
  cbv zeta in EG. rewrite EG.
  destruct (moment_entries x1 y1 x2 y2 x3 y3 x4 y4 s1 t1 s2 t2 s3 t3 s4 t4)
    as (c11 & c12 & c21 & c22 & c31 & c32 & EC
        & Hc11 & Hc12 & Hc21 & Hc22 & Hc31 & Hc32).
  cbv zeta in EC. rewrite EC.
  destruct (square_entries g11 g12 g13 g21 g22 g23 g31 g32 g33)
    as (m11 & m12 & m13 & m21 & m22 & m23 & m31 & m32 & m33 & EM
        & Hm11 & Hm12 & Hm13 & Hm21 & Hm22 & Hm23 & Hm31 & Hm32 & Hm33).
  cbv zeta in EM. rewrite EM.
  assert (Hdet : ~ det3 g11 g12 g13 g21 g22 g23 g31 g32 g33 == 0).
  { unfold det3. rewrite Hg11, Hg12, Hg13, Hg21, Hg22, Hg23, Hg31, Hg32, Hg33.
    apply (gram_det x1 y1 x2 y2 x3 y3 x4 y4 Hline). }
  assert (Hv11 : c11 == g11 * a11 + g12 * a12 + g13 * a13)
    by (rewrite Hc11, Hg11, Hg12, Hg13, Hs1, Hs2, Hs3, Hs4; ring).
  assert (Hv21 : c21 == g21 * a11 + g22 * a12 + g23 * a13)
    by (rewrite Hc21, Hg21, Hg22, Hg23, Hs1, Hs2, Hs3, Hs4; ring).
  assert (Hv31 : c31 == g31 * a11 + g32 * a12 + g33 * a13)
    by (rewrite Hc31, Hg31, Hg32, Hg33, Hs1, Hs2, Hs3, Hs4; ring).
  assert (Hv12 : c12 == g11 * a21 + g12 * a22 + g13 * a23)
    by (rewrite Hc12, Hg11, Hg12, Hg13, Ht1, Ht2, Ht3, Ht4; ring).
  assert (Hv22 : c22 == g21 * a21 + g22 * a22 + g23 * a23)
    by (rewrite Hc22, Hg21, Hg22, Hg23, Ht1, Ht2, Ht3, Ht4; ring).
  assert (Hv32 : c32 == g31 * a21 + g32 * a22 + g33 * a23)
    by (rewrite Hc32, Hg31, Hg32, Hg33, Ht1, Ht2, Ht3, Ht4; ring).
  set (M := [[m11; m12; m13]; [m21; m22; m23]; [m31; m32; m33]]).
  set (C := [[c11; c12]; [c21; c22]; [c31; c32]]).
  destruct (column_solvable g11 g12 g13 g21 g22 g23 g31 g32 g33
              m11 m12 m13 m21 m22 m23 m31 m32 m33 c11 c21 c31 a11 a12 a13
              Hdet Hm11 Hm12 Hm13 Hm21 Hm22 Hm23 Hm31 Hm32 Hm33
              Hv11 Hv21 Hv31) as (u1 & u2 & u3 & U1 & U2 & U3).
  destruct (column_solvable g11 g12 g13 g21 g22 g23 g31 g32 g33
              m11 m12 m13 m21 m22 m23 m31 m32 m33 c12 c22 c32 a21 a22 a23
              Hdet Hm11 Hm12 Hm13 Hm21 Hm22 Hm23 Hm31 Hm32 Hm33
              Hv12 Hv22 Hv32) as (w1 & w2 & w3 & W1 & W2 & W3).
  destruct (solve_satisfies 3 2 M C [[u1; w1]; [u2; w2]; [u3; w3]])
    as (Hsat & Hlen & Hrows).
  { repeat constructor. }
  { repeat constructor. }
  { intros r Hr. cbn in Hr.
    destruct Hr as [<- | [<- | [<- | []]]]; apply holds_three; split;
      assumption. }
  destruct (three_by_two _ Hlen Hrows)
    as (z11 & z12 & z21 & z22 & z31 & z32 & EZ).
  rewrite EZ in Hsat |- *.
  assert (R1 : holds 3 [[z11; z12]; [z21; z22]; [z31; z32]]
                 [m11; m12; m13; c11; c12])
    by (apply Hsat; cbn; auto).
  assert (R2 : holds 3 [[z11; z12]; [z21; z22]; [z31; z32]]
                 [m21; m22; m23; c21; c22])
    by (apply Hsat; cbn; auto).
  assert (R3 : holds 3 [[z11; z12]; [z21; z22]; [z31; z32]]
                 [m31; m32; m33; c31; c32])
    by (apply Hsat; cbn; auto).
  apply holds_three in R1, R2, R3.
  destruct R1 as [R11 R12], R2 as [R21 R22], R3 as [R31 R32].
  destruct (column_recovered g11 g12 g13 g21 g22 g23 g31 g32 g33
              m11 m12 m13 m21 m22 m23 m31 m32 m33 c11 c21 c31 a11 a12 a13
              Hdet Hm11 Hm12 Hm13 Hm21 Hm22 Hm23 Hm31 Hm32 Hm33
              Hv11 Hv21 Hv31 z11 z21 z31 R11 R21 R31) as (P1 & P2 & P3).
  destruct (column_recovered g11 g12 g13 g21 g22 g23 g31 g32 g33
              m11 m12 m13 m21 m22 m23 m31 m32 m33 c12 c22 c32 a21 a22 a23
              Hdet Hm11 Hm12 Hm13 Hm21 Hm22 Hm23 Hm31 Hm32 Hm33
              Hv12 Hv22 Hv32 z12 z22 z32 R12 R22 R32) as (Q1 & Q2 & Q3).
  destruct (product_entries g11 g12 g13 g21 g22 g23 g31 g32 g33
              z11 z12 z21 z22 z31 z32)
    as (x11 & x12 & x21 & x22 & x31 & x32 & EX
        & Hx11 & Hx12 & Hx21 & Hx22 & Hx31 & Hx32).
  cbv zeta in EX. rewrite EX.
  exists x11, x12, x21, x22, x31, x32.
  split; [reflexivity |].
  rewrite Hx11, Hx12, Hx21, Hx22, Hx31, Hx32.
  repeat split; assumption.
Qed.

End LinearSystemFacts.

(** ** Gaze estimation and calibration *)

Module GazeMapperSpec.
Import Numpy GazeMapper Properties LinearSystemFacts.
Local Open Scope Q_scope.

Lemma clip_bounds (x lo hi : Q) : lo <= hi -> lo <= clip x lo hi <= hi.
Proof.
  intros Hle. unfold clip. split.
  - apply Q.min_glb; [apply Q.le_max_r | exact Hle].
  - apply Q.le_min_r.
Qed.

Lemma clip_inside (x lo hi : Q) : lo <= x <= hi -> clip x lo hi == x.
Proof.
  intros [H1 H2]. unfold clip.
  rewrite Q.max_l by exact H1. rewrite Q.min_l by exact H2. reflexivity.
Qed.

Lemma inject_Z_nonneg (w : Z) : (0 <= w)%Z -> 0 <= inject_Z w.
Proof. intros H. change 0 with (inject_Z 0). rewrite <- Zle_Qle. exact H. Qed.

Lemma inject_Z_pos (w : Z) : (0 < w)%Z -> 0 < inject_Z w.
Proof. intros H. change 0 with (inject_Z 0). rewrite <- Zlt_Qlt. exact H. Qed.

Lemma unit_interval_div (x : Q) (w : Z) :
  (0 < w)%Z -> 0 <= x <= inject_Z w -> -1 <= (x / inject_Z w) * 2 - 1 <= 1.
Proof.
  intros Hw [H0 H1]. pose proof (inject_Z_pos w Hw) as Hq.
  assert (0 <= x / inject_Z w) by (apply Qle_shift_div_l; Lqa.lra).
  assert (x / inject_Z w <= 1) by (apply Qle_shift_div_r; Lqa.lra).
  split; Lqa.lra.
Qed.

Lemma normalize_in_square (iris : vec2) (w h : Z) :
  (0 < w)%Z -> (0 < h)%Z -> in_frame iris w h ->
  in_gaze_square (normalize iris w h).
Proof.
  intros Hw Hh [Hx Hy]. unfold normalize, in_gaze_square; simpl.
  split; apply unit_interval_div; assumption.
Qed.

Lemma mean2_in_square (a b : vec2) :
  in_gaze_square a -> in_gaze_square b -> in_gaze_square (mean2 a b).
Proof.
  unfold in_gaze_square, mean2. intros [[? ?] [? ?]] [[? ?] [? ?]]; simpl.
  repeat split.
  all: first [ apply Qle_shift_div_l | apply Qle_shift_div_r ]; Lqa.lra.
Qed.

(** C1. With fewer than 4 calibration points [compute_calibration] returns
    [False], its only report being the "need at least 4 points" warning, and
    the mapper, hence its transform matrix, is exactly what it was. *)
Theorem compute_calibration_insufficient_points
    (lstsq : matrix -> matrix -> option matrix) (gm : GazeMapper) :
  (length (calibration_points gm) < 4)%nat ->
  compute_calibration lstsq gm = (false, [WarnNeedAtLeast4Points], gm) /\
  transform_matrix (snd (compute_calibration lstsq gm)) = transform_matrix gm.
Proof.
  intros Hlen. unfold compute_calibration.
  destruct (Nat.ltb_spec (length (calibration_points gm)) 4) as [_ | Hge].
  - split; reflexivity.
  - lia.
Qed.

Lemma compute_calibration_insufficient_points_witness :
  (length (calibration_points Examples.gm_three_points) < 4)%nat /\
  compute_calibration Numpy.lstsq Examples.gm_three_points
    = (false, [WarnNeedAtLeast4Points], Examples.gm_three_points).
Proof.
  assert (H : (length (calibration_points Examples.gm_three_points) < 4)%nat)
    by (simpl; lia).
  split; [exact H |].
  exact (proj1 (compute_calibration_insufficient_points
                  Numpy.lstsq Examples.gm_three_points H)).
Defined.

(** C3. When every iris position handed to [estimate_gaze] lies inside a
    frame of positive width and height, and at least one is handed over,
    the result is a gaze vector with both components in [-1, 1]; when both
    are absent the result is [None]. *)
Theorem estimate_gaze_range (gm : GazeMapper)
    (left_iris right_iris : option vec2) (frame_width frame_height : Z) :
  ((0 < frame_width)%Z -> (0 < frame_height)%Z ->
   iris_valid left_iris frame_width frame_height ->
   iris_valid right_iris frame_width frame_height ->
   left_iris <> None \/ right_iris <> None ->
   exists gaze,
     estimate_gaze gm left_iris right_iris frame_width frame_height = Some gaze
     /\ in_gaze_square gaze)
  /\ estimate_gaze gm None None frame_width frame_height = None.
Proof.
  split; [| reflexivity].
  intros Hw Hh Hl Hr Hsome. unfold estimate_gaze.
  destruct left_iris as [l |], right_iris as [r |]; simpl in Hl, Hr.
  - pose proof (normalize_in_square l _ _ Hw Hh Hl) as Hln.
    pose proof (normalize_in_square r _ _ Hw Hh Hr) as Hrn.
    destruct (String.eqb (eye_dominance gm) "left");
      [eexists; split; [reflexivity | exact Hln] |].
    destruct (String.eqb (eye_dominance gm) "right");
      [eexists; split; [reflexivity | exact Hrn] |].
    eexists; split; [reflexivity | apply mean2_in_square; assumption].
  - eexists; split; [reflexivity | apply normalize_in_square; assumption].
  - eexists; split; [reflexivity | apply normalize_in_square; assumption].
  - destruct Hsome as [H | H]; congruence.
Qed.

Lemma estimate_gaze_range_witness :
  exists gaze,
    estimate_gaze Examples.gm_fresh (Some (320, 120)) (Some (960, 600)) 1280 720
      = Some gaze /\ in_gaze_square gaze.
Proof.
  apply (proj1 (estimate_gaze_range Examples.gm_fresh
                  (Some (320, 120)) (Some (960, 600)) 1280 720)).
  - lia.
  - lia.
  - unfold iris_valid, in_frame; simpl; split; split; discriminate.
  - unfold iris_valid, in_frame; simpl; split; split; discriminate.
  - left; discriminate.
Defined.

(** C3, the claim refuted.  One iris in the frame is not enough: with the
    right iris in the middle of a 1280 x 720 frame and the left iris one
    frame width to the left of it, the mean of the two leaves the gaze
    square. *)
Lemma estimate_gaze_out_of_frame :
  (0 < 1280)%Z /\ (0 < 720)%Z /\ in_frame (640, 360) 1280 720 /\
  exists gaze,
    estimate_gaze Examples.gm_fresh (Some (-1280, 360)) (Some (640, 360))
      1280 720 = Some gaze /\
    fst gaze < -1 /\ ~ in_gaze_square gaze.
Proof.
  split; [reflexivity |]. split; [reflexivity |].
  split; [split; split; discriminate |].
  eexists. split; [reflexivity |]. split; [reflexivity |].
  intros [[H _] _]. apply H. reflexivity.
Qed.

Lemma lstsq_returns (pts : list CalibrationPoint) :
  exists x, Numpy.lstsq (gaze_matrix pts) (screen_matrix pts) = Some x.
Proof.
  unfold Numpy.lstsq, gaze_matrix, screen_matrix.
  rewrite !length_map, Nat.eqb_refl. eexists; reflexivity.
Qed.

(** *** Calibration from exact correspondences *)

Lemma square_zero (u : Q) : u * u <= 0 -> u == 0.
Proof.
  intros H. destruct (Qeq_dec u 0) as [E | N]; [exact E |].
  exfalso. destruct (Qlt_le_dec 0 u) as [Hp | Hn].
  - pose proof (Qmult_lt_0_compat u u Hp Hp). Lqa.lra.
  - assert (Hneg : 0 < - u).
    { destruct (Qle_lt_or_eq _ _ Hn) as [Hlt | Heq]; [Lqa.lra | contradiction]. }
    pose proof (Qmult_lt_0_compat (- u) (- u) Hneg Hneg) as Hpos.
    assert (E : - u * - u == u * u) by ring.
    rewrite E in Hpos. Lqa.lra.
Qed.

Lemma square_nonneg (u : Q) : 0 <= u * u.
Proof.
  destruct (Qlt_le_dec u 0) as [Hn | Hp].
  - assert (E : u * u == - u * - u) by ring.
    rewrite E. apply Qmult_le_0_compat; Lqa.lra.
  - apply Qmult_le_0_compat; assumption.
Qed.

Lemma residual_points (x : matrix) (cx cy : vector)
    (pts : list CalibrationPoint) :
  transpose x = [cx; cy] ->
  residual (gaze_matrix pts) x (screen_matrix pts)
  = fold_right Qplus 0 (map (point_error x) pts).
Proof.
  intros Hx. induction pts as [| p rest IH]; [reflexivity |].
  unfold residual, matmul, gaze_matrix, screen_matrix in *.
  cbn [map combine fold_right fst snd]. rewrite IH.
  unfold point_error. rewrite Hx. reflexivity.
Qed.

Lemma point_error_nonneg (x : matrix) (p : CalibrationPoint) :
  0 <= point_error x p.
Proof.
  unfold point_error. destruct (transpose x) as [| cx [| cy [| ? ?]]];
    try apply Qle_refl.
  cbv zeta.
  pose proof (square_nonneg
                (dot [fst (gaze_pos p); snd (gaze_pos p); 1] cx
                 - fst (screen_pos p))).
  pose proof (square_nonneg
                (dot [fst (gaze_pos p); snd (gaze_pos p); 1] cy
                 - snd (screen_pos p))).
  Lqa.lra.
Qed.

Lemma errors_vanish (x : matrix) (pts : list CalibrationPoint) :
  fold_right Qplus 0 (map (point_error x) pts) <= 0 ->
  Forall (fun p => point_error x p == 0) pts.
Proof.
  induction pts as [| p rest IH]; intros Hsum; [constructor |].
  cbn [map fold_right] in Hsum.
  pose proof (point_error_nonneg x p) as Hp.
  assert (Hrest : 0 <= fold_right Qplus 0 (map (point_error x) rest)).
  { clear. induction rest as [| q rest IH]; [apply Qle_refl |].
    cbn [map fold_right]. pose proof (point_error_nonneg x q). Lqa.lra. }
  constructor; [Lqa.lra | apply IH; Lqa.lra].
Qed.

Lemma shape_three_by_two (x : matrix) :
  has_shape 3 2 x ->
  exists x00 x01 x10 x11 x20 x21,
    x = [[x00; x01]; [x10; x11]; [x20; x21]].
Proof.
  intros [Hlen Hrows].
  destruct x as [| r0 [| r1 [| r2 [| ? ?]]]]; try discriminate Hlen.
  inversion Hrows as [| ? ? H0 Hrows1]; subst.
  inversion Hrows1 as [| ? ? H1 Hrows2]; subst.
  inversion Hrows2 as [| ? ? H2 _]; subst.
  destruct r0 as [| x00 [| x01 [| ? ?]]]; try discriminate H0.
  destruct r1 as [| x10 [| x11 [| ? ?]]]; try discriminate H1.
  destruct r2 as [| x20 [| x21 [| ? ?]]]; try discriminate H2.
  do 6 eexists. reflexivity.
Qed.

Lemma within_tolerance_exact (computed expected : Q) :
  computed == expected -> within_tolerance computed expected.
Proof.
  intros E. unfold within_tolerance.
  assert (E0 : computed - expected == 0) by (rewrite E; ring).
  rewrite E0. change (Qabs 0) with 0.
  apply Qmult_le_0_compat; [discriminate | apply Qabs_nonneg].
Qed.

Lemma reproduces_from_fit (lstsq : matrix -> matrix -> option matrix)
    (gm : GazeMapper) (x00 x01 x10 x11 x20 x21 : Q) :
  (4 <= length (calibration_points gm))%nat ->
  lstsq (gaze_matrix (calibration_points gm))
        (screen_matrix (calibration_points gm))
  = Some [[x00; x01]; [x10; x11]; [x20; x21]] ->
  Forall (fun p =>
            x00 * fst (gaze_pos p) + x10 * snd (gaze_pos p) + x20
            == fst (screen_pos p) /\
            x01 * fst (gaze_pos p) + x11 * snd (gaze_pos p) + x21
            == snd (screen_pos p)) (calibration_points gm) ->
  reproduces_training_points lstsq gm.
Proof.
  intros Hlen Hx Hall. unfold reproduces_training_points, compute_calibration.
  destruct (Nat.ltb_spec (length (calibration_points gm)) 4) as [Hlt | _];
    [lia |].
  rewrite Hx. cbn [fst snd transform_matrix calibration_points].
  split; [reflexivity |].
  exists [[x00; x10; x20]; [x01; x11; x21]]. split; [reflexivity |].
  eapply List.Forall_impl; [| exact Hall].
  intros p [Ex Ey]. cbv beta in Ex, Ey.
  set (g := [fst (gaze_pos p); snd (gaze_pos p); 1]).
  assert (Ex1 : dot [x00; x10; x20] g == fst (screen_pos p)).
  { rewrite <- Ex. unfold g, dot. cbn [combine map fold_right fst snd]. ring. }
  assert (Ey1 : dot [x01; x11; x21] g == snd (screen_pos p)).
  { rewrite <- Ey. unfold g, dot. cbn [combine map fold_right fst snd]. ring. }
  exists (dot [x00; x10; x20] g), (dot [x01; x11; x21] g).
  split; [reflexivity |].
  split; [exact Ex1 |]. split; [exact Ey1 |].
  split; apply within_tolerance_exact; assumption.
Qed.

(** Any routine that returns a least-squares solution will do. *)
Lemma reproduces_under_contract
    (lstsq : matrix -> matrix -> option matrix) (gm : GazeMapper)
    (a11 a12 a13 a21 a22 a23 : Q) :
  let pts := calibration_points gm in
  (4 <= length pts)%nat ->
  affine_image a11 a12 a13 a21 a22 a23 pts ->
  (exists x, lstsq (gaze_matrix pts) (screen_matrix pts) = Some x /\
             least_squares (gaze_matrix pts) (screen_matrix pts) x) ->
  reproduces_training_points lstsq gm.
Proof.
  intros pts Hlen Haff (x & Hx & Hshape & Hmin).
  assert (Hwa : width (gaze_matrix pts) = 3%nat).
  { unfold gaze_matrix. destruct pts; [cbn in Hlen; lia | reflexivity]. }
  assert (Hwb : width (screen_matrix pts) = 2%nat).
  { unfold screen_matrix. destruct pts; [cbn in Hlen; lia | reflexivity]. }
  rewrite Hwa, Hwb in Hshape, Hmin.
  destruct (shape_three_by_two x Hshape)
    as (x00 & x01 & x10 & x11 & x20 & x21 & Ex).
  (* the affine map itself is a candidate, and its error is zero *)
  set (y := [[a11; a21]; [a12; a22]; [a13; a23]]).
  assert (Hy : has_shape 3 2 y) by (split; [reflexivity | repeat constructor]).
  assert (Hzero : residual (gaze_matrix pts) y (screen_matrix pts) == 0).
  { rewrite (residual_points y [a11; a12; a13] [a21; a22; a23])
      by reflexivity.
    clear - Haff. induction Haff as [| p rest [Hpx Hpy] _ IH]; [reflexivity |].
    cbn [map fold_right]. rewrite IH.
    unfold point_error, y. cbn [transpose length seq map nth dot combine
                                fold_right fst snd].
    rewrite Hpx, Hpy. ring. }
  pose proof (Hmin y Hy) as Hle. rewrite Hzero in Hle.
  rewrite (residual_points x [x00; x10; x20] [x01; x11; x21]) in Hle
    by (rewrite Ex; reflexivity).
  pose proof (errors_vanish x pts Hle) as Hexact.
  apply (reproduces_from_fit lstsq gm x00 x01 x10 x11 x20 x21);
    [exact Hlen | fold pts; rewrite Hx, Ex; reflexivity |].
  fold pts. eapply List.Forall_impl; [| exact Hexact].
  intros p Hp. cbv beta in Hp.
  unfold point_error in Hp. rewrite Ex in Hp.
  cbn [transpose length seq map nth] in Hp. cbv zeta in Hp.
  set (g := [fst (gaze_pos p); snd (gaze_pos p); 1]) in *.
  pose proof (square_nonneg (dot g [x00; x10; x20] - fst (screen_pos p)))
    as Hsx.
  pose proof (square_nonneg (dot g [x01; x11; x21] - snd (screen_pos p)))
    as Hsy.
  assert (Ex0 : dot g [x00; x10; x20] - fst (screen_pos p) == 0)
    by (apply square_zero; Lqa.lra).
  assert (Ey0 : dot g [x01; x11; x21] - snd (screen_pos p) == 0)
    by (apply square_zero; Lqa.lra).
  unfold g, dot in Ex0, Ey0. cbn [combine map fold_right fst snd] in Ex0, Ey0.
  split; Lqa.lra.
Qed.

(** The exact least-squares routine on four points in general position. *)
Lemma reproduces_exact_solver (gm : GazeMapper)
    (a11 a12 a13 a21 a22 a23 : Q) :
  let pts := calibration_points gm in
  length pts = 4%nat ->
  no_three_collinear (map gaze_pos pts) ->
  affine_image a11 a12 a13 a21 a22 a23 pts ->
  reproduces_training_points Numpy.lstsq gm.
Proof.
  intros pts Hlen Hgen Haff.
  destruct pts as [| p1 [| p2 [| p3 [| p4 [| ? ?]]]]] eqn:Epts;
    try discriminate Hlen.
  cbn [map no_three_collinear no_line_from none_on_line] in Hgen.
  destruct Hgen as (((Hline & _) & _) & _).
  inversion Haff as [| ? ? [Hs1 Ht1] Haff1]; subst.
  inversion Haff1 as [| ? ? [Hs2 Ht2] Haff2]; subst.
  inversion Haff2 as [| ? ? [Hs3 Ht3] Haff3]; subst.
  inversion Haff3 as [| ? ? [Hs4 Ht4] _]; subst.
  destruct (lstsq_four_points
              (fst (gaze_pos p1)) (snd (gaze_pos p1))
              (fst (gaze_pos p2)) (snd (gaze_pos p2))
              (fst (gaze_pos p3)) (snd (gaze_pos p3))
              (fst (gaze_pos p4)) (snd (gaze_pos p4))
              (fst (screen_pos p1)) (snd (screen_pos p1))
              (fst (screen_pos p2)) (snd (screen_pos p2))
              (fst (screen_pos p3)) (snd (screen_pos p3))
              (fst (screen_pos p4)) (snd (screen_pos p4))
              a11 a12 a13 a21 a22 a23 Hline Hs1 Ht1 Hs2 Ht2 Hs3 Ht3 Hs4 Ht4)
    as (x11 & x12 & x21 & x22 & x31 & x32 & Hfit
        & E11 & E21 & E31 & E12 & E22 & E32).
  apply (reproduces_from_fit Numpy.lstsq gm x11 x12 x21 x22 x31 x32).
  - fold pts. rewrite Epts. cbn. lia.
  - fold pts. rewrite Epts. exact Hfit.
  - fold pts. rewrite Epts.
    repeat (constructor;
            [split; cbv beta;
             rewrite ?E11, ?E21, ?E31, ?E12, ?E22, ?E32; symmetry; assumption
            |]).
    constructor.
Qed.



(** C4, as the code has it.  With at least 4 calibration points
    [compute_calibration] fails exactly when the least-squares routine
    raises; it then logs the failure and leaves the mapper, hence the active
    transform, unchanged.  Whenever the routine returns, the call succeeds
    and installs the transposed solution: there is no check for a singular
    system, and the exact least-squares routine always returns. *)
Theorem compute_calibration_outcome
    (lstsq : matrix -> matrix -> option matrix) (gm : GazeMapper) :
  (4 <= length (calibration_points gm))%nat ->
  let a := gaze_matrix (calibration_points gm) in
  let b := screen_matrix (calibration_points gm) in
  let r := compute_calibration lstsq gm in
  (fst (fst r) = false <-> lstsq a b = None) /\
  (fst (fst r) = false ->
     snd (fst r) = [ErrorCalibrationFailed] /\ snd r = gm) /\
  (forall x, lstsq a b = Some x ->
     fst (fst r) = true /\ is_calibrated (snd r) = true /\
     transform_matrix (snd r) = Some (transpose x)) /\
  fst (fst (compute_calibration Numpy.lstsq gm)) = true.
Proof.
  intros Hlen a b r.
  assert (Hnum : fst (fst (compute_calibration Numpy.lstsq gm)) = true).
  { unfold compute_calibration.
    destruct (Nat.ltb_spec (length (calibration_points gm)) 4); [lia |].
    destruct (lstsq_returns (calibration_points gm)) as [x ->]. reflexivity. }
  revert Hnum.
  generalize (fst (fst (compute_calibration Numpy.lstsq gm))); intros exact Hnum.
  subst r. unfold compute_calibration.
  destruct (Nat.ltb_spec (length (calibration_points gm)) 4); [lia |].
  fold a b. destruct (lstsq a b) as [x |]; simpl.
  - split; [split; discriminate |].
    split; [discriminate |].
    split; [| exact Hnum].
    intros y Hy. injection Hy as <-. repeat split.
  - split; [split; reflexivity |].
    split; [intros _; split; reflexivity |].
    split; [discriminate | exact Hnum].
Qed.

Lemma compute_calibration_outcome_witness :
  fst (fst (compute_calibration Numpy.lstsq Examples.gm_corners)) = true /\
  transform_matrix (snd (compute_calibration Numpy.lstsq Examples.gm_corners))
    = Some [[960; 0; 960]; [0; 540; 540]].
Proof.
  assert (H : (4 <= length (calibration_points Examples.gm_corners))%nat)
    by (simpl; lia).
  pose proof (compute_calibration_outcome Numpy.lstsq Examples.gm_corners H)
    as (_ & _ & Hsome & _).
  destruct (Hsome [[960; 0]; [0; 540]; [960; 540]]) as (Hok & _ & Ht).
  - vm_compute. reflexivity.
  - split; [exact Hok | exact Ht].
Defined.

(** C4, the claim refuted.  Four samples whose gaze positions coincide are
    accepted: the call returns [True] and replaces the default transform by
    the constant map onto the sampled screen point. *)
Lemma compute_calibration_accepts_coincident :
  (4 <= length (calibration_points Examples.gm_coincident))%nat /\
  coincident (calibration_points Examples.gm_coincident) /\
  transform_matrix Examples.gm_coincident = Some (default_matrix 1920 1080) /\
  fst (fst (compute_calibration Numpy.lstsq Examples.gm_coincident)) = true /\
  transform_matrix (snd (compute_calibration Numpy.lstsq Examples.gm_coincident))
    = Some [[0; 0; 100]; [0; 0; 200]].
Proof.
  split; [simpl; lia |].
  split; [eexists; repeat constructor |].
  split; [reflexivity |].
  split; vm_compute; reflexivity.
Qed.

(** The same samples, for the record, also lie on a line. *)
Lemma coincident_example_collinear :
  collinear (calibration_points Examples.gm_coincident).
Proof.
  exists 1, 0, 0. split.
  - intros [H _]. discriminate H.
  - repeat (constructor; [reflexivity |]). constructor.
Qed.

Lemma gaze_to_screen_default (gm : GazeMapper) (gaze : vec2) :
  transform_matrix gm
    = Some (default_matrix (screen_width gm) (screen_height gm)) ->
  gaze_to_screen gm gaze
    = Some [ clip (dot [inject_Z (screen_width gm) / 2; 0;
                        inject_Z (screen_width gm) / 2]
                       [fst gaze; snd gaze; 1])
                  0 (inject_Z (screen_width gm));
             clip (dot [0; inject_Z (screen_height gm) / 2;
                        inject_Z (screen_height gm) / 2]
                       [fst gaze; snd gaze; 1])
                  0 (inject_Z (screen_height gm)) ].
Proof. intros Ht. unfold gaze_to_screen. rewrite Ht. reflexivity. Qed.

Lemma half_affine_range (w g : Q) :
  0 <= w -> -1 <= g <= 1 -> 0 <= w / 2 * g + w / 2 <= w.
Proof.
  intros Hw [H1 H2].
  assert (Hlo : 0 <= w * (g + 1)) by (apply Qmult_le_0_compat; Lqa.lra).
  assert (Hhi : 0 <= w * (1 - g)) by (apply Qmult_le_0_compat; Lqa.lra).
  assert (E1 : w / 2 * g + w / 2 == (1 # 2) * (w * (g + 1))) by field.
  assert (E2 : w - (w / 2 * g + w / 2) == (1 # 2) * (w * (1 - g))) by field.
  revert E1 E2 Hlo Hhi.
  generalize (w / 2 * g + w / 2) (w * (g + 1)) (w * (1 - g)).
  intros p u v E1 E2 Hlo Hhi. split; Lqa.lra.
Qed.

Lemma half_affine_preimage (w s : Q) :
  0 <= w -> 0 <= s <= w ->
  exists g, -1 <= g <= 1 /\ w / 2 * g + w / 2 == s.
Proof.
  intros Hw [H0 H1]. destruct (Qeq_dec w 0) as [E | N].
  - exists 0. split; [split; Lqa.lra |].
    assert (Es : s == 0) by Lqa.lra.
    rewrite E, Es. reflexivity.
  - exists (s / w * 2 - 1). split.
    + assert (0 <= s / w) by (apply Qle_shift_div_l; Lqa.lra).
      assert (s / w <= 1) by (apply Qle_shift_div_r; Lqa.lra).
      split; Lqa.lra.
    + field. exact N.
Qed.

(** C10. Right after construction and right after [reset_calibration] the
    mapper holds the default matrix [[W/2, 0, W/2], [0, H/2, H/2]].  With it
    [gaze_to_screen] answers every gaze with a point of the screen
    rectangle; on the gaze square it is the affine map
    [(W/2 gx + W/2, H/2 gy + H/2)], and every point of the screen rectangle
    is the image of a gaze in the square. *)
Theorem default_mapping_total (gm : GazeMapper) :
  (0 <= screen_width gm)%Z -> (0 <= screen_height gm)%Z ->
  ((exists dominance W H, gm = init dominance W H) \/
   (exists gm0, gm = reset_calibration gm0)) ->
  let W := inject_Z (screen_width gm) in
  let H := inject_Z (screen_height gm) in
  transform_matrix gm
    = Some (default_matrix (screen_width gm) (screen_height gm)) /\
  (forall gaze, exists x y,
     gaze_to_screen gm gaze = Some [x; y] /\ on_screen gm x y) /\
  (forall gaze, in_gaze_square gaze ->
     exists x y, gaze_to_screen gm gaze = Some [x; y] /\
       x == W / 2 * fst gaze + W / 2 /\ y == H / 2 * snd gaze + H / 2) /\
  (forall sx sy, on_screen gm sx sy ->
     exists gaze x y, in_gaze_square gaze /\
       gaze_to_screen gm gaze = Some [x; y] /\ x == sx /\ y == sy).
Proof.
  intros HW HH Hfresh W H.
  pose proof (inject_Z_nonneg _ HW) as HWq.
  pose proof (inject_Z_nonneg _ HH) as HHq.
  fold W in HWq. fold H in HHq.
  assert (Ht : transform_matrix gm
               = Some (default_matrix (screen_width gm) (screen_height gm))).
  { destruct Hfresh as [(d & W0 & H0 & ->) | (gm0 & ->)]; reflexivity. }
  assert (Haff : forall gaze, in_gaze_square gaze ->
     exists x y, gaze_to_screen gm gaze = Some [x; y] /\
       x == W / 2 * fst gaze + W / 2 /\ y == H / 2 * snd gaze + H / 2).
  { intros gaze [Hx Hy]. do 2 eexists.
    split; [apply gaze_to_screen_default; exact Ht |].
    fold W H. unfold dot; simpl. split.
    - rewrite clip_inside.
      + ring.
      + pose proof (half_affine_range W (fst gaze) HWq Hx).
        split; Lqa.lra.
    - rewrite clip_inside.
      + ring.
      + pose proof (half_affine_range H (snd gaze) HHq Hy).
        split; Lqa.lra. }
  split; [exact Ht |]. split; [| split; [exact Haff |]].
  - intros gaze. do 2 eexists.
    split; [apply gaze_to_screen_default; exact Ht |].
    split; apply clip_bounds; assumption.
  - intros sx sy [Hsx Hsy]. fold W in Hsx. fold H in Hsy.
    destruct (half_affine_preimage W sx HWq Hsx) as (gx & Hgx & Egx).
    destruct (half_affine_preimage H sy HHq Hsy) as (gy & Hgy & Egy).
    destruct (Haff (gx, gy)) as (x & y & Hg & Ex & Ey).
    { split; simpl; assumption. }
    exists (gx, gy), x, y. split; [split; simpl; assumption |].
    split; [exact Hg |]. simpl in Ex, Ey.
    split; [rewrite Ex; exact Egx | rewrite Ey; exact Egy].
Qed.

Lemma default_mapping_total_witness :
  exists x y,
    gaze_to_screen Examples.gm_fresh (1 # 2, -3) = Some [x; y] /\
    on_screen Examples.gm_fresh x y.
Proof.
  assert (HW : (0 <= screen_width Examples.gm_fresh)%Z) by (simpl; lia).
  assert (HH : (0 <= screen_height Examples.gm_fresh)%Z) by (simpl; lia).
  assert (Hf : (exists dominance W H, Examples.gm_fresh = init dominance W H) \/
               (exists gm0, Examples.gm_fresh = reset_calibration gm0)).
  { left. exists None, 1920%Z, 1080%Z. reflexivity. }
  exact (proj1 (proj2 (default_mapping_total Examples.gm_fresh HW HH Hf))
           (1 # 2, -3)).
Defined.

End GazeMapperSpec.

(** ** Cursor smoothing: the dead zone *)

Module SmootherSpec.
Import Smoother.
Local Open Scope R_scope.

Lemma norm_nonneg (v : vec2) : 0 <= norm v.
Proof. unfold norm. apply sqrt_pos. Qed.

(** A radius that is not positive switches the dead zone off. *)
Lemma no_dead_zone (s : VelocityBasedSmoother) (position : vec2)
    (screen_size : Z * Z) :
  dead_zone s <= 0 ->
  velocity_history (snd (apply s position screen_size))
  = Collections.deque_append 5 (velocity_history s) position.
Proof.
  intros Hdz. unfold apply.
  match goal with |- context [Rlt_dec ?a ?b] => destruct (Rlt_dec a b) as [Hlt | _] end.
  - pose proof (norm_nonneg (fst position - fst (anchor s screen_size),
                             snd position - snd (anchor s screen_size))).
    Lra.lra.
  - reflexivity.
Qed.

(** C9. An input whose distance from the anchor of the dead-zone stage is
    strictly below the configured radius is answered with the anchor
    itself; the stage keeps that anchor and records nothing in its
    position history. *)
Theorem apply_dead_zone (s : VelocityBasedSmoother) (position : vec2)
    (screen_size : Z * Z) :
  let c := anchor s screen_size in
  norm (fst position - fst c, snd position - snd c) < dead_zone s ->
  fst (apply s position screen_size) = c /\
  center (snd (apply s position screen_size)) = Some c /\
  velocity_history (snd (apply s position screen_size)) = velocity_history s.
Proof.
  intros c Hclose. unfold apply. fold c.
  destruct (Rlt_dec (norm (fst position - fst c, snd position - snd c))
                    (dead_zone s)) as [_ | Hfar].
  - repeat split.
  - contradiction.
Qed.

Lemma apply_dead_zone_witness :
  fst (apply (init None None) (963, 544) (1920%Z, 1080%Z)) = (1920 / 2, 1080 / 2).
Proof.
  apply (apply_dead_zone (init None None) (963, 544) (1920%Z, 1080%Z)).
  unfold norm, anchor; simpl.
  replace ((963 - 1920 / 2) * (963 - 1920 / 2) + (544 - 1080 / 2) * (544 - 1080 / 2))
    with (5 * 5) by Lra.lra.
  rewrite sqrt_square by Lra.lra. Lra.lra.
Defined.

(** At or beyond the radius the stage records the position in its history
    and goes on to the acceleration curve. *)
Lemma apply_outside_records (s : VelocityBasedSmoother) (position : vec2)
    (screen_size : Z * Z) :
  let c := anchor s screen_size in
  dead_zone s <= norm (fst position - fst c, snd position - snd c) ->
  velocity_history (snd (apply s position screen_size))
    = Collections.deque_append 5 (velocity_history s) position.
Proof.
  intros c Hfar. unfold apply. fold c.
  destruct (Rlt_dec (norm (fst position - fst c, snd position - snd c))
                    (dead_zone s)) as [Hclose | _].
  - Lra.lra.
  - reflexivity.
Qed.

End SmootherSpec.

(** ** Blink classification *)

Module ExpressionSpec.
Import Numpy NumpyFacts Tracker ExpressionEngine Properties.
Local Open Scope Q_scope.

(** *** What [detect_expression] does with the detector's answer *)

(** The detector writes the three latches and the timer, nothing else. *)
Lemma detect_blink_frame (e : ExpressionEngine) (d : EyeData) (now : Q) :
  exists l r b t0, snd (_detect_blink e d now) = with_blink e l r b t0.
Proof.
  unfold _detect_blink.
  repeat match goal with
         | |- context [if ?c then _ else _] => destruct c
         end;
    destruct e; simpl; do 4 eexists; reflexivity.
Qed.

Lemma detect_expression_gate (e : ExpressionEngine) (d : EyeData) (now : Q) :
  reaches_detector e d now ->
  classify_frame e d now = Some (fst (_detect_blink e d now)) /\
  (fst (_detect_blink e d now) <> NONE ->
   expression (fst (detect_expression e d now)) = fst (_detect_blink e d now) /\
   start_time (fst (detect_expression e d now)) = now /\
   last_blink_time (snd (detect_expression e d now)) = now) /\
  (fst (_detect_blink e d now) = NONE ->
   detect_expression e d now
   = (current_state e, snd (_detect_blink e d now))).
Proof.
  intros (Hface & Hbase & Hcool). apply ltb_ge in Hcool.
  unfold classify_frame, detect_expression.
  rewrite Hface, Hbase, Hcool. simpl negb. cbv iota.
  destruct (_detect_blink e d now) as [x e1] eqn:E. simpl fst. simpl snd.
  split; [reflexivity |]. split.
  - intros Hx. destruct x; try contradiction; simpl; repeat split.
  - intros ->. simpl. f_equal.
    destruct (detect_blink_frame e d now) as (l & r & b & t0 & Hfr).
    rewrite E in Hfr. simpl in Hfr. rewrite Hfr. reflexivity.
Qed.

(** *** Single steps of the detector *)

Ltac detector_step e d :=
  unfold _detect_blink;
  change (eye_closed (left_eye_aspect_ratio d) (baseline_left_ear e)
            (blink_threshold e)) with (left_shut e d);
  change (eye_closed (right_eye_aspect_ratio d) (baseline_right_ear e)
            (blink_threshold e)) with (right_shut e d);
  repeat match goal with
         | H : left_shut e d = _ |- _ => rewrite H; clear H
         | H : right_shut e d = _ |- _ => rewrite H; clear H
         end;
  destruct e as [? ? ? ? ? ? ? ? ? lc rc bc ?]; simpl in *; subst; simpl.

Lemma both_onset (e : ExpressionEngine) (d : EyeData) (now : Q) :
  both_eyes_closed e = false ->
  left_shut e d = true -> right_shut e d = true ->
  _detect_blink e d now
  = (NONE, with_blink e (left_eye_closed e) (right_eye_closed e) true now).
Proof.
  intros Hb Hl Hr. detector_step e d. destruct lc, rc; reflexivity.
Qed.

Lemma both_hold (e : ExpressionEngine) (d : EyeData) (now : Q) :
  both_eyes_closed e = true ->
  left_shut e d = true -> right_shut e d = true ->
  _detect_blink e d now = (NONE, e).
Proof.
  intros Hb Hl Hr. detector_step e d.
  destruct lc, rc; reflexivity.
Qed.

Lemma both_reopen (e : ExpressionEngine) (d : EyeData) (now : Q) :
  both_eyes_closed e = true ->
  left_shut e d && right_shut e d = false ->
  _detect_blink e d now
  = (if Qle_bool (long_blink_duration e) (now - blink_start_time e)
     then BLINK_BOTH_LONG else BLINK_BOTH,
     with_blink e (left_eye_closed e) (right_eye_closed e) false 0).
Proof.
  intros Hb Hlr. unfold _detect_blink.
  change (eye_closed (left_eye_aspect_ratio d) (baseline_left_ear e)
            (blink_threshold e)) with (left_shut e d).
  change (eye_closed (right_eye_aspect_ratio d) (baseline_right_ear e)
            (blink_threshold e)) with (right_shut e d).
  rewrite Hlr. destruct e as [? ? ? ? ? ? ? ? ? lc rc bc ?]; simpl in *; subst.
  match goal with |- context [Qle_bool ?a ?b] => destruct (Qle_bool a b) end;
    reflexivity.
Qed.

Lemma left_onset (e : ExpressionEngine) (d : EyeData) (now : Q) :
  left_eye_closed e = false -> right_eye_closed e = false ->
  both_eyes_closed e = false ->
  left_shut e d = true -> right_shut e d = false ->
  _detect_blink e d now = (NONE, with_blink e true false false now).
Proof. intros Hl Hr Hb Hls Hrs. detector_step e d. reflexivity. Qed.

Lemma left_hold (e : ExpressionEngine) (d : EyeData) (now : Q) :
  left_eye_closed e = true -> right_eye_closed e = false ->
  both_eyes_closed e = false ->
  left_shut e d = true -> right_shut e d = false ->
  _detect_blink e d now = (NONE, e).
Proof. intros Hl Hr Hb Hls Hrs. detector_step e d. reflexivity. Qed.

Lemma left_reopen (e : ExpressionEngine) (d : EyeData) (now : Q) :
  left_eye_closed e = true -> right_eye_closed e = false ->
  both_eyes_closed e = false ->
  left_shut e d = false -> right_shut e d = false ->
  _detect_blink e d now
  = (if ltb (now - blink_start_time e) (3 # 10) then BLINK_LEFT else NONE,
     with_blink e false false false 0).
Proof.
  intros Hl Hr Hb Hls Hrs. detector_step e d.
  match goal with |- context [ltb ?a ?b] => destruct (ltb a b) end;
    reflexivity.
Qed.

Lemma right_onset (e : ExpressionEngine) (d : EyeData) (now : Q) :
  left_eye_closed e = false -> right_eye_closed e = false ->
  both_eyes_closed e = false ->
  left_shut e d = false -> right_shut e d = true ->
  _detect_blink e d now = (NONE, with_blink e false true false now).
Proof. intros Hl Hr Hb Hls Hrs. detector_step e d. reflexivity. Qed.

Lemma right_hold (e : ExpressionEngine) (d : EyeData) (now : Q) :
  left_eye_closed e = false -> right_eye_closed e = true ->
  both_eyes_closed e = false ->
  left_shut e d = false -> right_shut e d = true ->
  _detect_blink e d now = (NONE, e).
Proof. intros Hl Hr Hb Hls Hrs. detector_step e d. reflexivity. Qed.

Lemma right_reopen (e : ExpressionEngine) (d : EyeData) (now : Q) :
  left_eye_closed e = false -> right_eye_closed e = true ->
  both_eyes_closed e = false ->
  left_shut e d = false -> right_shut e d = false ->
  _detect_blink e d now
  = (if ltb (now - blink_start_time e) (3 # 10) then BLINK_RIGHT else NONE,
     with_blink e false false false 0).
Proof.
  intros Hl Hr Hb Hls Hrs. detector_step e d.
  match goal with |- context [ltb ?a ?b] => destruct (ltb a b) end;
    reflexivity.
Qed.

(** *** Whole closures, from an idle detector *)

Lemma detect_blinks_hold (e : ExpressionEngine)
    (holds tail : list (Q * EyeData)) :
  Forall (fun f => _detect_blink e (snd f) (fst f) = (NONE, e)) holds ->
  detect_blinks e (holds ++ tail)
  = (repeat NONE (length holds) ++ fst (detect_blinks e tail),
     snd (detect_blinks e tail))%list.
Proof.
  intros H. induction H as [| [t d] rest Hstep _ IH]; simpl.
  - destruct (detect_blinks e tail); reflexivity.
  - simpl in Hstep. rewrite Hstep, IH. reflexivity.
Qed.

(** A closure of both eyes, seen by a detector whose combined latch is
    clear, is classified on the first observation that is not
    both-closed: long when it lasted at least the long-blink time, short
    otherwise.  Nothing is classified before. *)
Lemma combined_blink_classified (e : ExpressionEngine)
    (t1 : Q) (d1 : EyeData) (holds : list (Q * EyeData))
    (t2 : Q) (d2 : EyeData) :
  both_eyes_closed e = false ->
  left_shut e d1 = true -> right_shut e d1 = true ->
  Forall (fun f => left_shut e (snd f) = true /\ right_shut e (snd f) = true)
    holds ->
  left_shut e d2 && right_shut e d2 = false ->
  fst (detect_blinks e ((t1, d1) :: holds ++ [(t2, d2)]))
  = (NONE :: repeat NONE (length holds)
       ++ [if Qle_bool (long_blink_duration e) (t2 - t1)
           then BLINK_BOTH_LONG else BLINK_BOTH])%list.
Proof.
  intros Hb Hl1 Hr1 Hholds H2. simpl.
  rewrite (both_onset e d1 t1 Hb Hl1 Hr1).
  set (e1 := with_blink e (left_eye_closed e) (right_eye_closed e) true t1).
  rewrite (detect_blinks_hold e1 holds [(t2, d2)]).
  - simpl. rewrite (both_reopen e1 d2 t2 eq_refl H2). reflexivity.
  - eapply List.Forall_impl; [| exact Hholds].
    intros [t d] [Hl Hr]. simpl in *.
    apply both_hold; [reflexivity | exact Hl | exact Hr].
Qed.

(** A closure of the left eye alone, the right eye open throughout, seen by
    a detector whose three latches are clear, is classified on reopening
    as a left blink when it lasted less than 300 ms and not at all
    otherwise. *)
Lemma left_blink_classified (e : ExpressionEngine)
    (t1 : Q) (d1 : EyeData) (holds : list (Q * EyeData))
    (t2 : Q) (d2 : EyeData) :
  left_eye_closed e = false -> right_eye_closed e = false ->
  both_eyes_closed e = false ->
  left_shut e d1 = true -> right_shut e d1 = false ->
  Forall (fun f => left_shut e (snd f) = true /\ right_shut e (snd f) = false)
    holds ->
  left_shut e d2 = false -> right_shut e d2 = false ->
  fst (detect_blinks e ((t1, d1) :: holds ++ [(t2, d2)]))
  = (NONE :: repeat NONE (length holds)
       ++ [if ltb (t2 - t1) (3 # 10) then BLINK_LEFT else NONE])%list.
Proof.
  intros Hl Hr Hb Hl1 Hr1 Hholds Hl2 Hr2. simpl.
  rewrite (left_onset e d1 t1 Hl Hr Hb Hl1 Hr1).
  set (e1 := with_blink e true false false t1).
  rewrite (detect_blinks_hold e1 holds [(t2, d2)]).
  - simpl.
    rewrite (left_reopen e1 d2 t2 eq_refl eq_refl eq_refl Hl2 Hr2). reflexivity.
  - eapply List.Forall_impl; [| exact Hholds].
    intros [t d] [Hls Hrs]. simpl in *.
    apply left_hold; [reflexivity | reflexivity | reflexivity | exact Hls | exact Hrs].
Qed.

Lemma right_blink_classified (e : ExpressionEngine)
    (t1 : Q) (d1 : EyeData) (holds : list (Q * EyeData))
    (t2 : Q) (d2 : EyeData) :
  left_eye_closed e = false -> right_eye_closed e = false ->
  both_eyes_closed e = false ->
  left_shut e d1 = false -> right_shut e d1 = true ->
  Forall (fun f => left_shut e (snd f) = false /\ right_shut e (snd f) = true)
    holds ->
  left_shut e d2 = false -> right_shut e d2 = false ->
  fst (detect_blinks e ((t1, d1) :: holds ++ [(t2, d2)]))
  = (NONE :: repeat NONE (length holds)
       ++ [if ltb (t2 - t1) (3 # 10) then BLINK_RIGHT else NONE])%list.
Proof.
  intros Hl Hr Hb Hl1 Hr1 Hholds Hl2 Hr2. simpl.
  rewrite (right_onset e d1 t1 Hl Hr Hb Hl1 Hr1).
  set (e1 := with_blink e false true false t1).
  rewrite (detect_blinks_hold e1 holds [(t2, d2)]).
  - simpl.
    rewrite (right_reopen e1 d2 t2 eq_refl eq_refl eq_refl Hl2 Hr2). reflexivity.
  - eapply List.Forall_impl; [| exact Hholds].
    intros [t d] [Hls Hrs]. simpl in *.
    apply right_hold; [reflexivity | reflexivity | reflexivity | exact Hls | exact Hrs].
Qed.

(** *** A latch left behind *)

(** The return that ends a combined blink is taken before the per-eye
    latches are looked at: an eye whose latch was set just before the
    other eye closed keeps it, with the shared timer back at zero. *)
Lemma combined_blink_leaves_latches (e : ExpressionEngine) (d : EyeData)
    (now : Q) :
  both_eyes_closed e = true ->
  left_shut e d && right_shut e d = false ->
  left_eye_closed (snd (_detect_blink e d now)) = left_eye_closed e /\
  right_eye_closed (snd (_detect_blink e d now)) = right_eye_closed e /\
  blink_start_time (snd (_detect_blink e d now)) = 0.
Proof.
  intros Hb Hlr. rewrite (both_reopen e d now Hb Hlr).
  destruct e; repeat split.
Qed.

(** C5, on the code.  The right eye closes one observation before the left,
    both reopen together and the blink is classified; the right latch is
    still set.  250 ms later, past the cooldown, the left eye alone closes
    for 250 ms, the right eye staying open.  At the onset the detector
    reports a right blink; on reopening, past the cooldown again, it
    classifies nothing.  The same closure met by an idle detector is
    classified as a left blink. *)
Theorem left_blink_lost_after_combined_blink :
  let after_blink :=
    snd (run Examples.engine_ready (firstn 3 Examples.stale_latch_frames)) in
  baseline_initialized Examples.engine_ready = true /\
  right_eye_closed after_blink = true /\
  Qred (blink_start_time after_blink) = 0 /\
  fst (run Examples.engine_ready Examples.stale_latch_frames)
    = [Some NONE; Some NONE; Some BLINK_BOTH; Some BLINK_RIGHT; Some NONE] /\
  fst (run Examples.engine_ready Examples.left_wink_frames)
    = [Some NONE; Some BLINK_LEFT].
Proof. vm_compute. repeat split. Qed.

End ExpressionSpec.

(** ** The safety gate *)

Module SafetySpec.
Import Numpy NumpyFacts SafetyManager Properties.
Local Open Scope Q_scope.

Lemma with_click_times_same (s : SafetyManager) :
  with_click_times s (click_times s) = s.
Proof. destruct s; reflexivity. Qed.

(** *** The pruning loop *)

Lemma remove_old_clicks_split (now : Q) (d : list Q) :
  exists dropped,
    d = (dropped ++ remove_old_clicks now d)%list /\
    Forall (fun t => 1 < now - t) dropped.
Proof.
  induction d as [| t rest IH]; simpl.
  - exists []. split; [reflexivity | constructor].
  - destruct (ltb 1 (now - t)) eqn:E.
    + destruct IH as (dropped & Hd & Hold).
      exists (t :: dropped). split.
      * simpl. f_equal. exact Hd.
      * constructor; [apply ltb_lt; exact E | exact Hold].
    + exists []. split; [reflexivity | constructor].
Qed.

Lemma recent_clicks_app (now : Q) (a b : list Q) :
  recent_clicks now (a ++ b) = (recent_clicks now a ++ recent_clicks now b)%list.
Proof. unfold recent_clicks. apply List.filter_app. Qed.

Lemma recent_clicks_expired (now' : Q) (dropped : list Q) (now : Q) :
  now <= now' -> Forall (fun t => 1 < now - t) dropped ->
  recent_clicks now' dropped = [].
Proof.
  intros Hle Hold. induction Hold as [| t rest Ht _ IH]; [reflexivity |].
  unfold recent_clicks in *. simpl.
  assert (E : ltb 1 (now' - t) = true) by (apply ltb_lt; Lqa.lra).
  rewrite E. simpl. exact IH.
Qed.

(** Pruning at [now] loses no timestamp that is still live at [now] or at
    any later time. *)
Lemma remove_old_clicks_keeps_recent (now now' : Q) (d : list Q) :
  now <= now' ->
  recent_clicks now' (remove_old_clicks now d) = recent_clicks now' d.
Proof.
  intros Hle. destruct (remove_old_clicks_split now d) as (dropped & Hd & Hold).
  rewrite Hd at 2. rewrite recent_clicks_app.
  rewrite (recent_clicks_expired now' dropped now Hle Hold). reflexivity.
Qed.

Lemma recent_clicks_length (now : Q) (d : list Q) :
  (length (recent_clicks now d) <= length d)%nat.
Proof. unfold recent_clicks. apply List.filter_length_le. Qed.

Lemma recent_clicks_all (now : Q) (d : list Q) :
  Forall (fun t => now - t <= 1) d -> recent_clicks now d = d.
Proof.
  intros H. induction H as [| t rest Ht _ IH]; [reflexivity |].
  unfold recent_clicks in *. simpl.
  assert (E : ltb 1 (now - t) = false) by (apply ltb_ge; exact Ht).
  rewrite E. simpl. f_equal. exact IH.
Qed.

(** On a window in clock order the loop removes exactly the expired
    timestamps. *)
Lemma remove_old_clicks_sorted (now : Q) (d : list Q) :
  nondecreasing d -> remove_old_clicks now d = recent_clicks now d.
Proof.
  induction d as [| t rest IH]; [reflexivity |].
  intros [Hle Hsorted]. simpl. unfold recent_clicks; simpl.
  destruct (ltb 1 (now - t)) eqn:E; simpl.
  - apply IH. exact Hsorted.
  - f_equal. symmetry. apply recent_clicks_all.
    apply ltb_ge in E.
    eapply List.Forall_impl; [| exact Hle].
    intros u Hu. simpl in Hu. Lqa.lra.
Qed.

Lemma remove_old_clicks_idempotent (now : Q) (d : list Q) :
  remove_old_clicks now (remove_old_clicks now d) = remove_old_clicks now d.
Proof.
  induction d as [| t rest IH]; [reflexivity |].
  simpl. destruct (ltb 1 (now - t)) eqn:E; [exact IH |].
  simpl. rewrite E. reflexivity.
Qed.

(** *** Registering clicks *)

Lemma deque_append_window {A : Type} (m : nat) (l : list A) (x : A) :
  Collections.deque_append m (skipn (length l - m) l) x
  = skipn (length (l ++ [x]) - m) (l ++ [x])%list.
Proof.
  unfold Collections.deque_append.
  rewrite !length_app, length_skipn. simpl.
  destruct (Nat.le_gt_cases (length l) m) as [Hle | Hgt].
  - replace (length l - m)%nat with 0%nat by lia. simpl.
    f_equal. lia.
  - replace (length l - (length l - m) + 1 - m)%nat with 1%nat by lia.
    replace (length l + 1 - m)%nat with (S (length l - m)) by lia.
    change (S (length l - m)) with (1 + (length l - m))%nat.
    rewrite <- skipn_skipn, (skipn_app (length l - m) l [x]).
    replace (length l - m - length l)%nat with 0%nat by lia.
    reflexivity.
Qed.

Lemma register_click_times (s : SafetyManager) (t1 t2 : Q) :
  click_times (register_action s "click" t1 t2)
  = Collections.deque_append 10 (click_times s) t2.
Proof. reflexivity. Qed.

Lemma register_clicks_window (times : list Q) :
  forall (s : SafetyManager) (l : list Q),
    click_times s = skipn (length l - 10) l ->
    click_times (register_clicks s times)
    = skipn (length (l ++ times) - 10) (l ++ times)%list.
Proof.
  induction times as [| t rest IH]; intros s l Hs.
  - simpl. rewrite app_nil_r. exact Hs.
  - unfold register_clicks in *. simpl.
    rewrite (IH (register_action s "click" t t) (l ++ [t])%list).
    + rewrite <- app_assoc. reflexivity.
    + rewrite register_click_times, Hs. apply deque_append_window.
Qed.

(** Up to ten clicks registered within the last second are all found in the
    window afterwards. *)
Lemma registered_clicks_are_recent (s : SafetyManager) (times : list Q)
    (now : Q) :
  (length (click_times s) <= 10)%nat -> (length times <= 10)%nat ->
  Forall (fun t => now - t <= 1) times ->
  (length times
   <= length (recent_clicks now (click_times (register_clicks s times))))%nat.
Proof.
  intros Hcap Hn Hrecent.
  rewrite (register_clicks_window times s (click_times s)).
  - rewrite skipn_app, recent_clicks_app, length_app.
    replace (length (click_times s ++ times) - 10 - length (click_times s))%nat
      with 0%nat by (rewrite length_app; lia).
    change (skipn 0 times) with times.
    rewrite (recent_clicks_all now times Hrecent). lia.
  - replace (length (click_times s) - 10)%nat with 0%nat by lia. reflexivity.
Qed.

(** *** Queries *)

(** A query leaves the window alone or prunes it. *)
Lemma can_perform_action_window (s : SafetyManager) (action_type : string)
    (t1 t2 : Q) :
  click_times (snd (can_perform_action s action_type t1 t2)) = click_times s \/
  click_times (snd (can_perform_action s action_type t1 t2))
  = remove_old_clicks t2 (click_times s).
Proof.
  unfold can_perform_action.
  destruct (negb (enabled s) || paused s); [left; reflexivity |].
  destruct (match action_cooldowns s !! action_type with
            | Some last => _ | None => false end); [left; reflexivity |].
  destruct (String.eqb action_type "click"); [| left; reflexivity].
  unfold _check_click_rate. right.
  destruct (Z.of_nat (length (remove_old_clicks t2 (click_times s)))
            <? max_clicks_per_second s)%Z; reflexivity.
Qed.

(** A window that holds at least the configured maximum of live timestamps
    denies a click, and the query drops none of them. *)
Lemma click_window_full_denies (s : SafetyManager) (now_cooldown now_rate : Q) :
  (max_clicks_per_second s
   <= Z.of_nat (length (recent_clicks now_rate (click_times s))))%Z ->
  fst (can_perform_action s "click" now_cooldown now_rate) = false /\
  forall later, now_rate <= later ->
    recent_clicks later
      (click_times (snd (can_perform_action s "click" now_cooldown now_rate)))
    = recent_clicks later (click_times s).
Proof.
  intros Hfull. unfold can_perform_action.
  destruct (negb (enabled s) || paused s); [split; reflexivity |].
  destruct (match action_cooldowns s !! "click" with
            | Some last => _ | None => false end); [split; reflexivity |].
  simpl String.eqb. unfold _check_click_rate.
  pose proof (remove_old_clicks_keeps_recent now_rate now_rate (click_times s)
                (Qle_refl _)) as Hkeep.
  pose proof (recent_clicks_length now_rate
                (remove_old_clicks now_rate (click_times s))) as Hlen.
  rewrite Hkeep in Hlen.
  destruct (Z.ltb_spec
              (Z.of_nat (length (remove_old_clicks now_rate (click_times s))))
              (max_clicks_per_second s)) as [Hlt | Hge]; [lia |].
  simpl. split; [reflexivity |].
  intros later Hlater. apply remove_old_clicks_keeps_recent. exact Hlater.
Qed.

(** With fewer live timestamps than the maximum a click is allowed, the
    other conditions being met. *)
Lemma click_window_aged_allows (s : SafetyManager) (now_cooldown now_rate : Q) :
  enabled s = true -> paused s = false ->
  cooldown_elapsed s "click" now_cooldown ->
  nondecreasing (click_times s) ->
  (Z.of_nat (length (recent_clicks now_rate (click_times s)))
   < max_clicks_per_second s)%Z ->
  fst (can_perform_action s "click" now_cooldown now_rate) = true.
Proof.
  intros Hen Hpa Hcool Hsorted Hfew. unfold can_perform_action.
  rewrite Hen, Hpa. simpl negb. simpl orb. cbv iota.
  unfold cooldown_elapsed in Hcool.
  destruct (action_cooldowns s !! "click") as [last |].
  - apply ltb_ge in Hcool. rewrite Hcool.
    simpl String.eqb. unfold _check_click_rate.
    rewrite (remove_old_clicks_sorted _ _ Hsorted).
    destruct (Z.ltb_spec
                (Z.of_nat (length (recent_clicks now_rate (click_times s))))
                (max_clicks_per_second s)); [reflexivity | lia].
  - simpl String.eqb. unfold _check_click_rate.
    rewrite (remove_old_clicks_sorted _ _ Hsorted).
    destruct (Z.ltb_spec
                (Z.of_nat (length (recent_clicks now_rate (click_times s))))
                (max_clicks_per_second s)); [reflexivity | lia].
Qed.

Lemma register_clicks_max (times : list Q) :
  forall s, max_clicks_per_second (register_clicks s times)
            = max_clicks_per_second s.
Proof.
  induction times as [| t rest IH]; intros s; [reflexivity |].
  unfold register_clicks in *. simpl. rewrite IH. reflexivity.
Qed.

(** The click window never outgrows its capacity. *)
Lemma register_clicks_capacity (times : list Q) (s : SafetyManager) :
  (length (click_times s) <= 10)%nat ->
  (length (click_times (register_clicks s times)) <= 10)%nat.
Proof.
  intros Hcap.
  rewrite (register_clicks_window times s (click_times s)).
  - rewrite length_skipn. lia.
  - replace (length (click_times s) - 10)%nat with 0%nat by lia. reflexivity.
Qed.

Lemma remove_old_clicks_length (now : Q) (d : list Q) :
  (length (remove_old_clicks now d) <= length d)%nat.
Proof.
  induction d as [| t rest IH]; simpl; [lia |].
  destruct (ltb 1 (now - t)); simpl; lia.
Qed.

(** Every operation of the manager keeps the window within its capacity. *)
Lemma window_capacity (s : SafetyManager) :
  (length (click_times s) <= 10)%nat ->
  (forall face now,
     (length (click_times (update_face_detection s face now)) <= 10)%nat) /\
  (forall action_type t1 t2,
     (length (click_times (snd (can_perform_action s action_type t1 t2)))
      <= 10)%nat) /\
  (forall action_type t1 t2,
     (length (click_times (register_action s action_type t1 t2)) <= 10)%nat) /\
  (length (click_times (fst (emergency_stop s))) <= 10)%nat /\
  (length (click_times (resume s)) <= 10)%nat.
Proof.
  intros Hcap. split; [| split; [| split; [| split]]].
  - intros face now. unfold update_face_detection. destruct face.
    + simpl. destruct (paused s && enabled s); exact Hcap.
    + destruct (ltb (no_face_timeout s) (now - last_face_time s)); exact Hcap.
  - intros action_type t1 t2.
    destruct (can_perform_action_window s action_type t1 t2) as [-> | ->].
    + exact Hcap.
    + pose proof (remove_old_clicks_length t2 (click_times s)). lia.
  - intros action_type t1 t2. unfold register_action.
    destruct (String.eqb action_type "click"); [| exact Hcap].
    simpl. unfold Collections.deque_append.
    rewrite length_skipn, length_app. simpl. lia.
  - exact Hcap.
  - simpl. lia.
Qed.

Lemma nondecreasing_skipn (k : nat) :
  forall d, nondecreasing d -> nondecreasing (skipn k d).
Proof.
  induction k as [| k IH]; intros d Hd; [exact Hd |].
  destruct d as [| t rest]; [exact Hd |].
  simpl. apply IH. exact (proj2 Hd).
Qed.

Lemma nondecreasing_snoc (d : list Q) (t : Q) :
  nondecreasing d -> Forall (fun u => u <= t) d -> nondecreasing (d ++ [t]).
Proof.
  induction d as [| u rest IH]; intros Hd Hle; simpl.
  - split; [constructor | exact I].
  - destruct Hd as [Hu Hrest]. inversion Hle as [| ? ? Hut Hrt]; subst.
    split.
    + apply Forall_app. split; [exact Hu | repeat constructor; exact Hut].
    + apply IH; assumption.
Qed.

(** A click registered at a reading that is not before any timestamp in
    the window leaves the window in clock order. *)
Lemma register_action_clock_order (s : SafetyManager) (t1 t2 : Q) :
  nondecreasing (click_times s) ->
  Forall (fun u => u <= t2) (click_times s) ->
  nondecreasing (click_times (register_action s "click" t1 t2)).
Proof.
  intros Hd Hle. rewrite register_click_times.
  unfold Collections.deque_append.
  apply nondecreasing_skipn. apply nondecreasing_snoc; assumption.
Qed.

Lemma remove_old_clicks_clock_order (now : Q) (d : list Q) :
  nondecreasing d -> nondecreasing (remove_old_clicks now d).
Proof.
  induction d as [| t rest IH]; intros Hd; [exact Hd |].
  simpl. destruct (ltb 1 (now - t)); [apply IH; exact (proj2 Hd) | exact Hd].
Qed.

(** C6, the claim refuted.  With a configured maximum of 11, eleven clicks
    registered within half a second leave ten timestamps in the window, and
    a click is allowed 0.3 s after the last one. *)
Lemma click_rate_limit_capped_at_ten :
  max_clicks_per_second Examples.safety_max_eleven = 11%Z /\
  length Examples.eleven_clicks = 11%nat /\
  Forall (fun t => (108 # 10) - t <= 1) Examples.eleven_clicks /\
  length (click_times
            (register_clicks Examples.safety_max_eleven Examples.eleven_clicks))
    = 10%nat /\
  fst (can_perform_action
         (register_clicks Examples.safety_max_eleven Examples.eleven_clicks)
         "click" (108 # 10) (108 # 10)) = true.
Proof.
  split; [reflexivity |]. split; [reflexivity |].
  split; [repeat constructor; discriminate |].
  split; vm_compute; reflexivity.
Qed.

(** C6, as the code has it.  After the configured maximum of clicks, at most
    10 (the capacity of the click window), was registered within the last
    second, [can_perform_action] denies a click, and the query drops no live
    timestamp, so every further query is denied as long as that many stay
    live.  Once fewer than the maximum are live a click is allowed again,
    provided the gate is enabled, not paused and the click cooldown has run
    out (the window being in clock order). *)
Theorem click_rate_limit (s0 : SafetyManager) (times : list Q)
    (now_cooldown now_rate : Q) :
  (length (click_times s0) <= 10)%nat ->
  (max_clicks_per_second s0 <= 10)%Z ->
  Z.of_nat (length times) = max_clicks_per_second s0 ->
  Forall (fun t => now_rate - t <= 1) times ->
  let s := register_clicks s0 times in
  fst (can_perform_action s "click" now_cooldown now_rate) = false /\
  (forall later, now_rate <= later ->
     recent_clicks later
       (click_times (snd (can_perform_action s "click" now_cooldown now_rate)))
     = recent_clicks later (click_times s)) /\
  (forall t_cooldown t_rate,
     enabled s = true -> paused s = false ->
     cooldown_elapsed s "click" t_cooldown ->
     nondecreasing (click_times s) ->
     (Z.of_nat (length (recent_clicks t_rate (click_times s)))
      < max_clicks_per_second s)%Z ->
     fst (can_perform_action s "click" t_cooldown t_rate) = true).
Proof.
  intros Hcap Hmax Hn Hrecent s.
  assert (Hfull : (max_clicks_per_second s
            <= Z.of_nat (length (recent_clicks now_rate (click_times s))))%Z).
  { unfold s. rewrite register_clicks_max, <- Hn.
    apply inj_le.
    apply registered_clicks_are_recent; [exact Hcap | lia | exact Hrecent]. }
  destruct (click_window_full_denies s now_cooldown now_rate Hfull)
    as [Hdeny Hkeep].
  split; [exact Hdeny |]. split; [exact Hkeep |].
  intros t_cooldown t_rate. apply click_window_aged_allows.
Qed.

Lemma click_rate_limit_witness :
  fst (can_perform_action Examples.safety_three_clicks "click"
         (109 # 10) (109 # 10)) = false /\
  fst (can_perform_action Examples.safety_three_clicks "click"
         (115 # 10) (115 # 10)) = true.
Proof.
  assert (Hcap : (length (click_times Examples.safety_fresh) <= 10)%nat)
    by (simpl; lia).
  assert (Hmax : (max_clicks_per_second Examples.safety_fresh <= 10)%Z)
    by (simpl; lia).
  assert (Hn : Z.of_nat (length [10; 10 + (2 # 10); 10 + (4 # 10)])
               = max_clicks_per_second Examples.safety_fresh)
    by reflexivity.
  assert (Hrecent : Forall (fun t => (109 # 10) - t <= 1)
                      [10; 10 + (2 # 10); 10 + (4 # 10)])
    by (repeat constructor; discriminate).
  destruct (click_rate_limit Examples.safety_fresh
              [10; 10 + (2 # 10); 10 + (4 # 10)] (109 # 10) (109 # 10)
              Hcap Hmax Hn Hrecent) as (Hdeny & _ & Hallow).
  split; [exact Hdeny |].
  apply (Hallow (115 # 10) (115 # 10)).
  - reflexivity.
  - reflexivity.
  - vm_compute. discriminate.
  - simpl. repeat split; repeat constructor; discriminate.
  - vm_compute. reflexivity.
Defined.

(** *** Auto-pause and emergency stop *)

Lemma update_face_detection_enabled (s : SafetyManager) (face : bool) (now : Q) :
  enabled (update_face_detection s face now) = enabled s.
Proof.
  unfold update_face_detection. destruct face.
  - simpl. destruct (paused s && enabled s); reflexivity.
  - destruct (ltb (no_face_timeout s) (now - last_face_time s)); reflexivity.
Qed.

Lemma update_face_detection_stopped (s : SafetyManager) (face : bool) (now : Q) :
  enabled s = false -> paused s = true ->
  paused (update_face_detection s face now) = true.
Proof.
  intros Hen Hpa. unfold update_face_detection. destruct face.
  - simpl. rewrite Hen, Hpa. simpl. exact Hpa.
  - destruct (ltb (no_face_timeout s) (now - last_face_time s));
      [reflexivity | exact Hpa].
Qed.

Lemma face_updates_enabled (updates : list (bool * Q)) :
  forall s, enabled (face_updates s updates) = enabled s.
Proof.
  induction updates as [| u rest IH]; intros s; [reflexivity |].
  unfold face_updates in *. simpl. rewrite IH.
  apply update_face_detection_enabled.
Qed.

Lemma face_updates_stopped (updates : list (bool * Q)) :
  forall s, enabled s = false -> paused s = true ->
    paused (face_updates s updates) = true.
Proof.
  induction updates as [| u rest IH]; intros s Hen Hpa; [exact Hpa |].
  unfold face_updates in *. simpl. apply IH.
  - rewrite update_face_detection_enabled. exact Hen.
  - apply update_face_detection_stopped; assumption.
Qed.

Lemma no_face_update (s : SafetyManager) (now : Q) :
  last_face_time (update_face_detection s false now) = last_face_time s /\
  no_face_timeout (update_face_detection s false now) = no_face_timeout s /\
  paused (update_face_detection s false now)
  = paused s || ltb (no_face_timeout s) (now - last_face_time s).
Proof.
  unfold update_face_detection.
  destruct (ltb (no_face_timeout s) (now - last_face_time s)); cbn.
  - rewrite orb_true_r. repeat split.
  - rewrite orb_false_r. repeat split.
Qed.

Lemma no_face_updates (times : list Q) :
  forall s,
    let s' := face_updates s (map (fun t => (false, t)) times) in
    last_face_time s' = last_face_time s /\
    paused s'
    = paused s
      || existsb (fun t => ltb (no_face_timeout s) (t - last_face_time s))
           times.
Proof.
  induction times as [| t rest IH]; intros s; cbv zeta.
  - cbn. rewrite orb_false_r. split; reflexivity.
  - unfold face_updates in *. cbn [map fold_left fst snd].
    destruct (no_face_update s t) as (Hl & Ht & Hp).
    destruct (IH (update_face_detection s false t)) as [IHl IHp].
    rewrite IHl, IHp, Hl, Ht, Hp. cbn [existsb].
    split; [reflexivity | first [apply orb_assoc | symmetry; apply orb_assoc]].
Qed.

(** C7. A no-face update never moves the time of the last face; it sets
    [paused] when that time is older than the timeout and otherwise leaves
    [paused] alone.  So through any run of no-face updates [paused] is set
    by the first update that arrives more than the timeout after the last
    face, and stays set.  A face-detected update clears [paused] when
    [enabled] holds and leaves it alone otherwise; no run of face-detection
    updates changes [enabled].  After an emergency stop the gate therefore
    stays disabled and paused, denying every action, through any run of
    updates, until [resume] enables it again. *)
Theorem auto_pause_latches (s : SafetyManager) :
  (forall now, no_face_timeout s < now - last_face_time s ->
     paused (update_face_detection s false now) = true /\
     last_face_time (update_face_detection s false now) = last_face_time s) /\
  (forall now,
     paused (update_face_detection s true now)
     = (if enabled s then false else paused s) /\
     last_face_time (update_face_detection s true now) = now) /\
  (forall updates, enabled (face_updates s updates) = enabled s) /\
  (forall updates,
     let stopped := face_updates (fst (emergency_stop s)) updates in
     enabled stopped = false /\ paused stopped = true /\
     (forall action_type t1 t2,
        fst (can_perform_action stopped action_type t1 t2) = false) /\
     enabled (resume stopped) = true /\ paused (resume stopped) = false) /\
  (forall now,
     last_face_time (update_face_detection s false now) = last_face_time s /\
     (now - last_face_time s <= no_face_timeout s ->
      paused (update_face_detection s false now) = paused s)) /\
  (forall times,
     let s' := face_updates s (map (fun t => (false, t)) times) in
     last_face_time s' = last_face_time s /\
     (paused s' = true <->
      paused s = true \/
      Exists (fun t => no_face_timeout s < t - last_face_time s) times)) /\
  (forall seen times,
     let s' := face_updates s ((true, seen)
                               :: map (fun t => (false, t)) times) in
     last_face_time s' = seen /\
     (paused s' = true <->
      (enabled s = false /\ paused s = true) \/
      Exists (fun t => no_face_timeout s < t - seen) times)).
Proof.
  assert (Hrun : forall s0 times,
    let s' := face_updates s0 (map (fun t => (false, t)) times) in
    last_face_time s' = last_face_time s0 /\
    (paused s' = true <->
     paused s0 = true \/
     Exists (fun t => no_face_timeout s0 < t - last_face_time s0) times)).
  { intros s0 times. destruct (no_face_updates times s0) as [Hl Hp].
    cbv zeta. split; [exact Hl |]. rewrite Hp, orb_true_iff.
    rewrite existsb_exists, List.Exists_exists.
    split; (intros [H | (t & Hin & Ht)]; [left; exact H | right]);
      exists t; (split; [exact Hin |]); apply ltb_lt; exact Ht. }
  split; [| split; [| split; [| split; [| split; [| split]]]]].
  - intros now Hlate. unfold update_face_detection.
    apply ltb_lt in Hlate. rewrite Hlate. split; reflexivity.
  - intros now. unfold update_face_detection.
    destruct s as [en pa ? ? ? ? ? ? ? ? ?]; simpl.
    destruct pa, en; split; reflexivity.
  - intros updates. apply face_updates_enabled.
  - intros updates stopped.
    assert (Hen : enabled stopped = false).
    { unfold stopped. rewrite face_updates_enabled. reflexivity. }
    assert (Hpa : paused stopped = true).
    { unfold stopped. apply face_updates_stopped; reflexivity. }
    split; [exact Hen |]. split; [exact Hpa |]. split; [| split; reflexivity].
    intros action_type t1 t2. unfold can_perform_action.
    rewrite Hen. reflexivity.
  - intros now. destruct (no_face_update s now) as (Hl & _ & Hp).
    split; [exact Hl |]. intros Hearly. rewrite Hp.
    apply ltb_ge in Hearly. rewrite Hearly. apply orb_false_r.
  - intros times. apply Hrun.
  - intros seen times s'.
    set (s1 := update_face_detection s true seen).
    assert (H1 : last_face_time s1 = seen /\ no_face_timeout s1 = no_face_timeout s
                 /\ paused s1 = (if enabled s then false else paused s)).
    { unfold s1, update_face_detection.
      destruct s as [en pa ? ? ? ? ? ? ? ? ?]; simpl.
      destruct pa, en; repeat split. }
    destruct H1 as (Hl1 & Ht1 & Hp1).
    destruct (Hrun s1 times) as [Hl Hp].
    change (face_updates s ((true, seen) :: map (fun t => (false, t)) times))
      with (face_updates s1 (map (fun t => (false, t)) times)) in s'.
    subst s'. cbv zeta in Hl, Hp. rewrite Hl1, Ht1 in *.
    split; [exact Hl |]. rewrite Hp, Hp1.
    destruct (enabled s), (paused s); split;
      (intros [H | H]; [| right; exact H]);
      first [discriminate H | left; split; reflexivity
            | destruct H as [H1 H2]; discriminate | left; reflexivity].
Qed.

Lemma auto_pause_latches_witness :
  paused (update_face_detection Examples.safety_fresh false (21 # 10)) = true /\
  last_face_time (update_face_detection Examples.safety_fresh false (21 # 10))
    = last_face_time Examples.safety_fresh.
Proof.
  apply (proj1 (auto_pause_latches Examples.safety_fresh) (21 # 10)).
  vm_compute. reflexivity.
Defined.


Lemma remove_old_clicks_head (now : Q) (d : list Q) :
  match remove_old_clicks now d with
  | [] => True
  | t :: _ => now - t <= 1
  end.
Proof.
  induction d as [| t rest IH]; [exact I |].
  simpl. destruct (ltb 1 (now - t)) eqn:E; [exact IH |].
  apply ltb_ge. exact E.
Qed.


End SafetySpec.

(** ** More on the gaze mapper: samples, quality, persistence *)

Module GazeMapperExtra.
Import Numpy GazeMapper Properties Scenarios.
Local Open Scope Q_scope.

Lemma add_sample_points (gm : GazeMapper) (s : sample) :
  length (calibration_points (add_sample gm s))
  = (length (calibration_points gm) + (if has_iris s then 1 else 0))%nat /\
  transform_matrix (add_sample gm s) = transform_matrix gm /\
  is_calibrated (add_sample gm s) = is_calibrated gm.
Proof.
  unfold add_sample, add_calibration_point, estimate_gaze, has_iris.
  destruct (sample_left s), (sample_right s); simpl;
    repeat match goal with
           | |- context [if ?c then _ else _] => destruct c
           end;
    simpl; rewrite ?length_app; simpl; repeat split; lia.
Qed.

Lemma add_samples_points (samples : list sample) :
  forall gm,
    length (calibration_points (add_samples gm samples))
    = (length (calibration_points gm) + length (List.filter has_iris samples))%nat /\
    transform_matrix (add_samples gm samples) = transform_matrix gm /\
    is_calibrated (add_samples gm samples) = is_calibrated gm.
Proof.
  induction samples as [| s rest IH]; intros gm.
  - simpl. repeat split. lia.
  - unfold add_samples in *. simpl.
    destruct (IH (add_sample gm s)) as (Hlen & Ht & Hc).
    destruct (add_sample_points gm s) as (Hlen1 & Ht1 & Hc1).
    rewrite Hlen, Ht, Hc, Hlen1, Ht1, Hc1.
    destruct (has_iris s); simpl; repeat split; lia.
Qed.

(** X1: Samples and calibration.  Each [add_calibration_point] with at least
    one iris stores one point, a call without any iris stores none, and
    neither touches the transform.  Calibrating afterwards succeeds exactly
    when at least 4 points are stored. *)
Theorem samples_then_calibration (gm : GazeMapper) (samples : list sample) :
  let gm' := add_samples gm samples in
  let n := (length (calibration_points gm)
            + length (List.filter has_iris samples))%nat in
  length (calibration_points gm') = n /\
  transform_matrix gm' = transform_matrix gm /\
  fst (fst (compute_calibration Numpy.lstsq gm')) = (4 <=? n)%nat.
Proof.
  intros gm' n.
  destruct (add_samples_points samples gm) as (Hlen & Ht & _).
  fold gm' n in Hlen, Ht.
  split; [exact Hlen |]. split; [exact Ht |].
  unfold compute_calibration. rewrite Hlen.
  destruct (Nat.leb_spec 4 n) as [Hge | Hlt];
    destruct (Nat.ltb_spec n 4) as [Hlt' | Hge']; try lia.
  - unfold Numpy.lstsq, gaze_matrix, screen_matrix.
    rewrite !length_map, Nat.eqb_refl. reflexivity.
  - reflexivity.
Qed.

Lemma clip_range (x lo hi : Q) : lo <= hi -> lo <= clip x lo hi <= hi.
Proof.
  intros Hle. unfold clip. split.
  - apply Q.min_glb; [apply Q.le_max_r | exact Hle].
  - apply Q.le_min_r.
Qed.

(** X2: The clamp of [gaze_to_screen].  Whatever transform is installed,
    a result of [gaze_to_screen] starts with a point of the screen
    rectangle; and with any transform of two rows and three columns there
    is a result for every gaze. *)
Theorem gaze_to_screen_clamped (gm : GazeMapper) (gaze : vec2) :
  (0 <= screen_width gm)%Z -> (0 <= screen_height gm)%Z ->
  (forall out, gaze_to_screen gm gaze = Some out ->
     exists x y rest, out = x :: y :: rest /\ on_screen gm x y) /\
  (forall M, transform_matrix gm = Some M -> two_by_three M ->
     exists x y, gaze_to_screen gm gaze = Some [x; y]).
Proof.
  intros HW HH.
  assert (HWq : 0 <= inject_Z (screen_width gm))
    by (change 0 with (inject_Z 0); rewrite <- Zle_Qle; exact HW).
  assert (HHq : 0 <= inject_Z (screen_height gm))
    by (change 0 with (inject_Z 0); rewrite <- Zle_Qle; exact HH).
  split.
  - intros out Hout. unfold gaze_to_screen in Hout.
    destruct (transform_matrix gm) as [M |]; [| discriminate].
    destruct (matvec M [fst gaze; snd gaze; 1]) as [[| x [| y rest]] |];
      try discriminate.
    injection Hout as <-. do 3 eexists. split; [reflexivity |].
    split; apply clip_range; assumption.
  - intros M HM (a & b & c & d & e & f & ->).
    unfold gaze_to_screen. rewrite HM. simpl. do 2 eexists. reflexivity.
Qed.

Lemma gaze_to_screen_clamped_witness :
  exists x y rest,
    [1920; 0] = x :: y :: rest /\ on_screen Examples.gm_fresh x y.
Proof.
  assert (HW : (0 <= screen_width Examples.gm_fresh)%Z) by (simpl; lia).
  assert (HH : (0 <= screen_height Examples.gm_fresh)%Z) by (simpl; lia).
  apply (proj1 (gaze_to_screen_clamped Examples.gm_fresh (3, -4) HW HH)).
  vm_compute. reflexivity.
Defined.

Lemma count_over_nine (n : nat) :
  (4 <= n)%nat ->
  0 < Qmin (inject_Z (Z.of_nat n) / 9) 1 <= 1 /\
  ((n < 9)%nat -> Qmin (inject_Z (Z.of_nat n) / 9) 1 < 1) /\
  ((9 <= n)%nat -> Qmin (inject_Z (Z.of_nat n) / 9) 1 == 1).
Proof.
  intros Hn.
  assert (Hq : 4 <= inject_Z (Z.of_nat n)).
  { change 4 with (inject_Z 4). rewrite <- Zle_Qle. lia. }
  assert (Hpos : 0 < inject_Z (Z.of_nat n) / 9)
    by (apply Qlt_shift_div_l; Lqa.lra).
  split; [split |]; [| apply Q.le_min_r | split].
  - destruct (Q.min_spec (inject_Z (Z.of_nat n) / 9) 1) as [[Hc E] | [Hc E]];
      rewrite E; clear E; first [assumption | Lqa.lra].
  - intros Hlt.
    assert (inject_Z (Z.of_nat n) < 9).
    { change 9 with (inject_Z 9). rewrite <- Zlt_Qlt. lia. }
    assert (inject_Z (Z.of_nat n) / 9 < 1) by (apply Qlt_shift_div_r; Lqa.lra).
    destruct (Q.min_spec (inject_Z (Z.of_nat n) / 9) 1) as [[Hc E] | [Hc E]];
      rewrite E; clear E; first [assumption | Lqa.lra].
  - intros Hge.
    assert (9 <= inject_Z (Z.of_nat n)).
    { change 9 with (inject_Z 9). rewrite <- Zle_Qle. lia. }
    assert (1 <= inject_Z (Z.of_nat n) / 9) by (apply Qle_shift_div_l; Lqa.lra).
    apply Q.min_r. assumption.
Qed.

(** The quality score.  It is 0 for a mapper that is not calibrated or
    holds fewer than 4 points; otherwise it lies in (0, 1], is below 1 with
    fewer than 9 points and is 1 from 9 points on. *)
Theorem calibration_quality_range (gm : GazeMapper) :
  let n := length (calibration_points gm) in
  let q := get_calibration_quality gm in
  0 <= q <= 1 /\
  (is_calibrated gm = false \/ (n < 4)%nat -> q = 0) /\
  (is_calibrated gm = true -> (4 <= n)%nat ->
     0 < q /\ ((n < 9)%nat -> q < 1) /\ ((9 <= n)%nat -> q == 1)).
Proof.
  intros n q. unfold q, get_calibration_quality. fold n.
  destruct (is_calibrated gm); simpl.
  - destruct (Nat.ltb_spec n 4) as [Hlt | Hge].
    + split; [split; discriminate |].
      split; [reflexivity | intros _ H; lia].
    + destruct (count_over_nine n Hge) as ([Hpos Hle] & Hlow & Hfull).
      split; [split; [apply Qlt_le_weak; exact Hpos | exact Hle] |].
      split; [intros [H | H]; [discriminate | lia] |].
      intros _ _. split; [exact Hpos | split; assumption].
  - split; [split; discriminate |].
    split; [reflexivity | discriminate].
Qed.

Lemma np_array_same (rows : list (list Q)) (M : matrix) :
  np_array rows = Some M -> M = rows.
Proof.
  unfold np_array. destruct (forallb _ rows); [| discriminate].
  intros [= <-]. reflexivity.
Qed.

(** X3: A failed load.  [load_calibration] fails exactly when the file cannot
    be read, was written for another screen size, holds no matrix, holds
    rows of unequal length or lacks the eye dominance.  A failed load
    leaves the mapper as it was, with one exception: from a file that holds
    a well-formed matrix but no eye dominance the matrix has been installed
    by the time the load fails, while the calibrated flag, the dominance
    and the points stay as they were. *)
Theorem load_calibration_failure (gm : GazeMapper) (files : file_store)
    (filepath : string) :
  let r := load_calibration gm files filepath in
  (fst r = false <->
   match files !! filepath with
   | None => True
   | Some data =>
       file_screen_width data <> screen_width gm \/
       file_screen_height data <> screen_height gm \/
       file_transform_matrix data = None \/
       (exists rows, file_transform_matrix data = Some rows /\
                     np_array rows = None) \/
       file_eye_dominance data = None
   end) /\
  (fst r = false ->
   is_calibrated (snd r) = is_calibrated gm /\
   eye_dominance (snd r) = eye_dominance gm /\
   calibration_points (snd r) = calibration_points gm /\
   (snd r = gm \/
    exists data M,
      files !! filepath = Some data /\
      file_screen_width data = screen_width gm /\
      file_screen_height data = screen_height gm /\
      file_transform_matrix data = Some M /\
      np_array M = Some M /\
      file_eye_dominance data = None /\
      transform_matrix (snd r) = Some M)) /\
  (forall data rows,
     files !! filepath = Some data ->
     file_transform_matrix data = Some rows ->
     np_array rows = None ->
     r = (false, gm)).
Proof.
  cbv zeta. unfold load_calibration.
  destruct (files !! filepath) as [data |];
    [| split; [split; auto | split; [auto 6 | discriminate]]].
  destruct (Z.eqb_spec (file_screen_width data) (screen_width gm)) as [Ew | Nw];
    simpl.
  2:{ split; [split; auto | split; [auto 6 | reflexivity]]. }
  destruct (Z.eqb_spec (file_screen_height data) (screen_height gm)) as [Eh | Nh];
    simpl.
  2:{ split; [split; auto | split; [auto 6 | reflexivity]]. }
  destruct (file_transform_matrix data) as [rows |] eqn:EM; simpl.
  2:{ split; [split; auto | split; [auto 6 | reflexivity]]. }
  destruct (np_array rows) as [M |] eqn:EA; simpl.
  2:{ split; [split; [intros _ | reflexivity] | split; [auto 6 | reflexivity]].
      right. right. right. left. exists rows. split; [reflexivity | exact EA]. }
  pose proof (np_array_same rows M EA) as ->.
  destruct (file_eye_dominance data) as [dominance |] eqn:Ed; simpl.
  - split; [split |].
    + discriminate.
    + intros [H | [H | [H | [(rows' & E1 & H) | H]]]];
        [contradiction | contradiction | discriminate | congruence
        | discriminate].
    + split; [discriminate |].
      intros d r E1 E2 H. congruence.
  - split; [split; auto 7 |]. split.
    + intros _. repeat split.
      right. exists data, rows. repeat split; assumption.
    + intros d r E1 E2 H. congruence.
Qed.

(** X4: Save, then load.  After a successful [save_calibration] of one mapper
    whose transform is an array, any mapper of the same screen size that
    loads the file succeeds, takes over the transform and the eye
    dominance, keeps its own calibration points, and from then on maps
    every gaze as the saved mapper does.  A file under another path is not
    disturbed. *)
Theorem save_load_round_trip (gm1 gm2 : GazeMapper) (files : file_store)
    (filepath : string) :
  holds_array gm1 ->
  screen_width gm2 = screen_width gm1 ->
  screen_height gm2 = screen_height gm1 ->
  let saved := save_calibration gm1 files filepath true in
  let loaded := load_calibration gm2 (snd saved) filepath in
  fst saved = true /\ fst loaded = true /\
  transform_matrix (snd loaded) = transform_matrix gm1 /\
  eye_dominance (snd loaded) = eye_dominance gm1 /\
  calibration_points (snd loaded) = calibration_points gm2 /\
  (forall gaze, gaze_to_screen (snd loaded) gaze = gaze_to_screen gm1 gaze) /\
  (forall other, other <> filepath -> snd saved !! other = files !! other).
Proof.
  intros (M & HM & HA) HW HH saved loaded.
  assert (Hsaved : saved = (true, <[filepath := calibration_document gm1]> files))
    by reflexivity.
  assert (Hloaded : loaded
    = (true, mkGazeMapper (screen_width gm2) (screen_height gm2)
               (calibration_points gm2) true (transform_matrix gm1)
               (eye_dominance gm1))).
  { unfold loaded. rewrite Hsaved. unfold load_calibration. cbn [snd].
    rewrite lookup_insert_eq. unfold calibration_document. cbn.
    rewrite HW, HH, !Z.eqb_refl. cbn.
    rewrite HM, HA. reflexivity. }
  rewrite Hloaded, Hsaved. cbn [fst snd]. repeat split.
  - intros gaze. unfold gaze_to_screen. cbn. rewrite HW, HH. reflexivity.
  - intros other Hne. apply lookup_insert_ne. congruence.
Qed.

Lemma transpose_is_array (x : matrix) :
  np_array (transpose x) = Some (transpose x).
Proof.
  unfold np_array.
  assert (H : forallb (fun row => Nat.eqb (length row) (width (transpose x)))
                (transpose x) = true); [| rewrite H; reflexivity].
  unfold transpose. destruct x as [| r x']; [reflexivity |].
  set (M := r :: x'). destruct (length r) as [| n]; [reflexivity |].
  apply forallb_forall. intros row Hrow.
  apply in_map_iff in Hrow. destruct Hrow as (j & <- & _).
  cbn [seq map width]. rewrite !length_map. apply Nat.eqb_refl.
Qed.

(** The transforms that the mapper computes for itself are arrays: after
    construction, after [reset_calibration], after a successful
    [compute_calibration] and after a successful [load_calibration]. *)
Lemma transform_is_array (lstsq : matrix -> matrix -> option matrix)
    (gm : GazeMapper) (files : file_store) (filepath : string) :
  (forall dominance W H, holds_array (init dominance W H)) /\
  holds_array (reset_calibration gm) /\
  (fst (fst (compute_calibration lstsq gm)) = true ->
   holds_array (snd (compute_calibration lstsq gm))) /\
  (fst (load_calibration gm files filepath) = true ->
   holds_array (snd (load_calibration gm files filepath))).
Proof.
  split; [| split; [| split]].
  - intros dominance W H. eexists. split; reflexivity.
  - eexists. split; reflexivity.
  - unfold compute_calibration.
    destruct (length (calibration_points gm) <? 4)%nat; [discriminate |].
    destruct (lstsq _ _) as [x |]; [| discriminate].
    intros _. exists (transpose x). split; [reflexivity |].
    apply transpose_is_array.
  - unfold load_calibration.
    destruct (files !! filepath) as [data |]; [| discriminate].
    destruct (negb _ || negb _); [discriminate |].
    destruct (file_transform_matrix data) as [rows |]; [| discriminate].
    destruct (np_array rows) as [M |] eqn:EA; [| discriminate].
    destruct (file_eye_dominance data); [| discriminate].
    intros _. exists M. split; [reflexivity |].
    pose proof (np_array_same rows M EA) as E. subst M. exact EA.
Qed.

Lemma save_load_round_trip_witness :
  transform_matrix
    (snd (load_calibration Examples.gm_fresh
            (snd (save_calibration
                    (snd (compute_calibration Numpy.lstsq Examples.gm_corners))
                    ∅ "profile.json" true))
            "profile.json"))
  = transform_matrix (snd (compute_calibration Numpy.lstsq Examples.gm_corners)).
Proof.
  refine (proj1 (proj2 (proj2
    (save_load_round_trip
       (snd (compute_calibration Numpy.lstsq Examples.gm_corners))
       Examples.gm_fresh ∅ "profile.json" _ _ _)))).
  - exists [[960; 0; 960]; [0; 540; 540]].
    split; vm_compute; reflexivity.
  - reflexivity.
  - reflexivity.
Defined.

(** What a load does not restore.  The file's point count and the saved
    mapper's calibrated flag play no part: after a successful load the
    mapper is marked calibrated, even when the file came from a mapper that
    never was, and its quality score is computed from its own points, so a
    mapper constructed afresh reports quality 0 after loading. *)
Theorem load_marks_calibrated (gm : GazeMapper) (files : file_store)
    (filepath : string) :
  fst (load_calibration gm files filepath) = true ->
  let gm' := snd (load_calibration gm files filepath) in
  is_calibrated gm' = true /\
  calibration_points gm' = calibration_points gm /\
  ((length (calibration_points gm) < 4)%nat -> get_calibration_quality gm' = 0).
Proof.
  unfold load_calibration.
  destruct (files !! filepath) as [data |]; [| discriminate].
  destruct (negb (file_screen_width data =? screen_width gm)%Z
            || negb (file_screen_height data =? screen_height gm)%Z);
    [discriminate |].
  destruct (file_transform_matrix data) as [rows |]; [| discriminate].
  destruct (np_array rows) as [M |]; [| discriminate].
  destruct (file_eye_dominance data) as [dominance |]; [| discriminate].
  intros _. cbn. repeat split.
  intros Hlt. unfold get_calibration_quality. cbn [is_calibrated calibration_points negb orb].
  destruct (Nat.ltb_spec (length (calibration_points gm)) 4); [reflexivity | lia].
Qed.

Lemma load_marks_calibrated_witness :
  is_calibrated Examples.gm_fresh = false /\
  is_calibrated
    (snd (load_calibration Examples.gm_fresh
            (snd (save_calibration Examples.gm_fresh ∅ "profile.json" true))
            "profile.json")) = true.
Proof.
  split; [reflexivity |].
  refine (proj1 (load_marks_calibrated Examples.gm_fresh
                   (snd (save_calibration Examples.gm_fresh ∅ "profile.json" true))
                   "profile.json" _)).
  vm_compute. reflexivity.
Defined.

(** X5: The dialog's calibration path.  [set_calibration_data] succeeds
    exactly when it is given at least 4 entries and neither of its two
    least-squares solves raises; whenever it fails the mapper is left as it
    was.  The two solves share the matrix with one row [[gx, gy, 1]] per
    entry and take the x and the y coordinates of the screen positions;
    when it succeeds their two solutions are, in this order, the rows of
    the transform, and the mapper is marked calibrated, but no calibration
    point is stored: a mapper calibrated this way alone scores quality 0. *)
Theorem set_calibration_data_outcome
    (lstsq_1d : matrix -> vector -> option vector) (gm : GazeMapper)
    (calibration_data : list calibration_entry) :
  let r := set_calibration_data lstsq_1d gm calibration_data in
  let solution_x :=
    lstsq_1d (design_matrix calibration_data) (screen_xs calibration_data) in
  let solution_y :=
    lstsq_1d (design_matrix calibration_data) (screen_ys calibration_data) in
  ((length calibration_data < 4)%nat -> fst r = false) /\
  (fst r = false -> snd r = gm) /\
  (fst r = true ->
     is_calibrated (snd r) = true /\
     (exists transform_x transform_y,
        transform_matrix (snd r) = Some [transform_x; transform_y]) /\
     calibration_points (snd r) = calibration_points gm /\
     ((length (calibration_points gm) < 4)%nat ->
        get_calibration_quality (snd r) = 0)) /\
  (fst r = true <->
   (4 <= length calibration_data)%nat /\
   solution_x <> None /\ solution_y <> None) /\
  (forall transform_x transform_y,
     (4 <= length calibration_data)%nat ->
     solution_x = Some transform_x -> solution_y = Some transform_y ->
     r = (true,
          mkGazeMapper (screen_width gm) (screen_height gm)
            (calibration_points gm) true
            (Some [transform_x; transform_y]) (eye_dominance gm))).
Proof.
  intros r solution_x solution_y.
  assert (Ea : map (fun g : list Q => (g ++ [1])%list)
                 (map (fun p => [fst (entry_gaze p); snd (entry_gaze p)])
                    calibration_data)
               = design_matrix calibration_data).
  { unfold design_matrix. rewrite map_map. reflexivity. }
  assert (Ex : map (fun s : list Q => nth 0 s 0)
                 (map (fun p => [fst (entry_screen_pos p);
                                 snd (entry_screen_pos p)]) calibration_data)
               = screen_xs calibration_data).
  { unfold screen_xs. rewrite map_map. reflexivity. }
  assert (Ey : map (fun s : list Q => nth 1 s 0)
                 (map (fun p => [fst (entry_screen_pos p);
                                 snd (entry_screen_pos p)]) calibration_data)
               = screen_ys calibration_data).
  { unfold screen_ys. rewrite map_map. reflexivity. }
  subst r. unfold set_calibration_data. rewrite Ea, Ex, Ey.
  fold solution_x solution_y.
  destruct (Nat.ltb_spec (length calibration_data) 4) as [Hlt | Hge].
  - cbn [fst snd]. split; [reflexivity |]. split; [reflexivity |].
    split; [discriminate |].
    split; [split; [discriminate | intros [H _]; lia] |].
    intros tx ty H. lia.
  - split; [lia |].
    destruct solution_x as [tx |].
    2:{ cbn [fst snd]. split; [reflexivity |]. split; [discriminate |].
        split; [split; [discriminate | intros (_ & H & _); congruence] |].
        discriminate. }
    destruct solution_y as [ty |].
    2:{ cbn [fst snd]. split; [reflexivity |]. split; [discriminate |].
        split; [split; [discriminate | intros (_ & _ & H); congruence] |].
        discriminate. }
    cbn [fst snd]. split; [discriminate |]. split.
    + intros _.
      split; [reflexivity |]. split; [exists tx, ty; reflexivity |].
      split; [reflexivity |].
      intros Hfew. unfold get_calibration_quality.
      cbn [is_calibrated calibration_points negb orb].
      destruct (Nat.ltb_spec (length (calibration_points gm)) 4);
        [reflexivity | lia].
    + split; [split; [intros _ | reflexivity] |].
      * split; [exact Hge | split; discriminate].
      * intros tx' ty' _ [= <-] [= <-]. reflexivity.
Qed.

Lemma set_calibration_data_outcome_witness :
  transform_matrix
    (snd (set_calibration_data Numpy.lstsq_1d Examples.gm_fresh corner_entries))
    = Some [[960; 0; 960]; [0; 540; 540]] /\
  get_calibration_quality
    (snd (set_calibration_data Numpy.lstsq_1d Examples.gm_fresh corner_entries))
    = 0.
Proof.
  split; [vm_compute; reflexivity |].
  refine (proj2 (proj2 (proj2 (proj1 (proj2 (proj2
    (set_calibration_data_outcome Numpy.lstsq_1d Examples.gm_fresh corner_entries)))
    _))) _).
  - vm_compute. reflexivity.
  - simpl. lia.
Defined.

(** X6: The dialog's gaze and the tracker's.  For irises seen in a 1280 x 720
    frame the gaze that [set_calibration_data] computes for an entry is the
    gaze that [estimate_gaze] returns under the mean-of-both-eyes policy. *)
Theorem entry_gaze_matches_estimate (gm : GazeMapper) (p : calibration_entry) :
  eye_dominance gm <> "left"%string -> eye_dominance gm <> "right"%string ->
  exists gaze,
    estimate_gaze gm (Some (entry_left_iris p)) (Some (entry_right_iris p))
      1280 720 = Some gaze /\
    fst gaze == fst (entry_gaze p) /\ snd gaze == snd (entry_gaze p).
Proof.
  intros Hl Hr. unfold estimate_gaze.
  apply String.eqb_neq in Hl. apply String.eqb_neq in Hr. rewrite Hl, Hr.
  eexists. split; [reflexivity |].
  unfold mean2, normalize, entry_gaze; cbn [fst snd]. split; field.
Qed.

Lemma entry_gaze_matches_estimate_witness :
  exists gaze,
    estimate_gaze Examples.gm_fresh (Some (320, 180)) (Some (960, 540)) 1280 720
      = Some gaze /\
    fst gaze == 0 /\ snd gaze == 0.
Proof.
  destruct (entry_gaze_matches_estimate Examples.gm_fresh
              (mkCalibrationEntry (0, 0) (320, 180) (960, 540)))
    as (gaze & Hg & Hx & Hy).
  - discriminate.
  - discriminate.
  - exists gaze. split; [exact Hg |].
    split; [rewrite Hx | rewrite Hy]; reflexivity.
Defined.

(** Under a one-eye policy the two disagree: the dialog's gaze is still the
    mean of both irises. *)
Lemma entry_gaze_ignores_dominance :
  let gm := init (Some "left"%string) 1920 1080 in
  let p := mkCalibrationEntry (0, 0) (0, 0) (1280, 720) in
  estimate_gaze gm (Some (entry_left_iris p)) (Some (entry_right_iris p))
    1280 720 = Some (normalize (0, 0) 1280 720) /\
  fst (normalize (0, 0) 1280 720) == -1 /\ fst (entry_gaze p) == 0.
Proof. repeat split. Qed.

End GazeMapperExtra.

(** ** More on cursor smoothing: EMA, Kalman, acceleration, pipeline *)

Module SmootherExtra.
Import Smoother Scenarios.
Local Open Scope R_scope.

(** *** The EMA stage *)

(** The first call after construction or [reset] returns its input as it
    is, and so does every call of a filter with factor 1. *)
Theorem ema_passes_input (f : EMAFilter.EMAFilter) (x : vec2) :
  (EMAFilter.value f = None -> fst (EMAFilter.update f x) = x) /\
  (forall a y, fst (EMAFilter.update (EMAFilter.init a) x) = x /\
     fst (EMAFilter.update (EMAFilter.reset (snd (EMAFilter.update f y))) x) = x) /\
  (EMAFilter.alpha f = 1 -> fst (EMAFilter.update f x) = x).
Proof.
  split; [| split].
  - intros Hnone. unfold EMAFilter.update. rewrite Hnone. reflexivity.
  - intros a y. split; reflexivity.
  - intros H1. unfold EMAFilter.update. rewrite H1.
    destruct (EMAFilter.value f) as [old |]; [| reflexivity].
    destruct x as [x1 x2]. cbn [fst snd]. f_equal; ring.
Qed.

Lemma ema_passes_input_witness :
  fst (EMAFilter.update (EMAFilter.mkEMA 1 (Some (5, 7))) (100, 200)) = (100, 200).
Proof.
  apply (proj2 (proj2 (ema_passes_input (EMAFilter.mkEMA 1 (Some (5, 7)))
                         (100, 200)))).
  reflexivity.
Defined.

(** Each output lies between the previous value and the new input, in
    both coordinates, for a factor between 0 and 1. *)
Theorem ema_between (f : EMAFilter.EMAFilter) (old x : vec2) :
  0 <= EMAFilter.alpha f <= 1 ->
  EMAFilter.value f = Some old ->
  let out := fst (EMAFilter.update f x) in
  Rmin (fst old) (fst x) <= fst out <= Rmax (fst old) (fst x) /\
  Rmin (snd old) (snd x) <= snd out <= Rmax (snd old) (snd x).
Proof.
  intros [Ha0 Ha1] Hold out. subst out. unfold EMAFilter.update.
  rewrite Hold. cbn [fst snd].
  assert (Hmix : forall a o n, 0 <= a <= 1 ->
            Rmin o n <= a * n + (1 - a) * o <= Rmax o n).
  { intros a o n [H0 H1]. unfold Rmin, Rmax.
    destruct (Rle_dec o n) as [Hle | Hgt]; split; nra. }
  split; apply Hmix; split; assumption.
Qed.

Lemma ema_between_witness :
  let out := fst (EMAFilter.update (EMAFilter.mkEMA (3 / 10) (Some (0, 10)))
                    (10, 0)) in
  Rmin 0 10 <= fst out <= Rmax 0 10 /\ Rmin 10 0 <= snd out <= Rmax 10 0.
Proof.
  apply (ema_between (EMAFilter.mkEMA (3 / 10) (Some (0, 10))) (0, 10) (10, 0)).
  - simpl. split; Lra.lra.
  - reflexivity.
Defined.

Lemma ema_feed_alpha (inputs : list vec2) :
  forall f, EMAFilter.alpha (ema_feed f inputs) = EMAFilter.alpha f.
Proof.
  induction inputs as [| x rest IH]; intros f; [reflexivity |].
  unfold ema_feed in *. simpl. rewrite IH. reflexivity.
Qed.

(** X7: A constant input.  Fed the same input [n] times, a filter that held
    [v] holds the input plus [(1 - alpha)^n] times what separated [v] from
    it; with a factor in (0, 1] the gap therefore never grows and a factor
    of 1 closes it at once. *)
Theorem ema_constant_input (a : R) (v x : vec2) (n : nat) :
  EMAFilter.value (ema_feed (EMAFilter.mkEMA a (Some v)) (repeat x n))
  = Some (fst x + (1 - a) ^ n * (fst v - fst x),
          snd x + (1 - a) ^ n * (snd v - snd x)) /\
  (0 < a <= 1 ->
   0 <= (1 - a) ^ S n /\ (1 - a) ^ S n <= (1 - a) ^ n /\ (1 - a) ^ n <= 1).
Proof.
  split.
  - revert v. induction n as [| n IH]; intros v.
    + simpl. destruct v as [v1 v2]. cbn [fst snd]. f_equal. f_equal; ring.
    + change (ema_feed (EMAFilter.mkEMA a (Some v)) (repeat x (S n)))
        with (ema_feed
                (EMAFilter.mkEMA a
                   (Some (a * fst x + (1 - a) * fst v,
                          a * snd x + (1 - a) * snd v)))
                (repeat x n)).
      rewrite IH. cbn [fst snd]. f_equal. f_equal; simpl pow; ring.
  - intros [Ha0 Ha1].
    assert (Hr : 0 <= 1 - a < 1) by Lra.lra.
    assert (Hpow : 0 <= (1 - a) ^ n <= 1).
    { split; [apply pow_le; Lra.lra |].
      assert (Hn : (1 - a) ^ n <= 1 ^ n) by (apply pow_incr; Lra.lra).
      rewrite pow1 in Hn. exact Hn. }
    destruct Hpow as [Hp0 Hp1]. simpl pow.
    generalize dependent ((1 - a) ^ n). intros p Hp0 Hp1.
    split; [apply Rmult_le_pos; Lra.lra |]. split; [| exact Hp1].
    rewrite <- (Rmult_1_l p) at 2.
    apply Rmult_le_compat_r; Lra.lra.
Qed.

(** *** The velocity stage *)

Lemma clip_within (x lo hi : R) : lo <= hi -> lo <= clip x lo hi <= hi.
Proof.
  intros Hle. unfold clip, Rmin, Rmax.
  destruct (Rle_dec x lo); destruct (Rle_dec _ hi); Lra.lra.
Qed.

Lemma clip_same (x lo hi : R) : lo <= x <= hi -> clip x lo hi = x.
Proof.
  intros [H1 H2]. unfold clip, Rmin, Rmax.
  destruct (Rle_dec x lo); destruct (Rle_dec _ hi); Lra.lra.
Qed.

Lemma float_pow_nonneg (x y : R) : 0 <= float_pow x y.
Proof.
  unfold float_pow.
  destruct (Req_dec_T x 0); [destruct (Req_dec_T y 0); Lra.lra |].
  unfold Rpower. left. apply exp_pos.
Qed.

Lemma screen_centre_within (screen_size : Z * Z) :
  (0 <= fst screen_size)%Z -> (0 <= snd screen_size)%Z ->
  within_screen (IZR (fst screen_size) / 2, IZR (snd screen_size) / 2)
    screen_size.
Proof.
  intros HW HH. apply IZR_le in HW. apply IZR_le in HH.
  unfold within_screen; cbn [fst snd]. split; split; Lra.lra.
Qed.

(** X8: The stage never leaves the screen.  When the screen size is
    non-negative and the anchor is not yet chosen, or was chosen on this
    screen, the output of [apply] is a point of the screen rectangle,
    inside and outside the dead zone. *)
Theorem apply_within_screen (s : VelocityBasedSmoother) (position : vec2)
    (screen_size : Z * Z) :
  (0 <= fst screen_size)%Z -> (0 <= snd screen_size)%Z ->
  (forall c, center s = Some c -> within_screen c screen_size) ->
  within_screen (fst (apply s position screen_size)) screen_size.
Proof.
  intros HW HH Hc.
  assert (Hanchor : within_screen (anchor s screen_size) screen_size).
  { unfold anchor. destruct (center s) as [c |].
    - apply Hc. reflexivity.
    - apply screen_centre_within; assumption. }
  apply IZR_le in HW. apply IZR_le in HH.
  unfold apply.
  match goal with
  | |- context [Rlt_dec ?a ?b] => destruct (Rlt_dec a b)
  end; cbn [fst snd].
  - exact Hanchor.
  - unfold within_screen; cbn [fst snd]. split; apply clip_within; assumption.
Qed.

Lemma apply_within_screen_witness :
  within_screen (fst (apply (init None None) (5000, -3) (1920%Z, 1080%Z)))
    (1920%Z, 1080%Z).
Proof.
  apply apply_within_screen.
  - simpl. lia.
  - simpl. lia.
  - intros c Hc. discriminate Hc.
Defined.

Lemma apply_center (s : VelocityBasedSmoother) (position : vec2)
    (screen_size : Z * Z) :
  center (snd (apply s position screen_size)) = Some (anchor s screen_size) /\
  dead_zone (snd (apply s position screen_size)) = dead_zone s /\
  acceleration (snd (apply s position screen_size)) = acceleration s.
Proof.
  unfold apply.
  match goal with
  | |- context [Rlt_dec ?a ?b] => destruct (Rlt_dec a b)
  end; repeat split.
Qed.

Lemma apply_history_length (s : VelocityBasedSmoother) (position : vec2)
    (screen_size : Z * Z) :
  (length (velocity_history s) <= 5)%nat ->
  (length (velocity_history (snd (apply s position screen_size))) <= 5)%nat.
Proof.
  intros Hlen. unfold apply.
  match goal with
  | |- context [Rlt_dec ?a ?b] => destruct (Rlt_dec a b)
  end; cbn [snd velocity_history]; [exact Hlen |].
  unfold Collections.deque_append. rewrite length_skipn, length_app. simpl. lia.
Qed.

(** X9: The anchor is chosen once.  The first call fixes the anchor at the
    centre of the screen it is given; every later call, whatever position
    and whatever screen size it is given, works with that same anchor.
    The history never holds more than 5 positions. *)
Theorem anchor_is_chosen_once (s : VelocityBasedSmoother)
    (first : vec2 * (Z * Z)) (later : list (vec2 * (Z * Z))) :
  center s = None ->
  (length (velocity_history s) <= 5)%nat ->
  let s' := velocity_feed s (first :: later) in
  center s' = Some (IZR (fst (snd first)) / 2, IZR (snd (snd first)) / 2) /\
  (forall screen_size,
     anchor s' screen_size
     = (IZR (fst (snd first)) / 2, IZR (snd (snd first)) / 2)) /\
  (length (velocity_history s') <= 5)%nat.
Proof.
  intros Hnone Hlen s'.
  assert (Hgen : forall inputs g c,
    center g = Some c -> (length (velocity_history g) <= 5)%nat ->
    center (velocity_feed g inputs) = Some c /\
    (length (velocity_history (velocity_feed g inputs)) <= 5)%nat).
  { induction inputs as [| i rest IH]; intros g c Hg Hl.
    - split; assumption.
    - unfold velocity_feed in *. simpl. apply IH.
      + destruct (apply_center g (fst i) (snd i)) as [-> _].
        unfold anchor. rewrite Hg. reflexivity.
      + apply apply_history_length. exact Hl. }
  destruct (Hgen later (snd (apply s (fst first) (snd first)))
              (IZR (fst (snd first)) / 2, IZR (snd (snd first)) / 2))
    as [Hc Hl].
  - destruct (apply_center s (fst first) (snd first)) as [-> _].
    unfold anchor. rewrite Hnone. reflexivity.
  - apply apply_history_length. exact Hlen.
  - split; [exact Hc |]. split; [| exact Hl].
    intros screen_size. unfold anchor. fold s'.
    change (velocity_feed s (first :: later))
      with (velocity_feed (snd (apply s (fst first) (snd first))) later) in s'.
    subst s'. rewrite Hc. reflexivity.
Qed.

Lemma anchor_is_chosen_once_witness :
  center (velocity_feed (init None None)
            [((10, 10), (1920%Z, 1080%Z)); ((700, 300), (800%Z, 600%Z))])
  = Some (1920 / 2, 1080 / 2).
Proof.
  refine (proj1 (anchor_is_chosen_once (init None None)
                   ((10, 10), (1920%Z, 1080%Z))
                   [((700, 300), (800%Z, 600%Z))] _ _)).
  - reflexivity.
  - simpl. lia.
Defined.

(** X10: Acceleration pushes outwards.  At or beyond the dead-zone radius the
    output is the anchor plus the displacement of the input stretched by a
    factor of at least 1, then clamped to the screen: the stage never pulls
    the cursor towards the anchor. *)
Theorem apply_stretches (s : VelocityBasedSmoother) (position : vec2)
    (screen_size : Z * Z) :
  let c := anchor s screen_size in
  dead_zone s <= norm (fst position - fst c, snd position - snd c) ->
  exists factor, 1 <= factor /\
    fst (apply s position screen_size)
    = (clip (fst c + (fst position - fst c) * factor) 0
         (IZR (fst screen_size)),
       clip (snd c + (snd position - snd c) * factor) 0
         (IZR (snd screen_size))).
Proof.
  intros c Hfar. unfold apply. fold c.
  destruct (Rlt_dec (norm (fst position - fst c, snd position - snd c))
                    (dead_zone s)) as [Hclose | _]; [Lra.lra |].
  eexists. split; [| cbn [fst snd]; reflexivity].
  match goal with
  | |- 1 <= 1 + float_pow ?x ?y => pose proof (float_pow_nonneg x y)
  end. Lra.lra.
Qed.

Lemma apply_stretches_witness :
  exists factor, 1 <= factor /\
    fst (apply (init (Some 0) None) (960, 740) (1920%Z, 1080%Z))
    = (clip (1920 / 2 + (960 - 1920 / 2) * factor) 0 1920,
       clip (1080 / 2 + (740 - 1080 / 2) * factor) 0 1080).
Proof.
  apply (apply_stretches (init (Some 0) None) (960, 740) (1920%Z, 1080%Z)).
  simpl. apply sqrt_pos.
Defined.

(** *** The Kalman stage *)

(** The first measurement.  A filter that is not initialised, as after
    construction and after [reset], returns its first measurement
    unfiltered, takes it as its position with velocity zero, and leaves
    the covariance at 1000 on the diagonal. *)
Theorem kalman_first_measurement (k : KalmanFilter.KalmanFilter) (m : vec2) :
  (KalmanFilter.initialized k = false ->
   exists k', KalmanFilter.update k m = Some (m, k') /\
     KalmanFilter.initialized k' = true /\ KalmanFilter.P k' = KalmanFilter.P k /\
     KalmanFilter.position (KalmanFilter.state k') = m) /\
  (forall k0, (exists q r, k0 = KalmanFilter.init q r) \/ k0 = KalmanFilter.reset k ->
     exists k', KalmanFilter.update k0 m = Some (m, k') /\
       KalmanFilter.state k' = [fst m; snd m; 0; 0] /\
       KalmanFilter.P k' = KalmanFilter.scaled_eye 4 1000).
Proof.
  split.
  - intros Hinit. unfold KalmanFilter.update. rewrite Hinit. cbn [negb].
    eexists. split; [reflexivity |]. cbn. destruct m; repeat split.
  - intros k0 [(q & r & ->) | ->]; eexists; (split; [reflexivity |]);
      split; reflexivity.
Qed.

Lemma kalman_first_measurement_witness :
  exists k', KalmanFilter.update (KalmanFilter.init None None) (12, 34)
             = Some ((12, 34), k') /\
    KalmanFilter.initialized k' = true /\
    KalmanFilter.P k' = KalmanFilter.P (KalmanFilter.init None None) /\
    KalmanFilter.position (KalmanFilter.state k') = (12, 34).
Proof.
  apply (proj1 (kalman_first_measurement (KalmanFilter.init None None) (12, 34))).
  reflexivity.
Defined.

Lemma transition_step (x y vx vy : R) :
  KalmanFilter.matvec KalmanFilter.transition [x; y; vx; vy]
  = [x + vx; y + vy; vx; vy].
Proof.
  unfold KalmanFilter.matvec, KalmanFilter.transition, KalmanFilter.dot.
  cbn. repeat (f_equal; try ring).
Qed.

Lemma measure_position (p q r s : R) :
  KalmanFilter.matvec KalmanFilter.measurement_matrix [p; q; r; s] = [p; q].
Proof.
  unfold KalmanFilter.matvec, KalmanFilter.measurement_matrix, KalmanFilter.dot.
  cbn. repeat (f_equal; try ring).
Qed.

Lemma gain_times_zero (A : KalmanFilter.matrix) (e f g h : R) :
  KalmanFilter.matvec (KalmanFilter.matmul A [[e; f]; [g; h]]) [0; 0]
  = map (fun _ => 0) A.
Proof.
  unfold KalmanFilter.matvec, KalmanFilter.matmul. rewrite map_map.
  apply map_ext. intros row. unfold KalmanFilter.dot. cbn. ring.
Qed.

Lemma inv_shape (S S_inv : KalmanFilter.matrix) :
  KalmanFilter.inv S = Some S_inv -> exists e f g h, S_inv = [[e; f]; [g; h]].
Proof.
  unfold KalmanFilter.inv.
  destruct S as [| [| a [| b [|]]] [| [| c [| d [|]]] [|]]]; try discriminate.
  destruct (Req_dec_T (a * d - b * c) 0); [discriminate |].
  intros H. injection H as <-. do 4 eexists. reflexivity.
Qed.

(** X11: A measurement that confirms the prediction.  For an initialised filter
    with state [x, y, vx, vy], the prediction moves the position by the
    velocity.  When the measurement is exactly that predicted position and
    the innovation covariance can be inverted, [update] returns the
    predicted position and keeps the predicted state: position moved by
    the velocity, velocity as before. *)
Theorem kalman_confirmed_prediction (k : KalmanFilter.KalmanFilter)
    (x y vx vy : R) :
  constant_velocity_model k ->
  KalmanFilter.initialized k = true ->
  KalmanFilter.state k = [x; y; vx; vy] ->
  KalmanFilter.inv (innovation_covariance k) <> None ->
  fst (KalmanFilter.predict k) = (x + vx, y + vy) /\
  exists k', KalmanFilter.update k (x + vx, y + vy)
             = Some ((x + vx, y + vy), k') /\
    KalmanFilter.state k' = [x + vx; y + vy; vx; vy] /\
    constant_velocity_model k'.
Proof.
  intros (HF & HH & HQ) Hinit Hstate Hinv.
  assert (Hpred : KalmanFilter.state (snd (KalmanFilter.predict k))
                  = [x + vx; y + vy; vx; vy]).
  { unfold KalmanFilter.predict. cbn [snd KalmanFilter.with_estimate KalmanFilter.state].
    rewrite HF, Hstate. apply transition_step. }
  split.
  { unfold KalmanFilter.predict. cbn [fst]. rewrite HF, Hstate, transition_step.
    reflexivity. }
  unfold KalmanFilter.update. rewrite Hinit. cbn [negb].
  fold (innovation_covariance k).
  destruct (KalmanFilter.inv (innovation_covariance k)) as [S_inv |] eqn:ES;
    [| contradiction].
  destruct (inv_shape _ _ ES) as (e & f & g & h & ->).
  rewrite Hpred.
  change (KalmanFilter.H (snd (KalmanFilter.predict k))) with (KalmanFilter.H k).
  rewrite HH, measure_position. cbn [fst snd].
  replace (KalmanFilter.vsub [x + vx; y + vy] [x + vx; y + vy]) with [0; 0]
    by (unfold KalmanFilter.vsub; cbn; repeat (f_equal; try ring)).
  rewrite gain_times_zero.
  set (A := KalmanFilter.matmul (KalmanFilter.P (snd (KalmanFilter.predict k)))
              (KalmanFilter.transpose KalmanFilter.measurement_matrix)).
  assert (HA : length A = 4%nat).
  { unfold A, KalmanFilter.matmul, KalmanFilter.predict.
    cbn [snd KalmanFilter.with_estimate KalmanFilter.P].
    unfold KalmanFilter.madd. rewrite !length_map, length_combine.
    unfold KalmanFilter.matmul. rewrite !length_map, HF, HQ. reflexivity. }
  destruct A as [| r1 [| r2 [| r3 [| r4 [|]]]]]; try discriminate HA.
  cbn [map].
  assert (Hsum : KalmanFilter.vadd [x + vx; y + vy; vx; vy] [0; 0; 0; 0]
                 = [x + vx; y + vy; vx; vy])
    by (unfold KalmanFilter.vadd; cbn; repeat (f_equal; try ring)).
  rewrite Hsum. eexists. split; [reflexivity |].
  split; [reflexivity |].
  unfold constant_velocity_model. cbn. repeat split; assumption.
Qed.

Lemma kalman_at_rest_reached :
  KalmanFilter.update (KalmanFilter.init None None) (12, 34)
  = Some ((12, 34), kalman_at_rest).
Proof. reflexivity. Qed.

Lemma kalman_confirmed_prediction_witness :
  exists k', KalmanFilter.update kalman_at_rest (12 + 0, 34 + 0)
             = Some ((12 + 0, 34 + 0), k') /\
    KalmanFilter.state k' = [12 + 0; 34 + 0; 0; 0] /\
    constant_velocity_model k'.
Proof.
  refine (proj2 (kalman_confirmed_prediction kalman_at_rest 12 34 0 0 _ _ _ _)).
  - repeat split.
  - reflexivity.
  - reflexivity.
  - unfold innovation_covariance, KalmanFilter.inv. cbn.
    match goal with
    | |- context [Req_dec_T ?d 0] => destruct (Req_dec_T d 0) as [E | N]
    end; [exfalso; Lra.lra | discriminate].
Defined.

(** *** The pipeline *)

(** The first frame.  On a pipeline just constructed or just reset, with
    or without the Kalman stage, the EMA and Kalman stages pass the raw
    position through: the output is what the velocity stage makes of the
    raw position, clamped to the screen, and it is recorded as the last
    position. *)
Theorem smooth_first_frame (c : CursorSmoother.CursorSmoother)
    (raw_position : vec2) (screen_size : Z * Z) :
  (exists sf kf dz acc, c = CursorSmoother.init sf kf dz acc) \/
  (exists c0, c = CursorSmoother.reset c0) ->
  let out := fst (apply (CursorSmoother.velocity_smoother c) raw_position
                    screen_size) in
  let position := (clip (fst out) 0 (IZR (fst screen_size)),
                   clip (snd out) 0 (IZR (snd screen_size))) in
  exists c', CursorSmoother.smooth c raw_position screen_size
             = Some (position, c') /\
    CursorSmoother.last_position c' = Some position /\
    EMAFilter.value (CursorSmoother.ema c') = Some raw_position.
Proof.
  intros Hfresh out position.
  assert (Hema : EMAFilter.value (CursorSmoother.ema c) = None).
  { destruct Hfresh as [(sf & kf & dz & acc & ->) | (c0 & ->)]; reflexivity. }
  assert (Hkal : CursorSmoother.use_kalman c = true ->
                 KalmanFilter.initialized (CursorSmoother.kalman c) = false).
  { destruct Hfresh as [(sf & kf & dz & acc & ->) | (c0 & ->)].
    - reflexivity.
    - cbn. intros ->. reflexivity. }
  unfold CursorSmoother.smooth, EMAFilter.update. rewrite Hema.
  destruct (CursorSmoother.use_kalman c) eqn:Euse.
  - unfold KalmanFilter.update. rewrite (Hkal eq_refl). cbn [negb].
    fold out. destruct (apply (CursorSmoother.velocity_smoother c) raw_position
                          screen_size) as [p3 v'] eqn:Eapp.
    eexists. split; [reflexivity |]. split; reflexivity.
  - fold out. destruct (apply (CursorSmoother.velocity_smoother c) raw_position
                          screen_size) as [p3 v'] eqn:Eapp.
    eexists. split; [reflexivity |]. split; reflexivity.
Qed.

Lemma smooth_first_frame_witness :
  exists c',
    CursorSmoother.smooth (CursorSmoother.init None None None None) (963, 544)
      (1920%Z, 1080%Z)
    = Some ((clip (1920 / 2) 0 1920, clip (1080 / 2) 0 1080), c').
Proof.
  destruct (smooth_first_frame (CursorSmoother.init None None None None)
              (963, 544) (1920%Z, 1080%Z)) as (c' & Hs & _).
  - left. exists None, None, None, None. reflexivity.
  - exists c'. rewrite Hs. f_equal. f_equal.
    assert (Hout : fst (apply (init None None) (963, 544) (1920%Z, 1080%Z))
                   = (1920 / 2, 1080 / 2)).
    { unfold apply, anchor, norm. cbn [center init fst snd dead_zone].
      match goal with
      | |- context [Rlt_dec ?a ?b] => destruct (Rlt_dec a b) as [_ | Hfar]
      end; [reflexivity |].
      exfalso. apply Hfar.
      replace ((963 - 1920 / 2) * (963 - 1920 / 2)
               + (544 - 1080 / 2) * (544 - 1080 / 2)) with (5 * 5) by Lra.lra.
      rewrite sqrt_square by Lra.lra. Lra.lra. }
    change (CursorSmoother.velocity_smoother
              (CursorSmoother.init None None None None)) with (init None None).
    rewrite Hout. reflexivity.
Defined.

(** X12: The final clamp.  Whatever the state of its three stages, a position
    that [smooth] returns lies in the screen rectangle and is recorded as
    the last position; and without the Kalman stage [smooth] always
    returns one. *)
Theorem smooth_within_screen (c : CursorSmoother.CursorSmoother)
    (raw_position : vec2) (screen_size : Z * Z) :
  (0 <= fst screen_size)%Z -> (0 <= snd screen_size)%Z ->
  (forall position c',
     CursorSmoother.smooth c raw_position screen_size = Some (position, c') ->
     within_screen position screen_size /\
     CursorSmoother.last_position c' = Some position) /\
  (CursorSmoother.use_kalman c = false ->
   exists r, CursorSmoother.smooth c raw_position screen_size = Some r).
Proof.
  intros HW HH. apply IZR_le in HW. apply IZR_le in HH.
  unfold CursorSmoother.smooth.
  destruct (EMAFilter.update (CursorSmoother.ema c) raw_position) as [p1 ema'].
  split.
  - intros position c' Hs.
    destruct (if CursorSmoother.use_kalman c
              then KalmanFilter.update (CursorSmoother.kalman c) p1
              else Some (p1, CursorSmoother.kalman c)) as [[p2 k'] |];
      [| discriminate].
    destruct (apply (CursorSmoother.velocity_smoother c) p2 screen_size)
      as [p3 v'].
    injection Hs as <- <-. split; [| reflexivity].
    unfold within_screen; cbn [fst snd]. split; apply clip_within; assumption.
  - intros ->.
    destruct (apply (CursorSmoother.velocity_smoother c) p1 screen_size)
      as [p3 v'].
    eexists. reflexivity.
Qed.

Lemma smooth_within_screen_witness :
  exists r,
    CursorSmoother.smooth (CursorSmoother.init None (Some false) None None)
      (5000, -20) (1920%Z, 1080%Z) = Some r.
Proof.
  refine (proj2 (smooth_within_screen
                   (CursorSmoother.init None (Some false) None None)
                   (5000, -20) (1920%Z, 1080%Z) _ _) _).
  - simpl. lia.
  - simpl. lia.
  - reflexivity.
Defined.

End SmootherExtra.

(** ** More on the expression engine: baseline, events, actions *)

Module ExpressionExtra.
Import Numpy NumpyFacts Tracker ExpressionEngine Properties Scenarios.
Local Open Scope Q_scope.

(** *** What a frame leaves alone *)

Lemma detect_blink_keeps (e : ExpressionEngine) (d : EyeData) (now : Q) :
  let e' := snd (_detect_blink e d now) in
  baseline_initialized e' = baseline_initialized e /\
  baseline_samples e' = baseline_samples e /\
  baseline_left_ear e' = baseline_left_ear e /\
  baseline_right_ear e' = baseline_right_ear e /\
  current_state e' = current_state e /\
  last_blink_time e' = last_blink_time e.
Proof.
  unfold _detect_blink.
  repeat match goal with
         | |- context [if ?c then _ else _] => destruct c
         end;
    destruct e; cbn; repeat split.
Qed.

(** Once established the baseline stays as it is under [detect_expression]. *)
Lemma detect_expression_keeps_baseline (e : ExpressionEngine) (d : EyeData)
    (now : Q) :
  baseline_initialized e = true ->
  let e' := snd (detect_expression e d now) in
  baseline_initialized e' = true /\
  baseline_left_ear e' = baseline_left_ear e /\
  baseline_right_ear e' = baseline_right_ear e.
Proof.
  intros Hinit. unfold detect_expression. rewrite Hinit. cbn [negb].
  destruct (negb (face_detected d)); [cbn; repeat split; assumption |].
  destruct (ltb (now - last_blink_time e) (blink_cooldown e));
    [cbn; repeat split; assumption |].
  destruct (detect_blink_keeps e d now) as (H1 & _ & H3 & H4 & _).
  destruct (_detect_blink e d now) as [x e1]. cbn [snd] in *.
  destruct (is_none x); cbn; rewrite ?H1, ?H3, ?H4; repeat split; assumption.
Qed.

Lemma run_keeps_baseline (frames : list (Q * EyeData)) :
  forall e, baseline_initialized e = true ->
    baseline_initialized (snd (run e frames)) = true /\
    baseline_left_ear (snd (run e frames)) = baseline_left_ear e /\
    baseline_right_ear (snd (run e frames)) = baseline_right_ear e.
Proof.
  induction frames as [| [t d] rest IH]; intros e Hinit.
  - repeat split. exact Hinit.
  - cbn [run].
    destruct (detect_expression_keeps_baseline e d t Hinit) as (H1 & H2 & H3).
    destruct (IH (snd (detect_expression e d t)) H1) as (I1 & I2 & I3).
    destruct (run (snd (detect_expression e d t)) rest) as [cs e'].
    cbn [snd] in *. rewrite I1, I2, I3, H2, H3. repeat split.
Qed.

(** *** Warming up *)

Lemma warm_up_frame (e : ExpressionEngine) (t : Q) (d : EyeData) :
  baseline_initialized e = false ->
  classify_frame e d t = None /\
  let e' := snd (detect_expression e d t) in
  (face_detected d = false ->
     baseline_initialized e' = false /\
     baseline_samples e' = baseline_samples e) /\
  (face_detected d = true -> (length (baseline_samples e) < 30)%nat ->
     baseline_initialized e' = false /\
     baseline_samples e' = (baseline_samples e ++ [ears (t, d)])%list) /\
  (face_detected d = true -> (30 <= length (baseline_samples e))%nat ->
     baseline_initialized e' = true /\
     baseline_left_ear e' = mean (map fst (baseline_samples e)) /\
     baseline_right_ear e' = mean (map snd (baseline_samples e))).
Proof.
  intros Hinit. unfold classify_frame, detect_expression, update_baseline.
  rewrite Hinit. cbn [negb].
  destruct (face_detected d); cbn [negb].
  - split; [reflexivity |]. split; [discriminate |].
    destruct (Nat.ltb_spec (length (baseline_samples e)) 30) as [Hlt | Hge];
      cbn [snd]; (split; intros _ Hn; [| ]); try lia; cbn; repeat split.
  - split; [reflexivity |]. cbn.
    split; [intros _; split; [exact Hinit | reflexivity] |].
    split; discriminate.
Qed.

Lemma run_cons (e : ExpressionEngine) (t : Q) (d : EyeData)
    (rest : list (Q * EyeData)) :
  run e ((t, d) :: rest)
  = (classify_frame e d t :: fst (run (snd (detect_expression e d t)) rest),
     snd (run (snd (detect_expression e d t)) rest)).
Proof.
  cbn [run]. destruct (run (snd (detect_expression e d t)) rest). reflexivity.
Qed.

Lemma warm_up_run (frames : list (Q * EyeData)) :
  forall e,
    baseline_initialized e = false ->
    (length (baseline_samples e) <= 30)%nat ->
    let seen := (baseline_samples e ++ map ears (with_face frames))%list in
    let e' := snd (run e frames) in
    baseline_initialized e' = (31 <=? length seen)%nat /\
    ((31 <= length seen)%nat ->
       baseline_left_ear e' = mean (map fst (firstn 30 seen)) /\
       baseline_right_ear e' = mean (map snd (firstn 30 seen))) /\
    ((length seen <= 31)%nat -> Forall (fun c => c = None) (fst (run e frames))).
Proof.
  induction frames as [| [t d] rest IH]; intros e Hinit Hlen seen e'.
  - subst seen e'. cbn [with_face List.filter map run fst snd].
    rewrite app_nil_r.
    destruct (Nat.leb_spec 31 (length (baseline_samples e))) as [H | H]; [lia |].
    split; [exact Hinit |]. split; [lia | constructor].
  - subst seen e'. rewrite run_cons. cbn [fst snd].
    destruct (warm_up_frame e t d Hinit) as (Hc & Hno & Hadd & Hfull).
    unfold with_face. cbn [List.filter snd].
    destruct (face_detected d) eqn:Ef.
    + destruct (Nat.lt_ge_cases (length (baseline_samples e)) 30) as [Hlt | Hge].
      * destruct (Hadd eq_refl Hlt) as [Hi Hs].
        specialize (IH (snd (detect_expression e d t)) Hi).
        rewrite Hs in IH. rewrite length_app in IH. cbn [length] in IH.
        specialize (IH ltac:(lia)). cbn zeta in IH.
        cbn [map]. fold (with_face rest).
        replace ((baseline_samples e ++ [ears (t, d)]) ++ map ears (with_face rest))%list
          with (baseline_samples e ++ ears (t, d) :: map ears (with_face rest))%list
          in IH by (rewrite <- app_assoc; reflexivity).
        destruct IH as (I1 & I2 & I3).
        split; [exact I1 |]. split; [exact I2 |].
        intros H. constructor; [exact Hc | apply I3; exact H].
      * destruct (Hfull eq_refl Hge) as (Hi & Hl & Hr).
        destruct (run_keeps_baseline rest _ Hi) as (R1 & R2 & R3).
        cbn [map]. fold (with_face rest).
        assert (H30 : length (baseline_samples e) = 30%nat) by lia.
        assert (Hfirst : firstn 30
                   (baseline_samples e ++ ears (t, d) :: map ears (with_face rest))
                 = baseline_samples e).
        { rewrite firstn_app, H30, Nat.sub_diag. cbn [firstn].
          rewrite app_nil_r. rewrite <- H30. apply firstn_all. }
        rewrite Hfirst, R1, R2, R3, Hl, Hr.
        rewrite length_app. cbn [length].
        destruct (Nat.leb_spec 31 (length (baseline_samples e)
                                   + S (length (map ears (with_face rest)))))
          as [H | H]; [| lia].
        split; [reflexivity |]. split; [intros _; split; reflexivity |].
        intros Hle.
        assert (Hrest : with_face rest = []).
        { destruct (with_face rest); [reflexivity | cbn in Hle; lia]. }
        constructor; [exact Hc |].
        (* the frames that are left show no face *)
        clear - Hrest Hi. revert Hrest. generalize (snd (detect_expression e d t)).
        induction rest as [| [t' d'] rest' IHr]; intros g Hrest.
        -- constructor.
        -- rewrite run_cons. cbn [fst].
           unfold with_face in Hrest. cbn [List.filter snd] in Hrest.
           destruct (face_detected d') eqn:Ef'; [discriminate |].
           constructor.
           ++ unfold classify_frame. rewrite Ef'. reflexivity.
           ++ apply IHr. exact Hrest.
    + destruct (Hno eq_refl) as [Hi Hs].
      specialize (IH (snd (detect_expression e d t)) Hi).
      rewrite Hs in IH. specialize (IH Hlen). cbn zeta in IH.
      fold (with_face rest).
      destruct IH as (I1 & I2 & I3).
      split; [exact I1 |]. split; [exact I2 |].
      intros H. constructor; [exact Hc | apply I3; exact H].
Qed.

(** X13: The warm-up.  An engine that is constructed or reset establishes its
    baseline on the 31st observation that shows a face, not before and
    whatever observations without a face come in between; up to and
    including that observation nothing is classified. *)
Theorem baseline_needs_31_faces (e : ExpressionEngine)
    (frames : list (Q * EyeData)) :
  awaiting_baseline e ->
  baseline_initialized (snd (run e frames))
  = (31 <=? length (with_face frames))%nat /\
  ((length (with_face frames) <= 31)%nat ->
   Forall (fun c => c = None) (fst (run e frames))).
Proof.
  intros [Hinit Hempty].
  destruct (warm_up_run frames e Hinit) as (H1 & _ & H3).
  - rewrite Hempty. simpl. lia.
  - rewrite Hempty in *. cbn [app] in *. rewrite length_map in *.
    split; assumption.
Qed.

Lemma baseline_needs_31_faces_witness :
  baseline_initialized Examples.engine_ready = true.
Proof.
  refine (eq_trans
    (proj1 (baseline_needs_31_faces (init None None None)
       (map (fun i => Examples.frame (inject_Z (Z.of_nat i))
                        Examples.eye_open Examples.eye_open) (seq 1 31)) _)) _).
  - split; reflexivity.
  - reflexivity.
Defined.

(** X14: The baseline.  Once established, the baseline of each eye is the mean of
    that eye's ratio over the first 30 observations with a face; the 31st
    and all later observations have no part in it. *)
Theorem baseline_is_first_thirty (e : ExpressionEngine)
    (frames : list (Q * EyeData)) :
  awaiting_baseline e ->
  (31 <= length (with_face frames))%nat ->
  baseline_left_ear (snd (run e frames))
  = mean (map fst (firstn 30 (map ears (with_face frames)))) /\
  baseline_right_ear (snd (run e frames))
  = mean (map snd (firstn 30 (map ears (with_face frames)))).
Proof.
  intros [Hinit Hempty] Hlen.
  destruct (warm_up_run frames e Hinit) as (_ & H2 & _).
  - rewrite Hempty. simpl. lia.
  - rewrite Hempty in *. cbn [app] in *. rewrite length_map in *.
    apply H2. exact Hlen.
Qed.

Lemma baseline_is_first_thirty_witness :
  baseline_left_ear Examples.engine_ready
  = mean (repeat Examples.eye_open 30).
Proof.
  refine (eq_trans
    (proj1 (baseline_is_first_thirty (init None None None)
       (map (fun i => Examples.frame (inject_Z (Z.of_nat i))
                        Examples.eye_open Examples.eye_open) (seq 1 31)) _ _)) _).
  - split; reflexivity.
  - simpl. lia.
  - reflexivity.
Defined.

(** *** Events *)

Lemma detect_blink_event (e : ExpressionEngine) (d : EyeData) (now : Q) :
  fst (_detect_blink e d now) <> NONE ->
  is_blink (fst (_detect_blink e d now)) /\
  blink_start_time (snd (_detect_blink e d now)) = 0.
Proof.
  unfold _detect_blink, is_blink.
  generalize (eye_closed (left_eye_aspect_ratio d) (baseline_left_ear e)
                (blink_threshold e))
             (eye_closed (right_eye_aspect_ratio d) (baseline_right_ear e)
                (blink_threshold e)).
  intros lshut rshut.
  destruct e as [? ? ? ? ? ? ? ? ? lc rc bc ?].
  destruct lshut, rshut, lc, rc, bc; cbn;
    repeat match goal with
           | |- context [if ?c then _ else _] => destruct c
           end;
    cbn; intros H; first [congruence | split; [auto 6 | reflexivity]].
Qed.

(** X15: What an event carries.  Whenever [detect_expression] classifies, the
    event is one of the four blinks, is stamped with the current time and
    the observation's confidence, and reports a duration of 0: the shared
    timer has been zeroed by the time the duration is read. *)
Theorem classified_event_fields (e : ExpressionEngine) (d : EyeData) (now : Q) :
  reaches_detector e d now ->
  fst (_detect_blink e d now) <> NONE ->
  let st := fst (detect_expression e d now) in
  expression st = fst (_detect_blink e d now) /\
  is_blink (expression st) /\
  duration st = 0 /\ start_time st = now /\
  confidence st = Tracker.confidence d /\
  current_state (snd (detect_expression e d now)) = st.
Proof.
  intros (Hface & Hbase & Hcool) Hx. apply ltb_ge in Hcool.
  destruct (detect_blink_event e d now Hx) as [Hblink Hzero].
  unfold detect_expression. rewrite Hface, Hbase, Hcool. cbn [negb].
  destruct (_detect_blink e d now) as [x e1]. cbn [fst snd] in *.
  destruct x; try contradiction; cbn [is_none]; cbn [fst snd];
    rewrite Hzero; cbn; repeat split; exact Hblink.
Qed.

Lemma classified_event_fields_witness :
  let e := snd (run Examples.engine_ready (firstn 2 Examples.stale_latch_frames)) in
  let d := snd (Examples.frame (100 + (10 # 100)) Examples.eye_open Examples.eye_open) in
  duration (fst (detect_expression e d (100 + (10 # 100)))) = 0.
Proof.
  intros e d.
  refine (proj1 (proj2 (proj2
    (classified_event_fields e d (100 + (10 # 100)) _ _)))).
  - repeat split. vm_compute. discriminate.
  - vm_compute. discriminate.
Defined.

(** X16: A reported blink stays reported.  [detect_expression] returns the
    stored state, which only a new classification or an observation without
    a face replaces: once a blink has been classified, every following
    observation with a face is answered with an expression other than NONE,
    until an observation without a face resets the stored state to NONE. *)
Theorem reported_expression_sticks (e : ExpressionEngine) (d : EyeData)
    (now : Q) :
  (face_detected d = true ->
   expression (current_state e) <> NONE ->
   expression (fst (detect_expression e d now)) <> NONE) /\
  (face_detected d = false ->
   fst (detect_expression e d now) = state_none /\
   current_state (snd (detect_expression e d now)) = state_none) /\
  current_state (snd (detect_expression e d now))
  = fst (detect_expression e d now).
Proof.
  unfold detect_expression.
  destruct (face_detected d); cbn [negb].
  2:{ split; [discriminate |]. split; [intros _; split; reflexivity | reflexivity]. }
  assert (Hup : current_state (update_baseline e d) = current_state e).
  { unfold update_baseline.
    repeat match goal with
           | |- context [if ?c then _ else _] => destruct c
           end; reflexivity. }
  destruct (negb (baseline_initialized e)).
  { cbn [fst snd]. rewrite Hup.
    split; [intros _ H; exact H |]. split; [discriminate | reflexivity]. }
  destruct (ltb (now - last_blink_time e) (blink_cooldown e)).
  { cbn [fst snd].
    split; [intros _ H; exact H |]. split; [discriminate | reflexivity]. }
  destruct (detect_blink_keeps e d now) as (_ & _ & _ & _ & Hst & _).
  destruct (_detect_blink e d now) as [x e1]. cbn [snd] in Hst.
  destruct x; cbn [is_none fst snd]; rewrite ?Hst;
    (split; [intros _ H; first [exact H | cbn; discriminate] |]);
    (split; [discriminate | reflexivity]).
Qed.

Lemma reported_expression_sticks_witness :
  let e := snd (run Examples.engine_ready (firstn 3 Examples.stale_latch_frames)) in
  let d := snd (Examples.frame 200 Examples.eye_open Examples.eye_open) in
  expression (fst (detect_expression e d 200)) <> NONE.
Proof.
  intros e d.
  refine (proj1 (reported_expression_sticks e d 200) _ _).
  - reflexivity.
  - vm_compute. discriminate.
Defined.

(** The combined latch follows the eyes.  After every call of
    [_detect_blink] the combined latch is set exactly when both eyes were
    seen closed in that observation, whatever the latches were before. *)
Theorem combined_latch_tracks_eyes (e : ExpressionEngine) (d : EyeData)
    (now : Q) :
  both_eyes_closed (snd (_detect_blink e d now))
  = left_shut e d && right_shut e d.
Proof.
  unfold _detect_blink, left_shut, right_shut.
  generalize (eye_closed (left_eye_aspect_ratio d) (baseline_left_ear e)
                (blink_threshold e))
             (eye_closed (right_eye_aspect_ratio d) (baseline_right_ear e)
                (blink_threshold e)).
  intros lshut rshut.
  destruct e as [? ? ? ? ? ? ? ? ? lc rc bc ?].
  destruct lshut, rshut, lc, rc, bc; cbn;
    repeat match goal with
           | |- context [if ?c then _ else _] => destruct c
           end;
    reflexivity.
Qed.

(** *** Actions *)

(** The action of an expression.  NONE has no action under any
    configuration, nor has any expression when the configuration has no
    actions section; otherwise the action is the configured entry under
    the expression's key, and no two expressions share a key, so each can
    be bound on its own. *)
Theorem action_lookup (actions : option (gmap string string))
    (x y : Expression) :
  get_action_for_expression actions NONE = None /\
  get_action_for_expression None x = None /\
  (forall key, action_key x = Some key ->
     get_action_for_expression actions x = default ∅ actions !! key) /\
  (action_key x = action_key y -> x = y).
Proof.
  split; [reflexivity |]. split; [| split].
  - unfold get_action_for_expression. destruct (action_key x); reflexivity.
  - intros key Hk. unfold get_action_for_expression. rewrite Hk. reflexivity.
  - destruct x, y; cbn; intros H; first [reflexivity | discriminate H].
Qed.

End ExpressionExtra.

(** ** More on the safety gate: confirmations, cooldowns, resuming *)

Module SafetyExtra.
Import Numpy NumpyFacts SafetyManager Properties.
Local Open Scope Q_scope.

(** X17: A confirmation is good once.  A requested confirmation is granted when
    it is confirmed strictly before its deadline and refused from the
    deadline on; either way the request is used up, so confirming again is
    refused, and requests for other actions are not touched.  Confirming
    what was never requested is refused and changes nothing. *)
Theorem confirmation_is_one_shot (s : SafetyManager) (action : string)
    (timeout : option Q) (requested now : Q) :
  let deadline := requested + match timeout with Some t => t | None => 3 end in
  let s1 := request_confirmation s action timeout requested in
  let r := confirm_action s1 action now in
  (fst r = true <-> now < deadline) /\
  pending_confirmations (snd r) !! action = None /\
  (forall later, fst (confirm_action (snd r) action later) = false) /\
  (forall other, other <> action ->
     pending_confirmations (snd r) !! other = pending_confirmations s !! other) /\
  (pending_confirmations s !! action = None ->
   confirm_action s action now = (false, s)).
Proof.
  intros deadline s1 r.
  assert (Hr : r = (ltb now deadline,
                    with_pending s1 (delete action (pending_confirmations s1)))).
  { unfold r, confirm_action, s1, request_confirmation.
    cbn [pending_confirmations with_pending]. rewrite lookup_insert_eq.
    reflexivity. }
  rewrite Hr. cbn [fst snd pending_confirmations with_pending].
  split; [apply ltb_lt |].
  split; [apply lookup_delete_eq |].
  split; [| split].
  - intros later. unfold confirm_action.
    cbn [pending_confirmations with_pending]. rewrite lookup_delete_eq.
    reflexivity.
  - intros other Hne. unfold s1, request_confirmation.
    cbn [pending_confirmations with_pending].
    rewrite lookup_delete_ne by congruence.
    apply lookup_insert_ne. congruence.
  - intros Hnone. unfold confirm_action. rewrite Hnone. reflexivity.
Qed.

Lemma confirmation_is_one_shot_witness :
  fst (confirm_action
         (request_confirmation Examples.safety_fresh "shutdown" None 10)
         "shutdown" 12) = true.
Proof.
  apply (proj1 (confirmation_is_one_shot Examples.safety_fresh "shutdown"
                  None 10 12)).
  reflexivity.
Defined.

Lemma register_action_fields (s : SafetyManager) (a : string) (t1 t2 : Q) :
  let s1 := register_action s a t1 t2 in
  enabled s1 = enabled s /\ paused s1 = paused s /\
  cooldown_times s1 = cooldown_times s /\
  max_clicks_per_second s1 = max_clicks_per_second s /\
  action_cooldowns s1 = <[a := t1]> (action_cooldowns s) /\
  (a <> "click"%string -> click_times s1 = click_times s).
Proof.
  unfold register_action.
  destruct (String.eqb_spec a "click") as [-> | Hne]; cbn; repeat split.
  intros H. contradiction.
Qed.

(** X18: The cooldown of an action.  With the gate enabled and not paused, an
    action that was registered is denied while less than its cooldown has
    passed since, whatever else holds; an action other than a click is
    allowed again as soon as the cooldown has passed.  The cooldown is 0.2 s
    for clicks, 0.1 s for scrolls, 0.3 s for keys, and 0 for any other
    action name. *)
Theorem cooldown_after_register (s : SafetyManager) (a : string)
    (t1 t2 now_cooldown now_rate : Q) :
  enabled s = true -> paused s = false ->
  let cooldown := default 0 (cooldown_times s !! a) in
  let s1 := register_action s a t1 t2 in
  (now_cooldown - t1 < cooldown ->
   fst (can_perform_action s1 a now_cooldown now_rate) = false) /\
  (a <> "click"%string -> cooldown <= now_cooldown - t1 ->
   fst (can_perform_action s1 a now_cooldown now_rate) = true) /\
  (cooldown_times s = default_cooldown_times ->
   cooldown = if String.eqb a "click" then 2 # 10
              else if String.eqb a "scroll" then 1 # 10
              else if String.eqb a "key" then 3 # 10 else 0).
Proof.
  intros Hen Hpa cooldown s1.
  destruct (register_action_fields s a t1 t2) as (E1 & E2 & E3 & _ & E5 & _).
  fold s1 in E1, E2, E3, E5.
  split; [| split].
  - intros Hsoon. unfold can_perform_action.
    rewrite E1, E2, E3, E5, Hen, Hpa, lookup_insert_eq. cbn [negb orb].
    fold cooldown. apply ltb_lt in Hsoon. rewrite Hsoon. reflexivity.
  - intros Hne Hlate. unfold can_perform_action.
    rewrite E1, E2, E3, E5, Hen, Hpa, lookup_insert_eq. cbn [negb orb].
    fold cooldown. apply ltb_ge in Hlate. rewrite Hlate.
    apply String.eqb_neq in Hne. rewrite Hne. reflexivity.
  - intros Hdef. unfold cooldown. rewrite Hdef. unfold default_cooldown_times.
    destruct (String.eqb_spec a "click") as [-> | N1]; [reflexivity |].
    rewrite lookup_insert_ne by congruence.
    destruct (String.eqb_spec a "scroll") as [-> | N2]; [reflexivity |].
    rewrite lookup_insert_ne by congruence.
    destruct (String.eqb_spec a "key") as [-> | N3]; [reflexivity |].
    rewrite lookup_insert_ne by congruence. reflexivity.
Qed.

Lemma cooldown_after_register_witness :
  fst (can_perform_action
         (register_action Examples.safety_fresh "key" 10 10) "key"
         (10 + (2 # 10)) (10 + (2 # 10))) = false /\
  fst (can_perform_action
         (register_action Examples.safety_fresh "key" 10 10) "key"
         (10 + (3 # 10)) (10 + (3 # 10))) = true.
Proof.
  split.
  - apply (proj1 (cooldown_after_register Examples.safety_fresh "key" 10 10
                    (10 + (2 # 10)) (10 + (2 # 10)) eq_refl eq_refl)).
    vm_compute. reflexivity.
  - apply (proj1 (proj2 (cooldown_after_register Examples.safety_fresh "key"
                    10 10 (10 + (3 # 10)) (10 + (3 # 10)) eq_refl eq_refl))).
    + discriminate.
    + vm_compute. discriminate.
Defined.

(** Actions do not delay one another.  Registering one action leaves the
    answer of the gate for every other action as it was: the cooldowns are
    kept per action name, and only clicks enter the click window. *)
Theorem register_is_per_action (s : SafetyManager) (a b : string)
    (t1 t2 now_cooldown now_rate : Q) :
  a <> b ->
  fst (can_perform_action (register_action s a t1 t2) b now_cooldown now_rate)
  = fst (can_perform_action s b now_cooldown now_rate).
Proof.
  intros Hne.
  destruct (register_action_fields s a t1 t2) as (E1 & E2 & E3 & E4 & E5 & E6).
  unfold can_perform_action. rewrite E1, E2, E3, E5.
  rewrite lookup_insert_ne by exact Hne.
  destruct (negb (enabled s) || paused s); [reflexivity |].
  destruct (match action_cooldowns s !! b with
            | Some last => _ | None => false end); [reflexivity |].
  destruct (String.eqb_spec b "click") as [-> | Hb]; [| reflexivity].
  unfold _check_click_rate. rewrite E4, (E6 Hne).
  destruct (Z.of_nat (length (remove_old_clicks now_rate (click_times s)))
            <? max_clicks_per_second s)%Z; reflexivity.
Qed.

Lemma register_is_per_action_witness :
  fst (can_perform_action
         (register_action Examples.safety_fresh "scroll" 10 10) "key" 10 10)
  = fst (can_perform_action Examples.safety_fresh "key" 10 10).
Proof.
  apply register_is_per_action. discriminate.
Defined.

(** Resuming starts afresh.  After [resume] the gate is enabled and not
    paused, no cooldown is pending and the click window is empty: every
    action other than a click is allowed at once, and so is a click
    whenever the configured maximum is positive. *)
Theorem resume_allows_everything (s : SafetyManager) (a : string)
    (now_cooldown now_rate : Q) :
  is_active (resume s) = true /\
  fst (can_perform_action (resume s) a now_cooldown now_rate)
  = (if String.eqb a "click" then (0 <? max_clicks_per_second s)%Z else true).
Proof.
  split; [reflexivity |].
  unfold can_perform_action, resume.
  cbn [enabled paused action_cooldowns negb orb].
  rewrite lookup_empty.
  destruct (String.eqb a "click"); [| reflexivity].
  unfold _check_click_rate. cbn.
  change (Z.of_nat 0) with 0%Z.
  destruct (0 <? max_clicks_per_second s)%Z; reflexivity.
Qed.

End SafetyExtra.

(** ** The calibration session *)

Module CalibratorExtra.
Import Numpy NumpyFacts Calibrator Scenarios.
Local Open Scope Q_scope.

(** *** The targets *)

Lemma scale_le (w a b : Q) : 0 <= w -> a <= b -> w * a <= w * b.
Proof.
  intros Hw Hab.
  assert (H : 0 <= w * (b - a)) by (apply Qmult_le_0_compat; Lqa.lra).
  assert (E : w * (b - a) == w * b - w * a) by ring.
  rewrite E in H. Lqa.lra.
Qed.

(** X19: The grid.  Asked for 5 points the calibrator generates 5 targets, for
    any other number 9.  On a screen of non-negative size every target lies
    within the margins of one tenth of the screen, and every target starts
    with the configured duration, no sample and not completed. *)
Theorem generated_targets (c : Calibrator) :
  (0 <= screen_width c)%Z -> (0 <= screen_height c)%Z ->
  let ts := _generate_calibration_points c in
  length ts = (if Z.eqb (num_points c) 5 then 5 else 9)%nat /\
  Forall (inside_margins c) ts /\
  Forall (fun t => duration_ms t = duration_per_point c /\
                   samples_collected t = 0%nat /\ completed t = false) ts.
Proof.
  intros HW HH ts.
  assert (HWq : 0 <= inject_Z (screen_width c))
    by (change 0 with (inject_Z 0); rewrite <- Zle_Qle; exact HW).
  assert (HHq : 0 <= inject_Z (screen_height c))
    by (change 0 with (inject_Z 0); rewrite <- Zle_Qle; exact HH).
  assert (Hpoint : forall i : nat, (i <= 2)%nat -> forall w, 0 <= w ->
    w * (1 # 10)
    <= w * (1 # 10) + inject_Z (Z.of_nat i) * (w - 2 * (w * (1 # 10))) / 2
    <= w * (9 # 10)).
  { intros i Hi w Hw.
    assert (Ei : w * (1 # 10)
                 + inject_Z (Z.of_nat i) * (w - 2 * (w * (1 # 10))) / 2
                 == w * ((1 # 10) + inject_Z (Z.of_nat i) * (4 # 10))) by field.
    rewrite Ei.
    destruct i as [| [| [| i]]]; [| | | lia];
      cbn [Z.of_nat Pos.of_succ_nat Pos.succ inject_Z];
      split; apply scale_le; first [exact Hw | discriminate]. }
  subst ts. unfold _generate_calibration_points.
  destruct (num_points c =? 5)%Z; cbn [flat_map map seq app nth_error].
  - split; [reflexivity |].
    split; repeat constructor; cbn [position fst snd];
      first [apply (Hpoint 0%nat) | apply (Hpoint 1%nat) | apply (Hpoint 2%nat)];
      first [lia | assumption].
  - split; [reflexivity |].
    split; repeat constructor; cbn [position fst snd];
      first [apply (Hpoint 0%nat) | apply (Hpoint 1%nat) | apply (Hpoint 2%nat)];
      first [lia | assumption].
Qed.

Lemma generated_targets_witness :
  length (_generate_calibration_points (init (Some 5%Z) None 1920 1080))
  = 5%nat /\
  Forall (inside_margins (init (Some 5%Z) None 1920 1080))
    (_generate_calibration_points (init (Some 5%Z) None 1920 1080)).
Proof.
  destruct (generated_targets (init (Some 5%Z) None 1920 1080))
    as (Hlen & Hin & _); [cbn; lia | cbn; lia |].
  split; [exact Hlen | exact Hin].
Defined.

(** *** Replacing the current target *)

Lemma replace_nth_length (t : CalibrationTarget) (ts : list CalibrationTarget) :
  forall i, length (replace_nth i t ts) = length ts.
Proof.
  induction ts as [| u rest IH]; intros [| i]; cbn; try reflexivity.
  rewrite IH. reflexivity.
Qed.

Lemma replace_nth_firstn (t : CalibrationTarget) (ts : list CalibrationTarget) :
  forall i, firstn i (replace_nth i t ts) = firstn i ts.
Proof.
  induction ts as [| u rest IH]; intros [| i]; cbn; try reflexivity.
  rewrite IH. reflexivity.
Qed.

Lemma replace_nth_skipn (t u : CalibrationTarget) (ts : list CalibrationTarget) :
  forall i, nth_error ts i = Some u ->
    skipn i (replace_nth i t ts) = t :: skipn (S i) ts /\
    skipn i ts = u :: skipn (S i) ts /\
    firstn (S i) (replace_nth i t ts) = (firstn i ts ++ [t])%list /\
    nth_error (replace_nth i t ts) i = Some t.
Proof.
  induction ts as [| v rest IH]; intros [| i] H; cbn in H; try discriminate.
  - injection H as ->. repeat split.
  - destruct (IH i H) as (H1 & H2 & H3 & H4).
    cbn [replace_nth]. change (skipn (S i) (v :: ?l)) with (skipn i l).
    rewrite H1, H2.
    change (firstn (S (S i)) (v :: ?l)) with (v :: firstn (S i) l).
    rewrite H3. repeat split. exact H4.
Qed.

Lemma count_completed_split (i : nat) (ts : list CalibrationTarget) :
  Forall (fun t => completed t = true) (firstn i ts) ->
  Forall (fun t => completed t = false) (skipn i ts) ->
  (i <= length ts)%nat ->
  count_completed ts = i.
Proof.
  intros Hdone Htodo Hlen. unfold count_completed.
  rewrite <- (firstn_skipn i ts) at 1. rewrite List.filter_app, length_app.
  assert (H1 : forall l, Forall (fun t => completed t = true) l ->
                         List.filter completed l = l).
  { induction 1 as [| t l Ht _ IH]; cbn; [reflexivity |].
    rewrite Ht, IH. reflexivity. }
  assert (H2 : forall l, Forall (fun t => completed t = false) l ->
                         List.filter completed l = []).
  { induction 1 as [| t l Ht _ IH]; cbn; [reflexivity |].
    rewrite Ht, IH. reflexivity. }
  rewrite (H1 _ Hdone), (H2 _ Htodo), length_firstn. cbn. lia.
Qed.

Lemma state_eqb_eq (a b : CalibrationState) : state_eqb a b = true <-> a = b.
Proof. destruct a, b; cbn; split; intros H; first [reflexivity | discriminate]. Qed.

(** *** One sample *)

Lemma late_sample (c : Calibrator) (target : CalibrationTarget)
    (l r : Q * Q) (now now_next : Q) :
  state c = COLLECTING ->
  nth_error (targets c) (current_target_index c) = Some target ->
  duration_ms target <= (now - target_start_time c) * 1000 ->
  let i := current_target_index c in
  let done := mkTarget (position target) (duration_ms target)
                (S (samples_collected target)) true in
  let out := collect_sample c (Some l) (Some r) now now_next in
  snd (fst out) = [on_target_complete i done] /\
  current_target_index (snd out) = S i /\
  targets (snd out) = replace_nth i done (targets c) /\
  fst (fst out) = (length (targets c) <=? S i)%nat /\
  state (snd out)
  = (if (length (targets c) <=? S i)%nat then COMPUTING else COLLECTING) /\
  ((S i < length (targets c))%nat -> target_start_time (snd out) = now_next).
Proof.
  intros Hst Hnth Hlate i done out. subst out. unfold collect_sample.
  rewrite Hst, Hnth. cbn [state_eqb negb].
  apply Qle_bool_iff in Hlate. rewrite Hlate.
  cbn [position duration_ms samples_collected].
  rewrite replace_nth_length. fold i. fold done.
  destruct (Nat.leb_spec (length (targets c)) (S i)) as [Hlast | Hmore].
  - cbn. repeat split. intros H. lia.
  - unfold next_target.
    cbn [targets current_target_index with_session].
    assert (Hsome : exists u, nth_error (replace_nth i done (targets c)) (S i)
                              = Some u).
    { destruct (nth_error (replace_nth i done (targets c)) (S i)) eqn:En;
        [eexists; reflexivity |].
      apply nth_error_None in En. rewrite replace_nth_length in En. lia. }
    destruct Hsome as [u ->]. cbn. repeat split.
Qed.

(** The dwell time.  While a target is being collected, a sample with both
    irises is counted for it; the target is completed by the first such
    sample that arrives when its duration has elapsed since it was handed
    out, the callback is then invoked and the session moves on, to the next
    target or, after the last one, to computing.  The call returns [True]
    only for the sample that completes the last target.  A sample that
    lacks an iris changes nothing. *)
Theorem dwell_gates_completion (c : Calibrator) (target : CalibrationTarget)
    (l r : Q * Q) (now now_next : Q) :
  state c = COLLECTING ->
  nth_error (targets c) (current_target_index c) = Some target ->
  let i := current_target_index c in
  let counted := mkTarget (position target) (duration_ms target)
                   (S (samples_collected target)) (completed target) in
  let done := mkTarget (position target) (duration_ms target)
                (S (samples_collected target)) true in
  let out := collect_sample c (Some l) (Some r) now now_next in
  ((now - target_start_time c) * 1000 < duration_ms target ->
   out = (false, [],
          with_session c COLLECTING i (replace_nth i counted (targets c))
            (target_start_time c))) /\
  (duration_ms target <= (now - target_start_time c) * 1000 ->
   snd (fst out) = [on_target_complete i done] /\
   current_target_index (snd out) = S i /\
   targets (snd out) = replace_nth i done (targets c) /\
   fst (fst out) = (length (targets c) <=? S i)%nat /\
   state (snd out)
   = (if (length (targets c) <=? S i)%nat then COMPUTING else COLLECTING) /\
   ((S i < length (targets c))%nat -> target_start_time (snd out) = now_next)) /\
  (forall other, collect_sample c None other now now_next = (false, [], c) /\
                 collect_sample c other None now now_next = (false, [], c)).
Proof.
  intros Hst Hnth i counted done out.
  split; [| split].
  - intros Hearly. subst out. unfold collect_sample.
    rewrite Hst, Hnth. cbn [state_eqb negb].
    assert (E : Qle_bool (duration_ms target)
                  ((now - target_start_time c) * 1000) = false).
    { destruct (Qle_bool _ _) eqn:E; [| reflexivity].
      apply Qle_bool_iff in E. exfalso. Lqa.lra. }
    rewrite E. reflexivity.
  - intros Hlate. subst out.
    exact (late_sample c target l r now now_next Hst Hnth Hlate).
  - intros other. unfold collect_sample.
    rewrite Hst, Hnth. cbn [state_eqb negb].
    split; [reflexivity | destruct other; reflexivity].
Qed.

Lemma dwell_gates_completion_witness :
  samples_collected
    (nth 0 (targets (snd (collect_sample session_started
                            (Some (600, 300)) (Some (700, 300)) 1 1)))
         (mkTarget (0, 0) 0 0 false)) = 1%nat /\
  current_target_index
    (snd (collect_sample session_started
            (Some (600, 300)) (Some (700, 300)) 2 2)) = 1%nat.
Proof.
  destruct (dwell_gates_completion session_started
              (mkTarget (inject_Z 1920 * (1 # 10)
                         + inject_Z (Z.of_nat 0)
                           * (inject_Z 1920 - 2 * (inject_Z 1920 * (1 # 10))) / 2,
                         inject_Z 1080 * (1 # 10)
                         + inject_Z (Z.of_nat 0)
                           * (inject_Z 1080 - 2 * (inject_Z 1080 * (1 # 10))) / 2)
                 2000 0 false)
              (600, 300) (700, 300) 1 1 eq_refl eq_refl) as (Hearly & _ & _).
  destruct (dwell_gates_completion session_started
              (mkTarget (inject_Z 1920 * (1 # 10)
                         + inject_Z (Z.of_nat 0)
                           * (inject_Z 1920 - 2 * (inject_Z 1920 * (1 # 10))) / 2,
                         inject_Z 1080 * (1 # 10)
                         + inject_Z (Z.of_nat 0)
                           * (inject_Z 1080 - 2 * (inject_Z 1080 * (1 # 10))) / 2)
                 2000 0 false)
              (600, 300) (700, 300) 2 2 eq_refl eq_refl) as (_ & Hlate & _).
  split.
  - rewrite Hearly by reflexivity. reflexivity.
  - apply Hlate. discriminate.
Defined.

(** *** Every session *)

Lemma collect_sample_consistent (c : Calibrator) (l r : option (Q * Q))
    (now now_next : Q) :
  session_consistent c ->
  session_consistent (snd (collect_sample c l r now now_next)).
Proof.
  intros Hc. pose proof Hc as (Hle & Hdone & Htodo & Hcomp & Hnf).
  unfold collect_sample.
  destruct (state_eqb (state c) COLLECTING) eqn:Est; cbn [negb]; [| exact Hc].
  apply state_eqb_eq in Est.
  destruct (nth_error (targets c) (current_target_index c)) as [target |] eqn:Hn;
    [| exact Hc].
  destruct l as [l |]; [| exact Hc]. destruct r as [r |]; [| exact Hc].
  destruct (replace_nth_skipn
              (mkTarget (position target) (duration_ms target)
                 (S (samples_collected target)) true)
              target (targets c) _ Hn) as (D1 & D2 & D3 & D4).
  destruct (replace_nth_skipn
              (mkTarget (position target) (duration_ms target)
                 (S (samples_collected target)) (completed target))
              target (targets c) _ Hn) as (C1 & _ & _ & _).
  assert (Hlt : (current_target_index c < length (targets c))%nat)
    by (apply nth_error_Some; rewrite Hn; discriminate).
  assert (Htarget : completed target = false).
  { rewrite D2 in Htodo. inversion Htodo. assumption. }
  assert (Hrest : Forall (fun t => completed t = false)
                    (skipn (S (current_target_index c)) (targets c))).
  { rewrite D2 in Htodo. inversion Htodo. assumption. }
  destruct (Qle_bool (duration_ms target)
              ((now - target_start_time c) * 1000)).
  - cbn [position duration_ms samples_collected].
    rewrite replace_nth_length.
    assert (Hskip : skipn (S (current_target_index c))
                      (replace_nth (current_target_index c)
                         (mkTarget (position target) (duration_ms target)
                            (S (samples_collected target)) true) (targets c))
                    = skipn (S (current_target_index c)) (targets c)).
    { change (S (current_target_index c)) with (1 + current_target_index c)%nat.
      rewrite <- !skipn_skipn, D1, D2. reflexivity. }
    destruct (Nat.leb_spec (length (targets c)) (S (current_target_index c))).
    + cbn [snd]. unfold session_consistent.
      cbn [current_target_index targets state with_session].
      rewrite replace_nth_length, D3, Hskip.
      repeat split; try lia; try discriminate; try assumption.
      apply Forall_app. split; [exact Hdone | repeat constructor].
    + unfold next_target. cbn [targets current_target_index with_session].
      destruct (nth_error _ (S (current_target_index c))) eqn:Hnext.
      2:{ apply nth_error_None in Hnext. rewrite replace_nth_length in Hnext.
          lia. }
      cbn [snd]. unfold session_consistent.
      cbn [current_target_index targets state with_session].
      rewrite replace_nth_length, D3, Hskip.
      repeat split; try lia; try discriminate; try assumption.
      apply Forall_app. split; [exact Hdone | repeat constructor].
  - cbn [snd]. unfold session_consistent.
    cbn [current_target_index targets state with_session].
    rewrite replace_nth_length, replace_nth_firstn, C1.
    repeat split; try lia; try assumption.
    constructor; [exact Htarget | exact Hrest].
Qed.

Lemma generated_not_completed (c : Calibrator) :
  Forall (fun t => completed t = false) (_generate_calibration_points c).
Proof.
  unfold _generate_calibration_points.
  destruct (num_points c =? 5)%Z; cbn; repeat constructor.
Qed.

Lemma step_consistent (c : Calibrator) (call : calibrator_call) :
  session_consistent c -> session_consistent (calibrator_step c call).
Proof.
  intros Hc. pose proof Hc as (Hle & Hdone & Htodo & Hcomp & Hnf).
  destruct call as [| now | l r now now_next | |]; cbn [calibrator_step].
  - unfold start, session_consistent.
    cbn [snd current_target_index targets state with_session firstn skipn].
    repeat split; try lia; try discriminate; try constructor.
    apply generated_not_completed.
  - unfold next_target.
    destruct (nth_error (targets c) (current_target_index c)) eqn:Hn;
      cbn [snd]; unfold session_consistent;
      cbn [current_target_index targets state with_session];
      repeat split; try assumption; try discriminate.
    intros _. apply nth_error_None. exact Hn.
  - apply collect_sample_consistent. exact Hc.
  - unfold compute_calibration.
    destruct (state_eqb (state c) COMPUTING) eqn:Est; cbn [negb]; [| exact Hc].
    apply state_eqb_eq in Est.
    rewrite (count_completed_split _ _ Hdone Htodo Hle).
    pose proof (Hcomp Est) as Hfull.
    destruct (Nat.ltb_spec (current_target_index c) (length (targets c)));
      [lia |].
    cbn [snd]. unfold session_consistent.
    cbn [current_target_index targets state with_session].
    repeat split; try assumption; discriminate.
  - unfold reset, session_consistent.
    cbn [current_target_index targets state with_session firstn skipn length].
    repeat split; try lia; try discriminate; constructor.
Qed.

Lemma run_consistent (calls : list calibrator_call) :
  forall c, session_consistent c -> session_consistent (calibrator_run c calls).
Proof.
  induction calls as [| call rest IH]; intros c Hc; [exact Hc |].
  unfold calibrator_run in *. cbn [fold_left]. apply IH.
  apply step_consistent. exact Hc.
Qed.

Lemma init_consistent (points : option Z) (duration : option Q) (W H : Z) :
  session_consistent (init points duration W H).
Proof.
  unfold session_consistent, init. cbn.
  repeat split; try lia; try discriminate; constructor.
Qed.

(** X20: A session cannot fail.  Through any sequence of calls to [start],
    [next_target], [collect_sample], [compute_calibration] and [reset] on
    a calibrator as constructed, the state is never FAILED: whenever the
    session is computing, every target has been completed, so
    [compute_calibration] succeeds and completes the session. *)
Theorem session_never_fails (points : option Z) (duration : option Q)
    (W H : Z) (calls : list calibrator_call) :
  let c := calibrator_run (init points duration W H) calls in
  has_failed c = false /\
  (state c = COMPUTING ->
   fst (fst (compute_calibration c)) = true /\
   is_complete (snd (compute_calibration c)) = true) /\
  (state c <> COMPUTING -> compute_calibration c = (false, [], c)).
Proof.
  intros c.
  assert (Hc : session_consistent c)
    by (apply run_consistent, init_consistent).
  destruct Hc as (Hle & Hdone & Htodo & Hcomp & Hnf).
  split; [| split].
  - unfold has_failed. destruct (state c); try reflexivity. contradiction.
  - intros Est. unfold compute_calibration. rewrite Est. cbn [state_eqb negb].
    rewrite (count_completed_split _ _ Hdone Htodo Hle).
    pose proof (Hcomp Est).
    destruct (Nat.ltb_spec (current_target_index c) (length (targets c)));
      [lia |].
    split; reflexivity.
  - intros Hne. unfold compute_calibration.
    destruct (state_eqb (state c) COMPUTING) eqn:E; [| reflexivity].
    apply state_eqb_eq in E. contradiction.
Qed.

(** X21: Progress.  Through any sequence of calls the number of completed
    targets that [get_progress] reports is the index of the current target,
    and the percentage lies between 0 and 100. *)
Theorem progress_is_the_index (points : option Z) (duration : option Q)
    (W H : Z) (calls : list calibrator_call) :
  let c := calibrator_run (init points duration W H) calls in
  get_progress c = (current_target_index c, length (targets c)) /\
  0 <= get_progress_percent c <= 100.
Proof.
  intros c.
  assert (Hc : session_consistent c)
    by (apply run_consistent, init_consistent).
  destruct Hc as (Hle & Hdone & Htodo & _ & _).
  assert (Hp : get_progress c = (current_target_index c, length (targets c))).
  { unfold get_progress.
    rewrite (count_completed_split _ _ Hdone Htodo Hle). reflexivity. }
  split; [exact Hp |].
  unfold get_progress_percent. rewrite Hp.
  destruct (Nat.ltb_spec 0 (length (targets c))) as [Hpos | Hzero];
    [| split; discriminate].
  assert (Hn : 0 < inject_Z (Z.of_nat (length (targets c)))).
  { change 0 with (inject_Z 0). rewrite <- Zlt_Qlt. lia. }
  assert (Hi : 0 <= inject_Z (Z.of_nat (current_target_index c))).
  { change 0 with (inject_Z 0). rewrite <- Zle_Qle. lia. }
  assert (Hin : inject_Z (Z.of_nat (current_target_index c))
                <= inject_Z (Z.of_nat (length (targets c)))).
  { rewrite <- Zle_Qle. lia. }
  assert (0 <= inject_Z (Z.of_nat (current_target_index c))
               / inject_Z (Z.of_nat (length (targets c))))
    by (apply Qle_shift_div_l; Lqa.lra).
  assert (inject_Z (Z.of_nat (current_target_index c))
          / inject_Z (Z.of_nat (length (targets c))) <= 1)
    by (apply Qle_shift_div_r; Lqa.lra).
  split; Lqa.lra.
Qed.

(** *** A whole session *)

Lemma replace_nth_durations (d : Q) (t : CalibrationTarget)
    (ts : list CalibrationTarget) :
  forall i, duration_ms t = d ->
    Forall (fun u => duration_ms u = d) ts ->
    Forall (fun u => duration_ms u = d) (replace_nth i t ts).
Proof.
  induction ts as [| u rest IH]; intros [| i] Ht Hall; cbn;
    inversion Hall; subst; constructor; auto.
Qed.

Lemma dwell_loop (step d : Q) (r : nat) :
  d <= step * 1000 ->
  forall c t,
    state c = COLLECTING -> target_start_time c = t ->
    length (targets c) = (current_target_index c + S r)%nat ->
    Forall (fun u => duration_ms u = d) (targets c) ->
    let c' := calibrator_run c (dwell_samples t step (S r)) in
    state c' = COMPUTING /\ length (targets c') = length (targets c).
Proof.
  intros Hstep. induction r as [| r IH]; intros c t Hst Ht Hlen Hdur c'.
  - subst c'. unfold calibrator_run. cbn [dwell_samples fold_left calibrator_step].
    assert (Hsome : exists target,
              nth_error (targets c) (current_target_index c) = Some target).
    { destruct (nth_error (targets c) (current_target_index c)) eqn:E;
        [eexists; reflexivity |].
      apply nth_error_None in E. lia. }
    destruct Hsome as [target Hn].
    assert (Hd : duration_ms target = d).
    { apply nth_error_In in Hn. rewrite List.Forall_forall in Hdur.
      apply Hdur. exact Hn. }
    destruct (late_sample c target (0, 0) (0, 0) (t + step) (t + step)
                Hst Hn) as (_ & _ & E3 & _ & E5 & _).
    { rewrite Hd, Ht. Lqa.lra. }
    rewrite E5, E3, replace_nth_length.
    destruct (Nat.leb_spec (length (targets c)) (S (current_target_index c)));
      [split; reflexivity | lia].
  - subst c'. unfold calibrator_run.
    change (dwell_samples t step (S (S r)))
      with (call_collect_sample (Some (0, 0)) (Some (0, 0)) (t + step) (t + step)
            :: dwell_samples (t + step) step (S r)).
    cbn [fold_left calibrator_step].
    assert (Hsome : exists target,
              nth_error (targets c) (current_target_index c) = Some target).
    { destruct (nth_error (targets c) (current_target_index c)) eqn:E;
        [eexists; reflexivity |].
      apply nth_error_None in E. lia. }
    destruct Hsome as [target Hn].
    assert (Hd : duration_ms target = d).
    { apply nth_error_In in Hn. rewrite List.Forall_forall in Hdur.
      apply Hdur. exact Hn. }
    destruct (late_sample c target (0, 0) (0, 0) (t + step) (t + step)
                Hst Hn) as (_ & E2 & E3 & _ & E5 & E6).
    { rewrite Hd, Ht. Lqa.lra. }
    set (c1 := snd (collect_sample c (Some (0, 0)) (Some (0, 0)) (t + step)
                      (t + step))) in *.
    assert (Hmore : (length (targets c) <=? S (current_target_index c))%nat
                    = false) by (apply Nat.leb_gt; lia).
    rewrite Hmore in E5.
    destruct (IH c1 (t + step)) as [I1 I2].
    + exact E5.
    + apply E6. lia.
    + rewrite E3, E2, replace_nth_length. lia.
    + rewrite E3. apply replace_nth_durations; [exact Hd | exact Hdur].
    + fold (calibrator_run c1 (dwell_samples (t + step) step (S r))).
      split; [exact I1 |]. rewrite I2, E3, replace_nth_length. reflexivity.
Qed.

(** X22: A session in which every target is dwelt on.  After [start] and
    [next_target], one sample per target, each arriving with both irises
    no sooner than the configured duration after its target was handed out,
    takes the session through all its targets, 5 or 9, and
    [compute_calibration] then completes it. *)
Theorem dwelt_session_completes (points : option Z) (duration : option Q)
    (W H : Z) (t0 step : Q) :
  let c0 := init points duration W H in
  let n := (if Z.eqb (num_points c0) 5 then 5 else 9)%nat in
  duration_per_point c0 <= step * 1000 ->
  let c := calibrator_run c0
             (call_start :: call_next_target t0 :: dwell_samples t0 step n
              ++ [call_compute_calibration]) in
  is_complete c = true /\ get_progress c = (n, n).
Proof.
  intros c0 n Hstep c.
  set (c1 := calibrator_run c0 [call_start; call_next_target t0]).
  assert (Hts : targets c1 = _generate_calibration_points c0 /\
                state c1 = COLLECTING /\ target_start_time c1 = t0 /\
                current_target_index c1 = 0%nat /\ length (targets c1) = n).
  { unfold c1, calibrator_run. cbn [fold_left calibrator_step start snd].
    unfold next_target. cbn [targets current_target_index with_session].
    unfold _generate_calibration_points, n.
    destruct (num_points c0 =? 5)%Z; cbn; repeat split. }
  destruct Hts as (Hgen & Hst & Ht & Hi & Hlen).
  assert (Hdur : Forall (fun u => duration_ms u = duration_per_point c0)
                   (targets c1)).
  { rewrite Hgen. unfold _generate_calibration_points.
    destruct (num_points c0 =? 5)%Z; cbn; repeat constructor. }
  assert (Hn : exists r, n = S r)
    by (unfold n; destruct (num_points c0 =? 5)%Z; eexists; reflexivity).
  destruct Hn as [r Hr].
  destruct (dwell_loop step (duration_per_point c0) r Hstep c1 t0 Hst Ht)
    as [L1 L2].
  { rewrite Hlen, Hi, Hr. reflexivity. }
  { exact Hdur. }
  rewrite <- Hr in L1, L2.
  set (c2 := calibrator_run c1 (dwell_samples t0 step n)) in *.
  assert (Hc : c = snd (compute_calibration c2)).
  { unfold c, c2, c1, calibrator_run.
    change (call_start :: call_next_target t0
            :: dwell_samples t0 step n ++ [call_compute_calibration])
      with ([call_start; call_next_target t0]
            ++ dwell_samples t0 step n ++ [call_compute_calibration])%list.
    rewrite !fold_left_app. reflexivity. }
  assert (Hcons : session_consistent c2).
  { unfold c2, c1. apply run_consistent, run_consistent, init_consistent. }
  destruct Hcons as (Hle & Hdone & Htodo & Hcomp & _).
  pose proof (Hcomp L1) as Hfull.
  assert (Hcount : count_completed (targets c2) = current_target_index c2)
    by (apply count_completed_split; assumption).
  rewrite Hc. unfold compute_calibration. rewrite L1. cbn [state_eqb negb].
  rewrite Hcount.
  destruct (Nat.ltb_spec (current_target_index c2) (length (targets c2)));
    [lia |].
  cbn [snd]. split; [reflexivity |].
  unfold get_progress. cbn [targets with_session]. rewrite Hcount.
  f_equal; lia.
Qed.

Lemma dwelt_session_completes_witness :
  is_complete
    (calibrator_run (init (Some 5%Z) (Some 1500) 1920 1080)
       (call_start :: call_next_target 10 :: dwell_samples 10 2 5
        ++ [call_compute_calibration])) = true.
Proof.
  refine (proj1 (dwelt_session_completes (Some 5%Z) (Some 1500) 1920 1080 10 2 _)).
  vm_compute. discriminate.
Defined.

End CalibratorExtra.

(** ** The frame-rate counter *)

Module FPSExtra.
Import FPSCounter Scenarios.
Local Open Scope R_scope.

Lemma total_positive (times : list R) :
  Forall (fun d => 0 < d) times -> times <> [] -> 0 < total times.
Proof.
  intros Hpos Hne. destruct Hpos as [| d rest Hd Hrest]; [contradiction |].
  clear Hne. cbn. revert d Hd.
  induction Hrest as [| e rest' He _ IH]; intros d Hd; cbn.
  - Lra.lra.
  - specialize (IH e He). cbn in IH. Lra.lra.
Qed.

Lemma average_positive (times : list R) :
  Forall (fun d => 0 < d) times -> times <> [] -> 0 < average times.
Proof.
  intros Hpos Hne. unfold average. apply Rdiv_lt_0_compat.
  - apply total_positive; assumption.
  - apply lt_0_INR. destruct times; [contradiction | cbn; lia].
Qed.

Lemma skipn_Forall {A : Type} (P : A -> Prop) (k : nat) :
  forall l, Forall P l -> Forall P (skipn k l).
Proof.
  induction k as [| k IH]; intros l Hl; [exact Hl |].
  destruct Hl as [| x l Hx Hl]; [constructor | cbn; apply IH; exact Hl].
Qed.

Lemma tick_state (c : FPSCounter) (current_time : R) :
  snd (tick c current_time) =
  mkFPS (window_size c)
    (if Rlt_dec 0 (current_time - last_time c)
     then Collections.deque_append (window_size c) (frame_times c)
            (current_time - last_time c)
     else frame_times c)
    current_time
    (if Rlt_dec 0 (current_time - last_time c)
     then S (frame_count c) else frame_count c).
Proof.
  unfold tick.
  destruct (if Rlt_dec 0 (current_time - last_time c)
            then Collections.deque_append (window_size c) (frame_times c)
                   (current_time - last_time c)
            else frame_times c); reflexivity.
Qed.

Lemma tick_result (c : FPSCounter) (current_time : R) :
  fst (tick c current_time) =
  match frame_times (snd (tick c current_time)) with
  | [] => 0
  | _ :: _ => rate (average (frame_times (snd (tick c current_time))))
  end.
Proof.
  rewrite tick_state. unfold tick. cbn [frame_times].
  destruct (if Rlt_dec 0 (current_time - last_time c)
            then Collections.deque_append (window_size c) (frame_times c)
                   (current_time - last_time c)
            else frame_times c); reflexivity.
Qed.

Lemma tick_window (c : FPSCounter) (current_time : R) :
  positive_window c -> (length (frame_times c) <= window_size c)%nat ->
  positive_window (snd (tick c current_time)) /\
  (length (frame_times (snd (tick c current_time))) <= window_size c)%nat /\
  window_size (snd (tick c current_time)) = window_size c.
Proof.
  intros Hpos Hlen. rewrite tick_state. unfold positive_window.
  cbn [frame_times window_size].
  destruct (Rlt_dec 0 (current_time - last_time c)) as [Hd | Hd].
  - unfold Collections.deque_append. repeat split.
    + apply skipn_Forall. apply Forall_app. split; [exact Hpos |].
      constructor; [exact Hd | constructor].
    + rewrite length_skipn, length_app. cbn. lia.
  - repeat split; assumption.
Qed.

Lemma rate_positive (x : R) : 0 < x -> rate x = 1 / x /\ 0 < rate x.
Proof.
  intros Hx. unfold rate. destruct (Rlt_dec 0 x) as [_ | Hn]; [| contradiction].
  split; [reflexivity |]. apply Rdiv_lt_0_compat; [Lra.lra | exact Hx].
Qed.

Lemma rate_antitone (x y : R) : 0 < x -> x <= y -> rate y <= rate x.
Proof.
  intros Hx Hxy.
  destruct (rate_positive x Hx) as [-> _].
  destruct (rate_positive y ltac:(Lra.lra)) as [-> _].
  unfold Rdiv. rewrite !Rmult_1_l. apply Rinv_le_contravar; assumption.
Qed.

Lemma total_bounds (lo hi : R) (times : list R) :
  Forall (fun d => lo <= d <= hi) times ->
  INR (length times) * lo <= total times <= INR (length times) * hi.
Proof.
  induction 1 as [| d rest Hd _ IH].
  - cbn. Lra.lra.
  - change (total (d :: rest)) with (d + total rest).
    change (length (d :: rest)) with (S (length rest)).
    rewrite S_INR. Lra.lra.
Qed.

Lemma maximum_bounds (rest : list R) :
  forall first,
    first <= maximum first rest /\
    Forall (fun d => d <= maximum first rest) rest.
Proof.
  unfold maximum. induction rest as [| d rest IH]; intros first; cbn.
  - split; [Lra.lra | constructor].
  - destruct (IH (Rmax first d)) as [Hm Hall].
    pose proof (Rmax_l first d). pose proof (Rmax_r first d).
    split; [Lra.lra |]. constructor; [Lra.lra | exact Hall].
Qed.

Lemma minimum_bounds (rest : list R) :
  forall first,
    minimum first rest <= first /\
    Forall (fun d => minimum first rest <= d) rest.
Proof.
  unfold minimum. induction rest as [| d rest IH]; intros first; cbn.
  - split; [Lra.lra | constructor].
  - destruct (IH (Rmin first d)) as [Hm Hall].
    pose proof (Rmin_l first d). pose proof (Rmin_r first d).
    split; [Lra.lra |]. constructor; [Lra.lra | exact Hall].
Qed.

Lemma minimum_positive (rest : list R) :
  forall first,
    0 < first -> Forall (fun d => 0 < d) rest -> 0 < minimum first rest.
Proof.
  unfold minimum.
  induction rest as [| d rest IH]; intros first Hf Hall; cbn; [exact Hf |].
  inversion Hall as [| ? ? Hd Hrest]; subst.
  apply IH; [| exact Hrest]. apply Rmin_glb_lt; assumption.
Qed.

Lemma average_bounds (lo hi : R) (times : list R) :
  times <> [] -> Forall (fun d => lo <= d <= hi) times ->
  lo <= average times <= hi.
Proof.
  intros Hne Hall. pose proof (total_bounds lo hi times Hall) as [Hlo Hhi].
  assert (Hn : 0 < INR (length times)).
  { apply lt_0_INR. destruct times; [contradiction | cbn; lia]. }
  unfold average. split.
  - apply Rmult_le_reg_l with (INR (length times)); [exact Hn |].
    unfold Rdiv. rewrite <- Rmult_assoc, Rinv_r_simpl_m; Lra.lra.
  - apply Rmult_le_reg_l with (INR (length times)); [exact Hn |].
    unfold Rdiv. rewrite <- Rmult_assoc, Rinv_r_simpl_m; Lra.lra.
Qed.

Lemma skipn_repeat {A : Type} (x : A) (k n : nat) :
  skipn k (repeat x n) = repeat x (n - k).
Proof.
  revert n. induction k as [| k IH]; intros n.
  - rewrite Nat.sub_0_r. reflexivity.
  - destruct n as [| n]; [reflexivity | cbn; apply IH].
Qed.

Lemma repeat_snoc {A : Type} (x : A) (n : nat) :
  (repeat x n ++ [x])%list = repeat x (S n).
Proof.
  induction n as [| n IH]; [reflexivity | cbn; rewrite IH; reflexivity].
Qed.

Lemma average_repeat (d : R) (n : nat) :
  average (repeat d (S n)) = d.
Proof.
  assert (Ht : forall m, total (repeat d m) = INR m * d).
  { induction m as [| m IH]; [cbn; Lra.lra |].
    change (total (repeat d (S m))) with (d + total (repeat d m)).
    rewrite IH, S_INR. Lra.lra. }
  unfold average. rewrite Ht, repeat_length.
  assert (0 < INR (S n)) by (apply lt_0_INR; lia).
  field. Lra.lra.
Qed.

(** X23: the rate returned by [tick] is the reciprocal of the mean recorded
    frame time, and it is positive; 0 is returned only while the window is
    empty.  The guard [avg_time > 0] never fails. *)
Theorem tick_reports_mean_rate (c : FPSCounter) (current_time : R) :
  positive_window c ->
  let fps := fst (tick c current_time) in
  let times := frame_times (snd (tick c current_time)) in
  (times = [] /\ fps = 0) \/
  (times <> [] /\ 0 < fps /\ fps * total times = INR (length times)).
Proof.
  intros Hpos.
  assert (Hpos' : positive_window (snd (tick c current_time))).
  { rewrite tick_state. unfold positive_window. cbn [frame_times].
    destruct (Rlt_dec 0 (current_time - last_time c)) as [Hd | Hd];
      [| exact Hpos].
    unfold Collections.deque_append. apply skipn_Forall, Forall_app.
    split; [exact Hpos | constructor; [exact Hd | constructor]]. }
  cbv zeta. rewrite tick_result. unfold positive_window in Hpos'.
  destruct (frame_times (snd (tick c current_time))) as [| d rest] eqn:E.
  - left. split; reflexivity.
  - right. split; [discriminate |].
    assert (Havg : 0 < average (d :: rest))
      by (apply average_positive; [exact Hpos' | discriminate]).
    destruct (rate_positive _ Havg) as [-> Hr]. split.
    + apply Rdiv_lt_0_compat; [Lra.lra | exact Havg].
    + unfold average in *.
      assert (Ht : 0 < total (d :: rest))
        by (apply total_positive; [exact Hpos' | discriminate]).
      assert (Hn : 0 < INR (length (d :: rest)))
        by (apply lt_0_INR; cbn; lia).
      field. split; Lra.lra.
Qed.

Lemma tick_reports_mean_rate_witness :
  let c := init None 0 in
  let fps := fst (tick c (1 / 2)) in
  let times := frame_times (snd (tick c (1 / 2))) in
  (times = [] /\ fps = 0) \/
  (times <> [] /\ 0 < fps /\ fps * total times = INR (length times)).
Proof.
  apply (tick_reports_mean_rate (init None 0) (1 / 2)). constructor.
Defined.

(** X24: in the statistics of a window that is not empty the three rates are
    ordered, [0 < min_fps <= fps <= max_fps], the jitter is not negative and
    latency and rate are reciprocal: [latency_ms * fps = 1000]. *)
Theorem stats_ordered (c : FPSCounter) :
  positive_window c -> frame_times c <> [] ->
  let s := get_stats c in
  0 < min_fps s /\ min_fps s <= fps s /\ fps s <= max_fps s /\
  0 <= jitter_ms s /\ latency_ms s * fps s = 1000.
Proof.
  unfold positive_window, get_stats. intros Hpos Hne.
  destruct (frame_times c) as [| first rest]; [contradiction |].
  cbn [min_fps fps max_fps jitter_ms latency_ms].
  inversion Hpos as [| ? ? Hfirst Hrest]; subst.
  destruct (maximum_bounds rest first) as [Hmax1 Hmax2].
  destruct (minimum_bounds rest first) as [Hmin1 Hmin2].
  pose proof (minimum_positive rest first Hfirst Hrest) as Hminpos.
  assert (Hb : minimum first rest <= average (first :: rest)
               <= maximum first rest).
  { apply average_bounds; [discriminate |]. constructor; [Lra.lra |].
    rewrite Forall_forall in Hmax2, Hmin2. apply Forall_forall.
    intros d Hd. split; [apply Hmin2 | apply Hmax2]; exact Hd. }
  assert (Havg : 0 < average (first :: rest)) by Lra.lra.
  repeat split.
  - apply rate_positive. Lra.lra.
  - apply rate_antitone; [exact Havg | apply Hb].
  - apply rate_antitone; [exact Hminpos | apply Hb].
  - apply Rmult_le_pos; [apply sqrt_pos | Lra.lra].
  - destruct (rate_positive _ Havg) as [-> _]. field. Lra.lra.
Qed.

Lemma stats_ordered_witness :
  let s := get_stats (mkFPS 30 [1; 2] 3 2) in
  0 < min_fps s /\ min_fps s <= fps s /\ fps s <= max_fps s /\
  0 <= jitter_ms s /\ latency_ms s * fps s = 1000.
Proof.
  apply (stats_ordered (mkFPS 30 [1; 2] 3 2)).
  - repeat constructor; Lra.lra.
  - discriminate.
Defined.

Lemma steady_ticks (window : nat) (start d : R) (n : nat) :
  0 < d ->
  let c := ticks (init (Some window) start)
             (map (fun k => start + INR k * d) (seq 1 n)) in
  frame_times c = repeat d (Nat.min n window) /\
  last_time c = start + INR n * d /\
  window_size c = window.
Proof.
  intros Hd. induction n as [| n IH]; cbv zeta.
  - cbn. repeat split. Lra.lra.
  - rewrite seq_S, map_app. unfold ticks in *. rewrite fold_left_app.
    cbv zeta in IH. destruct IH as (Hft & Hlast & Hw).
    cbn [map fold_left]. rewrite tick_state. cbn [frame_times last_time window_size].
    rewrite Hft, Hlast, Hw. change (1 + n)%nat with (S n).
    assert (Hdelta : start + INR (S n) * d - (start + INR n * d) = d)
      by (rewrite S_INR; Lra.lra).
    rewrite Hdelta. destruct (Rlt_dec 0 d) as [_ | Hn]; [| contradiction].
    repeat split. unfold Collections.deque_append.
    rewrite repeat_snoc, skipn_repeat, repeat_length. f_equal. lia.
Qed.

(** X25: frames that arrive at a steady interval [d] are reported at the rate
    [1 / d], from the first tick on and for every window size of at
    least 1. *)
Theorem steady_rate (window : nat) (start d : R) (n : nat) :
  0 < d -> (1 <= window)%nat ->
  let c := ticks (init (Some window) start)
             (map (fun k => start + INR k * d) (seq 1 n)) in
  fst (tick c (start + INR (S n) * d)) = 1 / d.
Proof.
  intros Hd Hw. cbv zeta.
  destruct (steady_ticks window start d n Hd) as (Hft & Hlast & Hws).
  rewrite tick_result, tick_state. cbn [frame_times].
  rewrite Hft, Hlast, Hws.
  assert (Hdelta : start + INR (S n) * d - (start + INR n * d) = d)
    by (rewrite S_INR; Lra.lra).
  rewrite Hdelta. destruct (Rlt_dec 0 d) as [_ | Hn]; [| contradiction].
  unfold Collections.deque_append.
  rewrite repeat_snoc, skipn_repeat, repeat_length.
  destruct (S (Nat.min n window) - (S (Nat.min n window) - window))%nat
    as [| m] eqn:E; [lia |].
  change (repeat d (S m)) with (d :: repeat d m).
  change (d :: repeat d m) with (repeat d (S m)).
  rewrite average_repeat. apply rate_positive. exact Hd.
Qed.

Lemma steady_rate_witness :
  let c := ticks (init (Some 2%nat) 0)
             (map (fun k => 0 + INR k * (1 / 30)) (seq 1 3)) in
  fst (tick c (0 + INR 4 * (1 / 30))) = 1 / (1 / 30).
Proof.
  apply (steady_rate 2 0 (1 / 30) 3); [Lra.lra | lia].
Defined.

Lemma tick_count (c : FPSCounter) (current_time : R) :
  length (frame_times c) = Nat.min (frame_count c) (window_size c) ->
  let c' := snd (tick c current_time) in
  length (frame_times c') = Nat.min (frame_count c') (window_size c') /\
  window_size c' = window_size c.
Proof.
  intros Hlen. cbv zeta. rewrite tick_state.
  cbn [frame_times frame_count window_size].
  destruct (Rlt_dec 0 (current_time - last_time c)); [| auto].
  unfold Collections.deque_append.
  rewrite length_skipn, length_app. cbn [length]. split; [lia | reflexivity].
Qed.

(** X26: whatever the clock readings, after any run of ticks on a new counter
    the window holds [min frame_count window_size] frame times, all of them
    positive: a reading that does not advance the clock is not recorded. *)
Theorem window_holds_counted_frames (window : option nat) (start : R)
    (readings : list R) :
  let c := ticks (init window start) readings in
  length (frame_times c) = Nat.min (frame_count c) (window_size c) /\
  positive_window c /\
  window_size c = window_size (init window start).
Proof.
  cbv zeta. unfold ticks.
  assert (Hgen : forall c0,
    length (frame_times c0) = Nat.min (frame_count c0) (window_size c0) ->
    positive_window c0 ->
    let c := fold_left (fun g t => snd (tick g t)) readings c0 in
    length (frame_times c) = Nat.min (frame_count c) (window_size c) /\
    positive_window c /\ window_size c = window_size c0).
  { induction readings as [| t readings IH]; intros c0 Hlen Hpos; cbv zeta.
    - cbn. auto.
    - cbn [fold_left].
      destruct (tick_count c0 t Hlen) as [Hlen' Hw].
      destruct (tick_window c0 t Hpos ltac:(lia)) as (Hpos' & _ & _).
      destruct (IH _ Hlen' Hpos') as (H1 & H2 & H3).
      repeat split; [exact H1 | exact H2 | congruence]. }
  apply Hgen; [cbn; lia | constructor].
Qed.

End FPSExtra.

(** ** The system controller *)

Module ControllerExtra.
Import Numpy NumpyFacts SystemController.
Local Open Scope Q_scope.

Lemma gate_closed (s : SafetyManager.SafetyManager) (a : string) (t1 t2 : Q) :
  SafetyManager.is_active s = false ->
  SafetyManager.can_perform_action s a t1 t2 = (false, s).
Proof.
  unfold SafetyManager.is_active, SafetyManager.can_perform_action.
  intros H. destruct (SafetyManager.enabled s), (SafetyManager.paused s);
    cbn in *; first [reflexivity | discriminate].
Qed.

Lemma gate_open (s s1 : SafetyManager.SafetyManager) (a : string)
    (t1 t2 : Q) :
  SafetyManager.can_perform_action s a t1 t2 = (true, s1) ->
  SafetyManager.enabled s1 = true /\ SafetyManager.paused s1 = false /\
  SafetyManager.cooldown_times s1 = SafetyManager.cooldown_times s.
Proof.
  unfold SafetyManager.can_perform_action.
  destruct (SafetyManager.enabled s) eqn:He,
           (SafetyManager.paused s) eqn:Hp; cbn [negb orb];
    try discriminate.
  destruct (match SafetyManager.action_cooldowns s !! a with
            | Some last => _ | None => false end); [discriminate |].
  destruct (String.eqb a "click").
  - unfold SafetyManager._check_click_rate.
    destruct (Z.of_nat _ <? _)%Z; cbn [negb]; [| discriminate].
    intros [= <-]. cbn. auto.
  - intros [= <-]. auto.
Qed.

Lemma gate_cooldowns (s s1 : SafetyManager.SafetyManager) (a : string)
    (t1 t2 : Q) (allowed : bool) :
  SafetyManager.can_perform_action s a t1 t2 = (allowed, s1) ->
  SafetyManager.action_cooldowns s1 = SafetyManager.action_cooldowns s.
Proof.
  unfold SafetyManager.can_perform_action.
  destruct (negb (SafetyManager.enabled s) || SafetyManager.paused s);
    [intros [= _ <-]; reflexivity |].
  destruct (match SafetyManager.action_cooldowns s !! a with
            | Some last => _ | None => false end);
    [intros [= _ <-]; reflexivity |].
  destruct (String.eqb a "click"); [| intros [= _ <-]; reflexivity].
  unfold SafetyManager._check_click_rate.
  destruct (Z.of_nat _ <? _)%Z; cbn [negb]; intros [= _ <-]; reflexivity.
Qed.

Section Devices.

Variable is_special_key : string -> bool.
Variable raises : device_call -> bool.

Lemma gated_closed (c : SystemController) (a : string)
    (calls : list device_call) (r : readings) :
  SafetyManager.is_active (safety c) = false ->
  gated raises c a calls r = ([], c).
Proof.
  intros H. unfold gated. rewrite (gate_closed _ _ _ _ H). cbn [negb].
  destruct c; reflexivity.
Qed.


(** X28: while the safety manager is not active (emergency stop or automatic
    pause) no named action reaches the mouse or the keyboard: the trace of
    [execute_action] is empty for every action name and every clock
    reading, the safety manager is left as it was, and [move_cursor] makes
    no call either. *)
Theorem inactive_safety_blocks_devices (c : SystemController)
    (action : string) (current_time : Q) (r : readings) (x y : Q)
    (smooth : bool) :
  SafetyManager.is_active (safety c) = false ->
  fst (execute_action is_special_key raises c action current_time r) = [] /\
  safety (snd (execute_action is_special_key raises c action current_time r))
  = safety c /\
  move_cursor c x y smooth = [].
Proof.
  intros H. split; [| split].
  - unfold execute_action, click, scroll, key_press.
    destruct (ltb _ _); [reflexivity |].
    repeat (destruct (String.eqb action _);
            [rewrite ?gated_closed by exact H; reflexivity |]).
    reflexivity.
  - unfold execute_action, click, scroll, key_press.
    destruct (ltb _ _); [reflexivity |].
    repeat (destruct (String.eqb action _);
            [rewrite ?gated_closed by exact H; reflexivity |]).
    reflexivity.
  - unfold move_cursor. rewrite H. destruct (cursor_enabled c); reflexivity.
Qed.

Lemma execute_action_time (c : SystemController) (action : string)
    (current_time : Q) (r : readings) :
  ltb (current_time - last_action_time c) (1 # 10) = false ->
  last_action_time
    (snd (execute_action is_special_key raises c action current_time r))
  = current_time.
Proof.
  intros H. unfold execute_action. rewrite H.
  destruct (if String.eqb action "left_click" then _ else _) as [done c1].
  reflexivity.
Qed.

(** X29: named actions are debounced.  After an action that was let through at
    clock reading [t1], a request read less than 0.1 s later does nothing at
    all, whatever the action: no device call, and the controller and its
    safety manager are left as they are (so the 0.1 s run from the last
    action that was let through, not from the last request). *)
Theorem execute_action_debounce (c : SystemController)
    (first second : string) (t1 t2 : Q) (r1 r2 : readings) :
  1 # 10 <= t1 - last_action_time c ->
  t2 - t1 < 1 # 10 ->
  let c1 := snd (execute_action is_special_key raises c first t1 r1) in
  execute_action is_special_key raises c1 second t2 r2 = ([], c1).
Proof.
  intros Hfirst Hsoon c1.
  assert (Ht : last_action_time c1 = t1).
  { apply execute_action_time. apply ltb_ge. exact Hfirst. }
  unfold execute_action at 1. rewrite Ht.
  apply ltb_lt in Hsoon. rewrite Hsoon. reflexivity.
Qed.

Lemma click_outcome (c : SystemController) (button : string)
    (double : bool) (r : readings) :
  exists call allowed s1,
    SafetyManager.can_perform_action (safety c) "click"
      (gate_cooldown r) (gate_rate r) = (allowed, s1) /\
    click raises c button double r =
      if negb allowed then ([], with_safety c s1)
      else if raises call then ([call], with_safety c s1)
      else ([call],
            with_safety c
              (SafetyManager.register_action s1 "click"
                 (register_cooldown r) (register_click r))).
Proof.
  unfold click, gated.
  set (call := mouse_click _ _). exists call.
  destruct (SafetyManager.can_perform_action (safety c) "click"
              (gate_cooldown r) (gate_rate r)) as [allowed s1].
  exists allowed, s1. split; [reflexivity |].
  destruct allowed; cbn [negb attempt]; [| reflexivity].
  destruct (raises call); reflexivity.
Qed.


End Devices.


Lemma inactive_safety_blocks_devices_witness :
  fst (execute_action (fun _ => true) (fun _ => false)
         (init (fst (SafetyManager.emergency_stop Examples.safety_fresh))
            (1920, 1080)%Z)
         "left_click" 10 (mkReadings 10 10 10 10)) = [].
Proof.
  apply (inactive_safety_blocks_devices (fun _ => true) (fun _ => false)
           (init (fst (SafetyManager.emergency_stop Examples.safety_fresh))
              (1920, 1080)%Z)
           "left_click" 10 (mkReadings 10 10 10 10) 0 0 true).
  reflexivity.
Defined.

Lemma execute_action_debounce_witness :
  let c1 := snd (execute_action (fun _ => true) (fun _ => false)
                   (init Examples.safety_fresh (1920, 1080)%Z)
                   "scroll_up" 10 (mkReadings 10 10 10 10)) in
  execute_action (fun _ => true) (fun _ => false) c1 "enter"
    (10 + (5 # 100)) (mkReadings 11 11 11 11) = ([], c1).
Proof.
  apply (execute_action_debounce (fun _ => true) (fun _ => false)
           (init Examples.safety_fresh (1920, 1080)%Z)
           "scroll_up" "enter" 10 (10 + (5 # 100))
           (mkReadings 10 10 10 10) (mkReadings 11 11 11 11)).
  - vm_compute. discriminate.
  - vm_compute. reflexivity.
Defined.


End ControllerExtra.
